(** * IgnisX: delegated authorisation and rebalance orchestration

    A shallow embedding of the three Solidity contracts of the repository

    - [PortfolioManager]     (packages/hardhat/contracts/PortfolioManager.sol)
    - [LitProtocolDelegate]  (the session authority)
    - [CrossChainRebalancer] (the rebalance-action state machine)

    Every external function becomes a function from the caller, the block
    and the storage to a [Result]: a [Revert] or [Panic] discards the
    storage written so far, exactly as the EVM rolls a transaction back.
    [uint256] values are [N] with Solidity 0.8 checked arithmetic written
    out ([checked_add]), mappings are [gmap]s read with [read] (an absent
    key reads as the all-zero value).  Event emission has
    no effect on storage or on results and is left out.  The Keccak hash,
    the Ethereum signed-message prefix and ECDSA recovery come from the
    compiler and from OpenZeppelin; they are taken as parameters
    ([Primitives]). *)

From stdpp Require Import gmap strings list fin_maps.
From Stdlib Require Import NArith Lia.

Local Open Scope N_scope.

(** ** Machine model *)

Abbreviation uint256 := N (only parsing).
Abbreviation address := N (only parsing).
Abbreviation bytes32 := N (only parsing).
Abbreviation bytes := (list Byte.byte) (only parsing).

Definition MAX_UINT256 : N := 2 ^ 256 - 1.

Inductive Result (A : Type) : Type :=
| Ok (a : A)
| Revert (reason : string)
| Panic (code : N).
Arguments Ok {A} a.
Arguments Revert {A} reason.
Arguments Panic {A} code.

#[global] Instance Result_ret : MRet Result := fun A a => Ok a.
#[global] Instance Result_bind : MBind Result := fun A B f m =>
  match m with
  | Ok a => f a
  | Revert r => Revert r
  | Panic c => Panic c
  end.

#[global] Instance Result_fmap : FMap Result := fun A B f m =>
  match m with
  | Ok a => Ok (f a)
  | Revert r => Revert r
  | Panic c => Panic c
  end.

Definition require (cond : bool) (reason : string) : Result unit :=
  if cond then Ok tt else Revert reason.

(** Solidity 0.8 arithmetic: overflow aborts with [Panic(0x11)]. *)
Definition checked_add (a b : uint256) : Result uint256 :=
  if a + b <=? MAX_UINT256 then Ok (a + b) else Panic 17.

Definition checked_mul (a b : uint256) : Result uint256 :=
  if a * b <=? MAX_UINT256 then Ok (a * b) else Panic 17.

Definition is_ok {A} (r : Result A) : bool :=
  match r with Ok _ => true | _ => false end.

Record Block := { timestamp : uint256; number : uint256 }.

(** A Solidity mapping: every key is present, an unwritten one holds the
    all-zero value of its type. *)
Class Zero (A : Type) := zero : A.
#[global] Instance N_zero : Zero N := 0.
#[global] Instance bool_zero : Zero bool := false.

Definition read `{Countable K} {V} `{Zero V} (m : gmap K V) (k : K) : V :=
  default zero (m !! k).

Notation "m .[ k ]" := (read m k) (at level 1, format "m .[ k ]").

(** Hashing and signature recovery, provided by the EVM and OpenZeppelin.
    Each hash is named after the tuple the source packs into it;
    [recover] reverts (returns no address) on a malformed signature. *)
Class Primitives := {
  keccak256_session : address -> address -> uint256 -> uint256 -> bytes32;
  keccak256_operation :
    address -> address -> uint256 -> uint256 -> bytes -> uint256 -> bytes32 -> bytes32;
  toEthSignedMessageHash : bytes32 -> bytes32;
  recover : bytes32 -> bytes -> Result address;
  keccak256_bytes : bytes -> bytes32;
  keccak256_action : address -> uint256 -> uint256 -> uint256 -> uint256 -> bytes32
}.

(** [Ownable.onlyOwner] *)
Definition onlyOwner (sender owner : address) : Result unit :=
  require (sender =? owner) "Ownable: caller is not the owner".

(** ** LitProtocolDelegate *)

Module DelegationSession.
Record t := mk {
  user : address;
  delegate : address;
  nonce : uint256;
  expiry : uint256;
  policyHash : bytes32;
  isActive : bool;
  maxOperations : uint256;
  operationsUsed : uint256
}.
#[global] Instance zero : Zero t := mk 0 0 0 0 0 false 0 0.
Definition set_isActive (b : bool) (s : t) : t :=
  mk (user s) (delegate s) (nonce s) (expiry s) (policyHash s) b
     (maxOperations s) (operationsUsed s).
Definition set_operationsUsed (n : uint256) (s : t) : t :=
  mk (user s) (delegate s) (nonce s) (expiry s) (policyHash s) (isActive s)
     (maxOperations s) n.
End DelegationSession.

Module SignedOperation.
Record t := mk {
  user : address;
  delegate : address;
  nonce : uint256;
  operationType : uint256;
  data : bytes;
  timestamp : uint256;
  signature : bytes
}.
End SignedOperation.

Module LitProtocolDelegate.
Module S := DelegationSession.
Module O := SignedOperation.

Record State := mkState {
  owner : address;
  delegationSessions : gmap bytes32 S.t;
  userNonces : gmap address uint256;
  usedSignatures : gmap bytes32 bool
}.

Definition init (deployer : address) : State := mkState deployer ∅ ∅ ∅.

Definition set_session (sessionId : bytes32) (s : S.t) (st : State) : State :=
  mkState (owner st) (<[sessionId := s]> (delegationSessions st))
          (userNonces st) (usedSignatures st).

Definition session (sessionId : bytes32) (st : State) : S.t :=
  (delegationSessions st).[sessionId].

(** [usedSignatures[h]] *)
Definition used (h : bytes32) (st : State) : bool := (usedSignatures st).[h].

(** The used-signature set of [st'] contains that of [st]. *)
Definition grows (st st' : State) : Prop :=
  forall h, used h st = true -> used h st' = true.

Section WithPrimitives.
Context {prim : Primitives}.

(** [keccak256(operation.signature)], the key of [usedSignatures]. *)
Definition sigHash (operation : O.t) : bytes32 :=
  keccak256_bytes (O.signature operation).

Definition validSession (blk : Block) (sessionId : bytes32) (st : State)
  : Result unit :=
  require (S.isActive (session sessionId st)) "Session not active";;
  require (timestamp blk <=? S.expiry (session sessionId st)) "Session expired";;
  require (S.operationsUsed (session sessionId st)
             <? S.maxOperations (session sessionId st))
          "Max operations exceeded".

Definition onlyDelegate (sender : address) (sessionId : bytes32) (st : State)
  : Result unit :=
  require (sender =? S.delegate (session sessionId st)) "Not authorized delegate".

Definition createDelegationSession (sender : address) (blk : Block)
    (user delegate : address) (expiry : uint256) (policyHash : bytes32)
    (maxOperations : uint256) (st : State) : Result (bytes32 * State) :=
  require (negb (user =? 0)) "Invalid user";;
  require (negb (delegate =? 0)) "Invalid delegate";;
  require (timestamp blk <? expiry) "Invalid expiry";;
  require (0 <? maxOperations) "Invalid max operations";;
  let nonce := (userNonces st).[user] in
  next ← checked_add nonce 1;
  let sessionId := keccak256_session user delegate nonce (timestamp blk) in
  let s := S.mk user delegate nonce expiry policyHash true maxOperations 0 in
  Ok (sessionId,
      mkState (owner st) (<[sessionId := s]> (delegationSessions st))
              (<[user := next]> (userNonces st)) (usedSignatures st)).

Definition revokeDelegationSession (sender : address) (sessionId : bytes32)
    (st : State) : Result State :=
  let s := session sessionId st in
  require ((S.user s =? sender) || (sender =? owner st)) "Not authorized";;
  require (S.isActive s) "Session not active";;
  Ok (set_session sessionId (S.set_isActive false s) st).

Definition messageHash (operation : O.t) (s : S.t) : bytes32 :=
  keccak256_operation (O.user operation) (O.delegate operation)
    (O.nonce operation) (O.operationType operation) (O.data operation)
    (O.timestamp operation) (S.policyHash s).

Definition verifySignedOperation (sender : address) (blk : Block)
    (sessionId : bytes32) (operation : O.t) (st : State)
  : Result (bool * State) :=
  validSession blk sessionId st;;
  let s := session sessionId st in
  require (O.user operation =? S.user s) "Invalid user";;
  require (O.delegate operation =? S.delegate s) "Invalid delegate";;
  require (O.nonce operation =? S.nonce s) "Invalid nonce";;
  let ethSignedMessageHash := toEthSignedMessageHash (messageHash operation s) in
  signer ← recover ethSignedMessageHash (O.signature operation);
  let valid := signer =? S.user s in
  let signatureHash := keccak256_bytes (O.signature operation) in
  require (negb (usedSignatures st).[signatureHash]) "Signature already used";;
  Ok (valid,
      mkState (owner st) (delegationSessions st) (userNonces st)
              (<[signatureHash := true]> (usedSignatures st))).

Definition executeOperation (sender : address) (blk : Block)
    (sessionId : bytes32) (operation : O.t) (operationHash : bytes32)
    (st : State) : Result State :=
  onlyDelegate sender sessionId st;;
  '(valid, st1) ← verifySignedOperation sender blk sessionId operation st;
  require valid "Invalid signature";;
  let s := session sessionId st1 in
  used ← checked_add (S.operationsUsed s) 1;
  Ok (set_session sessionId (S.set_operationsUsed used s) st1).

(** The loop of [batchExecuteOperations]. *)
Fixpoint verifyEach (sender : address) (blk : Block) (sessionId : bytes32)
    (operations : list O.t) (st : State) : Result State :=
  match operations with
  | [] => Ok st
  | operation :: rest =>
      '(valid, st1) ← verifySignedOperation sender blk sessionId operation st;
      require valid "Invalid signature";;
      verifyEach sender blk sessionId rest st1
  end.

Definition batchExecuteOperations (sender : address) (blk : Block)
    (sessionId : bytes32) (operations : list O.t)
    (operationHashes : list bytes32) (st : State) : Result State :=
  onlyDelegate sender sessionId st;;
  require (bool_decide (length operations = length operationHashes))
          "Invalid input length";;
  require (negb (bool_decide (length operations = 0%nat)))
          "No operations provided";;
  let len := N.of_nat (length operations) in
  total ← checked_add (S.operationsUsed (session sessionId st)) len;
  require (total <=? S.maxOperations (session sessionId st))
          "Exceeds max operations";;
  st1 ← verifyEach sender blk sessionId operations st;
  let s := session sessionId st1 in
  used ← checked_add (S.operationsUsed s) len;
  Ok (set_session sessionId (S.set_operationsUsed used s) st1).

Definition isSessionValid (blk : Block) (sessionId : bytes32) (st : State)
  : bool :=
  let s := session sessionId st in
  S.isActive s && (timestamp blk <=? S.expiry s)
    && (S.operationsUsed s <? S.maxOperations s).

Definition emergencyRevokeUserSessions (sender : address) (user : address)
    (st : State) : Result State :=
  onlyOwner sender (owner st);;
  Ok st.

(** The state-changing entry points, as transactions. *)
Inductive Call :=
| CreateDelegationSession (user delegate : address) (expiry : uint256)
    (policyHash : bytes32) (maxOperations : uint256)
| RevokeDelegationSession (sessionId : bytes32)
| VerifySignedOperation (sessionId : bytes32) (operation : O.t)
| ExecuteOperation (sessionId : bytes32) (operation : O.t)
    (operationHash : bytes32)
| BatchExecuteOperations (sessionId : bytes32) (operations : list O.t)
    (operationHashes : list bytes32)
| EmergencyRevokeUserSessions (user : address).

Definition call (sender : address) (blk : Block) (c : Call) (st : State)
  : Result State :=
  match c with
  | CreateDelegationSession u d e p m =>
      snd <$> createDelegationSession sender blk u d e p m st
  | RevokeDelegationSession sid => revokeDelegationSession sender sid st
  | VerifySignedOperation sid op =>
      snd <$> verifySignedOperation sender blk sid op st
  | ExecuteOperation sid op h => executeOperation sender blk sid op h st
  | BatchExecuteOperations sid ops hs =>
      batchExecuteOperations sender blk sid ops hs st
  | EmergencyRevokeUserSessions u => emergencyRevokeUserSessions sender u st
  end.

Record Tx := mkTx { tx_sender : address; tx_block : Block; tx_call : Call }.

(** A transaction that aborts leaves the storage as it was. *)
Definition transact (tx : Tx) (st : State) : State :=
  match call (tx_sender tx) (tx_block tx) (tx_call tx) st with
  | Ok st' => st'
  | _ => st
  end.

Definition run (txs : list Tx) (st : State) : State :=
  fold_left (fun s tx => transact tx s) txs st.
End WithPrimitives.
End LitProtocolDelegate.

(** ** PortfolioManager *)

Module Asset.
Record t := mk {
  tokenAddress : address;
  chainId : uint256;
  targetPercentage : uint256;
  isActive : bool
}.
End Asset.

Module Portfolio.
Record t := mk {
  assets : list Asset.t;
  totalValue : uint256;
  lastRebalance : uint256;
  isActive : bool
}.
#[global] Instance zero : Zero t := mk [] 0 0 false.
Definition set_assets (l : list Asset.t) (p : t) : t :=
  mk l (totalValue p) (lastRebalance p) (isActive p).
End Portfolio.

Module DelegationPolicy.
Record t := mk {
  delegate : address;
  maxSlippage : uint256;
  maxRebalanceAmount : uint256;
  rebalanceThreshold : uint256;
  cooldownPeriod : uint256;
  isActive : bool
}.
#[global] Instance zero : Zero t := mk 0 0 0 0 0 false.
Definition set_isActive (b : bool) (p : t) : t :=
  mk (delegate p) (maxSlippage p) (maxRebalanceAmount p)
     (rebalanceThreshold p) (cooldownPeriod p) b.
End DelegationPolicy.

Module PortfolioManager.
Module A := Asset.
Module P := Portfolio.
Module D := DelegationPolicy.

Record State := mkState {
  owner : address;
  portfolios : gmap address P.t;
  delegationPolicies : gmap address D.t;
  userBalances : gmap (address * address) uint256
}.

Definition init (deployer : address) : State := mkState deployer ∅ ∅ ∅.

Definition portfolio (user : address) (st : State) : P.t :=
  (portfolios st).[user].
Definition policy (user : address) (st : State) : D.t :=
  (delegationPolicies st).[user].
Definition balance (user token : address) (st : State) : uint256 :=
  (userBalances st).[(user, token)].

Definition set_portfolio (user : address) (p : P.t) (st : State) : State :=
  mkState (owner st) (<[user := p]> (portfolios st)) (delegationPolicies st)
          (userBalances st).
Definition set_policy (user : address) (d : D.t) (st : State) : State :=
  mkState (owner st) (portfolios st) (<[user := d]> (delegationPolicies st))
          (userBalances st).

Definition onlyPortfolioOwner (sender user : address) (st : State)
  : Result unit :=
  require ((sender =? user) || (sender =? owner st)) "Not portfolio owner".

Definition validPercentage (percentage : uint256) : Result unit :=
  require (percentage <=? 10000) "Invalid percentage".

Definition portfolioExists (user : address) (st : State) : Result unit :=
  require (P.isActive (portfolio user st)) "Portfolio does not exist".

(** The validation loop shared by [createPortfolio] and [updatePortfolio];
    [totalPercentage] is the running sum. *)
Fixpoint sumTargets (assets : list A.t) (totalPercentage : uint256)
  : Result uint256 :=
  match assets with
  | [] => Ok totalPercentage
  | a :: rest =>
      require (negb (A.tokenAddress a =? 0)) "Invalid token address";;
      require (0 <? A.targetPercentage a) "Target percentage must be > 0";;
      total ← checked_add totalPercentage (A.targetPercentage a);
      sumTargets rest total
  end.

Definition createPortfolio (sender user : address) (assets : list A.t)
    (st : State) : Result State :=
  onlyPortfolioOwner sender user st;;
  require (negb (P.isActive (portfolio user st))) "Portfolio already exists";;
  require (negb (bool_decide (length assets = 0%nat)))
          "Portfolio must have at least one asset";;
  totalPercentage ← sumTargets assets 0;
  require (totalPercentage =? 10000) "Total percentage must equal 100%";;
  Ok (set_portfolio user (P.mk assets 0 0 true) st).

Definition updatePortfolio (sender user : address) (assets : list A.t)
    (st : State) : Result State :=
  onlyPortfolioOwner sender user st;;
  portfolioExists user st;;
  require (negb (bool_decide (length assets = 0%nat)))
          "Portfolio must have at least one asset";;
  totalPercentage ← sumTargets assets 0;
  require (totalPercentage =? 10000) "Total percentage must equal 100%";;
  Ok (set_portfolio user (P.set_assets assets (portfolio user st)) st).

(** The duplicate check of [addAsset]. *)
Fixpoint requireAbsent (assets : list A.t) (tokenAddress : address)
    (chainId : uint256) : Result unit :=
  match assets with
  | [] => Ok tt
  | a :: rest =>
      require (negb (A.tokenAddress a =? tokenAddress)
               || negb (A.chainId a =? chainId)) "Asset already exists";;
      requireAbsent rest tokenAddress chainId
  end.

Definition addAsset (sender user tokenAddress : address)
    (chainId targetPercentage : uint256) (st : State) : Result State :=
  onlyPortfolioOwner sender user st;;
  portfolioExists user st;;
  validPercentage targetPercentage;;
  let p := portfolio user st in
  requireAbsent (P.assets p) tokenAddress chainId;;
  Ok (set_portfolio user
        (P.set_assets
           (P.assets p ++ [A.mk tokenAddress chainId targetPercentage true]) p)
        st).

(** Index of the first asset with this token and chain. *)
Fixpoint findAsset (assets : list A.t) (tokenAddress : address)
    (chainId : uint256) : option nat :=
  match assets with
  | [] => None
  | a :: rest =>
      if (A.tokenAddress a =? tokenAddress) && (A.chainId a =? chainId)
      then Some 0%nat
      else S <$> findAsset rest tokenAddress chainId
  end.

(** [assets[i] = assets[assets.length - 1]; assets.pop()] *)
Definition swapRemove (i : nat) (assets : list A.t) : list A.t :=
  match last assets with
  | Some final => take (length assets - 1) (<[i := final]> assets)
  | None => assets
  end.

Definition removeAsset (sender user tokenAddress : address)
    (chainId : uint256) (st : State) : Result State :=
  onlyPortfolioOwner sender user st;;
  portfolioExists user st;;
  let p := portfolio user st in
  match findAsset (P.assets p) tokenAddress chainId with
  | Some i => Ok (set_portfolio user (P.set_assets (swapRemove i (P.assets p)) p) st)
  | None => Revert "Asset not found"
  end.

Definition setDelegationPolicy (sender user delegate : address)
    (maxSlippage maxRebalanceAmount rebalanceThreshold cooldownPeriod : uint256)
    (st : State) : Result State :=
  onlyPortfolioOwner sender user st;;
  portfolioExists user st;;
  require (negb (delegate =? 0)) "Invalid delegate address";;
  require (maxSlippage <=? 1000) "Max slippage too high";;
  require (rebalanceThreshold <=? 1000) "Rebalance threshold too high";;
  require (3600 <=? cooldownPeriod) "Cooldown period too short";;
  Ok (set_policy user
        (D.mk delegate maxSlippage maxRebalanceAmount rebalanceThreshold
              cooldownPeriod true) st).

Definition revokeDelegation (sender user : address) (st : State)
  : Result State :=
  onlyPortfolioOwner sender user st;;
  Ok (set_policy user (D.set_isActive false (policy user st)) st).

Definition updateBalance (sender user tokenAddress : address)
    (newBalance : uint256) (st : State) : Result State :=
  require (D.isActive (policy user st)) "Delegation not active";;
  require (sender =? D.delegate (policy user st)) "Not authorized delegate";;
  Ok (mkState (owner st) (portfolios st) (delegationPolicies st)
              (<[(user, tokenAddress) := newBalance]> (userBalances st))).

Definition executeRebalance (sender : address) (blk : Block) (user : address)
    (totalValue : uint256) (st : State) : Result State :=
  require (D.isActive (policy user st)) "Delegation not active";;
  require (sender =? D.delegate (policy user st)) "Not authorized delegate";;
  ready ← checked_add (P.lastRebalance (portfolio user st))
                      (D.cooldownPeriod (policy user st));
  require (ready <=? timestamp blk) "Cooldown period not met";;
  let p := portfolio user st in
  Ok (set_portfolio user (P.mk (P.assets p) totalValue (timestamp blk) (P.isActive p))
                    st).

Definition drift (current target : uint256) : uint256 :=
  if target <? current then current - target else target - current.

(** The loop of [needsRebalancing]: the first drift above the threshold
    answers [true]. *)
Fixpoint anyDriftAbove (threshold : uint256) (currentAllocations : list uint256)
    (assets : list A.t) : bool :=
  match currentAllocations, assets with
  | c :: cs, a :: rest =>
      if threshold <? drift c (A.targetPercentage a) then true
      else anyDriftAbove threshold cs rest
  | _, _ => false
  end.

Definition needsRebalancing (blk : Block) (user : address)
    (currentAllocations : list uint256) (st : State) : Result bool :=
  if negb (D.isActive (policy user st)) then Ok false else
  ready ← checked_add (P.lastRebalance (portfolio user st))
                      (D.cooldownPeriod (policy user st));
  if timestamp blk <? ready then Ok false else
  require (bool_decide (length currentAllocations
                        = length (P.assets (portfolio user st))))
          "Invalid allocation length";;
  Ok (anyDriftAbove (D.rebalanceThreshold (policy user st)) currentAllocations
                    (P.assets (portfolio user st))).

Inductive Call :=
| CreatePortfolio (user : address) (assets : list A.t)
| UpdatePortfolio (user : address) (assets : list A.t)
| AddAsset (user tokenAddress : address) (chainId targetPercentage : uint256)
| RemoveAsset (user tokenAddress : address) (chainId : uint256)
| SetDelegationPolicy (user delegate : address)
    (maxSlippage maxRebalanceAmount rebalanceThreshold cooldownPeriod : uint256)
| RevokeDelegation (user : address)
| UpdateBalance (user tokenAddress : address) (newBalance : uint256)
| ExecuteRebalance (user : address) (totalValue : uint256).

Definition call (sender : address) (blk : Block) (c : Call) (st : State)
  : Result State :=
  match c with
  | CreatePortfolio u l => createPortfolio sender u l st
  | UpdatePortfolio u l => updatePortfolio sender u l st
  | AddAsset u t c p => addAsset sender u t c p st
  | RemoveAsset u t c => removeAsset sender u t c st
  | SetDelegationPolicy u d s m t c => setDelegationPolicy sender u d s m t c st
  | RevokeDelegation u => revokeDelegation sender u st
  | UpdateBalance u t b => updateBalance sender u t b st
  | ExecuteRebalance u v => executeRebalance sender blk u v st
  end.

Record Tx := mkTx { tx_sender : address; tx_block : Block; tx_call : Call }.

(** A transaction that aborts leaves the storage as it was. *)
Definition transact (tx : Tx) (st : State) : State :=
  match call (tx_sender tx) (tx_block tx) (tx_call tx) st with
  | Ok st' => st'
  | _ => st
  end.

Definition run (txs : list Tx) (st : State) : State :=
  fold_left (fun s tx => transact tx s) txs st.

(** The portfolio invariant of the data model. *)
Fixpoint totalTarget (assets : list A.t) : N :=
  match assets with
  | [] => 0
  | a :: rest => A.targetPercentage a + totalTarget rest
  end.

Definition allocationValid (assets : list A.t) : Prop :=
  totalTarget assets = 10000 /\ Forall (fun a => 0 < A.targetPercentage a) assets.



(** The drift of the specification: the largest [|current_i - target_i|]. *)
Definition absDiff (a b : N) : N := N.max a b - N.min a b.

Fixpoint maxDrift (currentAllocations : list uint256) (assets : list A.t) : N :=
  match currentAllocations, assets with
  | c :: cs, a :: rest =>
      N.max (absDiff c (A.targetPercentage a)) (maxDrift cs rest)
  | _, _ => 0
  end.
End PortfolioManager.

(** ** CrossChainRebalancer *)

Module SwapParams.
Record t := mk {
  tokenIn : address;
  tokenOut : address;
  amountIn : uint256;
  minAmountOut : uint256;
  chainId : uint256;
  routeId : bytes32
}.
End SwapParams.

Module BridgeParams.
Record t := mk {
  token : address;
  amount : uint256;
  fromChainId : uint256;
  toChainId : uint256;
  bridgeId : bytes32
}.
End BridgeParams.

Module RebalanceAction.
Record t := mk {
  user : address;
  swaps : list SwapParams.t;
  bridges : list BridgeParams.t;
  totalValue : uint256;
  timestamp : uint256;
  executed : bool
}.
#[global] Instance zero : Zero t := mk 0 [] [] 0 0 false.
Definition set_executed (b : bool) (a : t) : t :=
  mk (user a) (swaps a) (bridges a) (totalValue a) (timestamp a) b.
End RebalanceAction.

Module CrossChainRebalancer.
Module R := RebalanceAction.
Module Sw := SwapParams.
Module Br := BridgeParams.

(** Storage of the rebalancer; [self] is [address(this)], the sender
    seen by the PortfolioManager when the rebalancer calls it. *)
Record State := mkState {
  owner : address;
  self : address;
  rebalanceActions : gmap bytes32 R.t;
  authorizedAgents : gmap address bool;
  chainTokenPrices : gmap (uint256 * address) uint256
}.

(** The rebalancer together with the PortfolioManager it was constructed
    with: a call that aborts in either contract aborts the transaction. *)
Record World := mkWorld {
  manager : PortfolioManager.State;
  rebalancer : State
}.

Definition init (deployer this managerDeployer : address) : World :=
  mkWorld (PortfolioManager.init managerDeployer) (mkState deployer this ∅ ∅ ∅).

Definition action (actionId : bytes32) (w : World) : R.t :=
  (rebalanceActions (rebalancer w)).[actionId].

Definition set_action (actionId : bytes32) (a : R.t) (w : World) : World :=
  let rb := rebalancer w in
  mkWorld (manager w)
    (mkState (owner rb) (self rb) (<[actionId := a]> (rebalanceActions rb))
             (authorizedAgents rb) (chainTokenPrices rb)).

Definition set_manager (pm : PortfolioManager.State) (w : World) : World :=
  mkWorld pm (rebalancer w).

Definition onlyAuthorizedAgent (sender : address) (w : World) : Result unit :=
  require (authorizedAgents (rebalancer w)).[sender] "Not authorized agent".

Definition validAction (actionId : bytes32) (w : World) : Result unit :=
  require (negb (R.user (action actionId w) =? 0)) "Invalid action";;
  require (negb (R.executed (action actionId w))) "Action already executed".

Definition setAuthorizedAgent (sender agent : address) (authorized : bool)
    (w : World) : Result World :=
  let rb := rebalancer w in
  onlyOwner sender (owner rb);;
  Ok (mkWorld (manager w)
        (mkState (owner rb) (self rb) (rebalanceActions rb)
                 (<[agent := authorized]> (authorizedAgents rb))
                 (chainTokenPrices rb))).

Definition updateTokenPrice (sender : address) (chainId : uint256)
    (token : address) (price : uint256) (w : World) : Result World :=
  let rb := rebalancer w in
  onlyOwner sender (owner rb);;
  Ok (mkWorld (manager w)
        (mkState (owner rb) (self rb) (rebalanceActions rb) (authorizedAgents rb)
                 (<[(chainId, token) := price]> (chainTokenPrices rb)))).

Section WithPrimitives.
Context {prim : Primitives}.

Definition actionIdOf (blk : Block) (user : address)
    (swaps : list Sw.t) (bridges : list Br.t) : bytes32 :=
  keccak256_action user (timestamp blk) (number blk)
    (N.of_nat (length swaps)) (N.of_nat (length bridges)).

Definition createRebalanceAction (sender : address) (blk : Block)
    (user : address) (swaps : list Sw.t) (bridges : list Br.t)
    (totalValue : uint256) (w : World) : Result (bytes32 * World) :=
  onlyAuthorizedAgent sender w;;
  require (negb (user =? 0)) "Invalid user";;
  require (0 <? totalValue) "Invalid total value";;
  let actionId := actionIdOf blk user swaps bridges in
  Ok (actionId,
      set_action actionId
        (R.mk user swaps bridges totalValue (timestamp blk) false) w).
End WithPrimitives.

Definition executeSwap (sender : address) (actionId : bytes32)
    (swapIndex actualAmountOut : uint256) (w : World) : Result World :=
  onlyAuthorizedAgent sender w;;
  validAction actionId w;;
  let a := action actionId w in
  require (swapIndex <? N.of_nat (length (R.swaps a))) "Invalid swap index";;
  match R.swaps a !! N.to_nat swapIndex with
  | None => Panic 50
  | Some swap =>
      require (Sw.minAmountOut swap <=? actualAmountOut) "Slippage too high";;
      pm1 ← PortfolioManager.updateBalance (self (rebalancer w)) (R.user a)
              (Sw.tokenIn swap) 0 (manager w);
      pm2 ← PortfolioManager.updateBalance (self (rebalancer w)) (R.user a)
              (Sw.tokenOut swap) actualAmountOut pm1;
      Ok (set_manager pm2 w)
  end.

Definition executeBridge (sender : address) (actionId : bytes32)
    (bridgeIndex actualAmount : uint256) (w : World) : Result World :=
  onlyAuthorizedAgent sender w;;
  validAction actionId w;;
  let a := action actionId w in
  require (bridgeIndex <? N.of_nat (length (R.bridges a))) "Invalid bridge index";;
  match R.bridges a !! N.to_nat bridgeIndex with
  | None => Panic 50
  | Some bridge =>
      require (0 <? actualAmount) "Invalid bridge amount";;
      pm1 ← PortfolioManager.updateBalance (self (rebalancer w)) (R.user a)
              (Br.token bridge) actualAmount (manager w);
      Ok (set_manager pm1 w)
  end.

Definition completeRebalanceAction (sender : address) (blk : Block)
    (actionId : bytes32) (w : World) : Result World :=
  onlyAuthorizedAgent sender w;;
  validAction actionId w;;
  let a := action actionId w in
  let w1 := set_action actionId (R.set_executed true a) w in
  pm1 ← PortfolioManager.executeRebalance (self (rebalancer w)) blk (R.user a)
          (R.totalValue a) (manager w1);
  Ok (set_manager pm1 w1).

Definition emergencyPause (sender : address) (actionId : bytes32) (w : World)
  : Result World :=
  onlyOwner sender (owner (rebalancer w));;
  let a := action actionId w in
  require (negb (R.user a =? 0)) "Invalid action";;
  Ok (set_action actionId (R.set_executed true a) w).

Definition getTokenPrice (chainId : uint256) (token : address) (w : World)
  : uint256 :=
  (chainTokenPrices (rebalancer w)).[(chainId, token)].

(** [(currentBalances[i] * chainTokenPrices[assets[i].chainId][tokens[i]]) / 1e18] *)
Definition valueOf (w : World) (token : address) (currentBalance : uint256)
    (a : Asset.t) : Result uint256 :=
  product ← checked_mul currentBalance (getTokenPrice (Asset.chainId a) token w);
  Ok (product / 10 ^ 18).

(** The first loop of [calculateDrift]; [totalValue] is the running sum. *)
Fixpoint sumValues (w : World) (tokens : list address)
    (currentBalances : list uint256) (assets : list Asset.t)
    (totalValue : uint256) : Result uint256 :=
  match tokens, currentBalances, assets with
  | token :: ts, b :: bs, a :: rest =>
      value ← valueOf w token b a;
      total ← checked_add totalValue value;
      sumValues w ts bs rest total
  | _, _, _ => Ok totalValue
  end.

Definition currentPercentageOf (currentValue totalValue : uint256)
  : Result uint256 :=
  if 0 <? totalValue
  then scaled ← checked_mul currentValue 10000; Ok (scaled / totalValue)
  else Ok 0.

(** The second loop of [calculateDrift]. *)
Fixpoint driftsOf (w : World) (tokens : list address)
    (currentBalances : list uint256) (assets : list Asset.t)
    (totalValue : uint256) : Result (list uint256) :=
  match tokens, currentBalances, assets with
  | token :: ts, b :: bs, a :: rest =>
      currentValue ← valueOf w token b a;
      currentPercentage ← currentPercentageOf currentValue totalValue;
      others ← driftsOf w ts bs rest totalValue;
      Ok (PortfolioManager.drift currentPercentage (Asset.targetPercentage a)
            :: others)
  | _, _, _ => Ok []
  end.

Definition calculateDrift (user : address) (tokens : list address)
    (currentBalances : list uint256) (w : World) : Result (list uint256) :=
  let assets := Portfolio.assets (PortfolioManager.portfolio user (manager w)) in
  require (bool_decide (length tokens = length currentBalances))
          "Invalid input length";;
  require (bool_decide (length tokens = length assets)) "Invalid portfolio length";;
  totalValue ← sumValues w tokens currentBalances assets 0;
  driftsOf w tokens currentBalances assets totalValue.

Section Transactions.
Context {prim : Primitives}.

(** Transactions of the combined system: the rebalancer's entry points
    and direct calls to the PortfolioManager. *)
Inductive Call :=
| SetAuthorizedAgent (agent : address) (authorized : bool)
| UpdateTokenPrice (chainId : uint256) (token : address) (price : uint256)
| CreateRebalanceAction (user : address) (swaps : list Sw.t)
    (bridges : list Br.t) (totalValue : uint256)
| ExecuteSwap (actionId : bytes32) (swapIndex actualAmountOut : uint256)
| ExecuteBridge (actionId : bytes32) (bridgeIndex actualAmount : uint256)
| CompleteRebalanceAction (actionId : bytes32)
| EmergencyPause (actionId : bytes32)
| Manager (c : PortfolioManager.Call).

Definition call (sender : address) (blk : Block) (c : Call) (w : World)
  : Result World :=
  match c with
  | SetAuthorizedAgent a b => setAuthorizedAgent sender a b w
  | UpdateTokenPrice c t p => updateTokenPrice sender c t p w
  | CreateRebalanceAction u s b v =>
      snd <$> createRebalanceAction sender blk u s b v w
  | ExecuteSwap i k x => executeSwap sender i k x w
  | ExecuteBridge i k x => executeBridge sender i k x w
  | CompleteRebalanceAction i => completeRebalanceAction sender blk i w
  | EmergencyPause i => emergencyPause sender i w
  | Manager c =>
      (fun pm => set_manager pm w) <$> PortfolioManager.call sender blk c (manager w)
  end.

Record Tx := mkTx { tx_sender : address; tx_block : Block; tx_call : Call }.

Definition transact (tx : Tx) (w : World) : World :=
  match call (tx_sender tx) (tx_block tx) (tx_call tx) w with
  | Ok w' => w'
  | _ => w
  end.

Definition run (txs : list Tx) (w : World) : World :=
  fold_left (fun s tx => transact tx s) txs w.
End Transactions.
End CrossChainRebalancer.

(** ** IgnisX, the facade

    The facade deploys the three contracts and owns them; every call it
    forwards reaches them with the facade's own address as caller. *)

(** The hashes the facade and [createPolicyHash] compute, named after the
    tuples they pack. *)
Class FacadePrimitives := {
  keccak256_policy : uint256 -> uint256 -> uint256 -> uint256 -> bytes32;
  keccak256_trigger : address -> uint256 -> uint256 -> bytes32;
  keccak256_leg : bytes32 -> uint256 -> uint256 -> uint256 -> bytes32;
  keccak256_complete : bytes32 -> uint256 -> bytes32
}.

Module IgnisX.
Module Lit := LitProtocolDelegate.
Module PM := PortfolioManager.
Module RB := CrossChainRebalancer.

Record State := mkState {
  owner : address;
  self : address;
  portfolioManager : PM.State;
  rebalancer : RB.State;
  litDelegate : Lit.State
}.

(** The constructor: the three contracts are created by the facade, which
    is therefore their owner; [rebalancerAddress] is the address the new
    rebalancer gets. *)
Definition deploy (deployer this rebalancerAddress : address) : State :=
  mkState deployer this (PM.init this)
          (RB.mkState this rebalancerAddress ∅ ∅ ∅) (Lit.init this).

Definition world (st : State) : RB.World :=
  RB.mkWorld (portfolioManager st) (rebalancer st).

Definition set_world (w : RB.World) (st : State) : State :=
  mkState (owner st) (self st) (RB.manager w) (RB.rebalancer w) (litDelegate st).

Definition set_lit (lit : Lit.State) (st : State) : State :=
  mkState (owner st) (self st) (portfolioManager st) (rebalancer st) lit.

Definition set_manager (pm : PM.State) (st : State) : State :=
  mkState (owner st) (self st) pm (rebalancer st) (litDelegate st).

Definition rebalancerAddress (st : State) : address := RB.self (rebalancer st).

Definition authorized (sender user : address) (st : State) : Result unit :=
  require ((sender =? user) || (sender =? owner st)) "Not authorized".

Section WithPrimitives.
Context {prim : Primitives} {fprim : FacadePrimitives}.

(** [LitProtocolDelegate.createPolicyHash] *)
Definition createPolicyHash
    (maxSlippage maxRebalanceAmount rebalanceThreshold cooldownPeriod : uint256)
  : bytes32 :=
  keccak256_policy maxSlippage maxRebalanceAmount rebalanceThreshold cooldownPeriod.

Definition enableAutopilot (sender : address) (blk : Block) (user : address)
    (maxSlippage maxRebalanceAmount rebalanceThreshold cooldownPeriod
       sessionExpiry maxOperations : uint256) (st : State)
  : Result (bytes32 * State) :=
  authorized sender user st;;
  let policyHash :=
    createPolicyHash maxSlippage maxRebalanceAmount rebalanceThreshold
      cooldownPeriod in
  '(sessionId, lit) ←
     Lit.createDelegationSession (self st) blk user (rebalancerAddress st)
       sessionExpiry policyHash maxOperations (litDelegate st);
  pm ← PM.setDelegationPolicy (self st) user (rebalancerAddress st) maxSlippage
         maxRebalanceAmount rebalanceThreshold cooldownPeriod
         (portfolioManager st);
  Ok (sessionId, set_manager pm (set_lit lit st)).

Definition disableAutopilot (sender user : address) (st : State) : Result State :=
  authorized sender user st;;
  pm ← PM.revokeDelegation (self st) user (portfolioManager st);
  Ok (set_manager pm st).

(** The step the four session-guarded entry points share: the
    [isSessionValid] check and the forwarded [executeOperation]. *)
Definition consume (blk : Block) (sessionId : bytes32)
    (operationSignature : SignedOperation.t) (operationHash : bytes32)
    (st : State) : Result State :=
  require (Lit.isSessionValid blk sessionId (litDelegate st)) "Invalid session";;
  lit ← Lit.executeOperation (self st) blk sessionId operationSignature
          operationHash (litDelegate st);
  Ok (set_lit lit st).

Definition triggerRebalancing (sender : address) (blk : Block) (user : address)
    (swaps : list SwapParams.t) (bridges : list BridgeParams.t)
    (totalValue : uint256) (sessionId : bytes32)
    (operationSignature : SignedOperation.t) (st : State)
  : Result (bytes32 * State) :=
  st1 ← consume blk sessionId operationSignature
          (keccak256_trigger user totalValue (timestamp blk)) st;
  '(actionId, w) ←
     RB.createRebalanceAction (self st) blk user swaps bridges totalValue
       (world st1);
  Ok (actionId, set_world w st1).

Definition executeSwap (sender : address) (blk : Block) (actionId : bytes32)
    (swapIndex actualAmountOut : uint256) (sessionId : bytes32)
    (operationSignature : SignedOperation.t) (st : State) : Result State :=
  st1 ← consume blk sessionId operationSignature
          (keccak256_leg actionId swapIndex actualAmountOut (timestamp blk)) st;
  w ← RB.executeSwap (self st) actionId swapIndex actualAmountOut (world st1);
  Ok (set_world w st1).

Definition executeBridge (sender : address) (blk : Block) (actionId : bytes32)
    (bridgeIndex actualAmount : uint256) (sessionId : bytes32)
    (operationSignature : SignedOperation.t) (st : State) : Result State :=
  st1 ← consume blk sessionId operationSignature
          (keccak256_leg actionId bridgeIndex actualAmount (timestamp blk)) st;
  w ← RB.executeBridge (self st) actionId bridgeIndex actualAmount (world st1);
  Ok (set_world w st1).

Definition completeRebalancing (sender : address) (blk : Block)
    (actionId sessionId : bytes32) (operationSignature : SignedOperation.t)
    (st : State) : Result State :=
  st1 ← consume blk sessionId operationSignature
          (keccak256_complete actionId (timestamp blk)) st;
  w ← RB.completeRebalanceAction (self st) blk actionId (world st1);
  Ok (set_world w st1).
End WithPrimitives.

Definition updateTokenPrice (sender : address) (chainId : uint256)
    (token : address) (price : uint256) (st : State) : Result State :=
  onlyOwner sender (owner st);;
  w ← RB.updateTokenPrice (self st) chainId token price (world st);
  Ok (set_world w st).

Definition setAuthorizedAgent (sender agent : address) (authorized : bool)
    (st : State) : Result State :=
  onlyOwner sender (owner st);;
  w ← RB.setAuthorizedAgent (self st) agent authorized (world st);
  Ok (set_world w st).

Definition emergencyPause (sender : address) (actionId : bytes32) (st : State)
  : Result State :=
  onlyOwner sender (owner st);;
  w ← RB.emergencyPause (self st) actionId (world st);
  Ok (set_world w st).
End IgnisX.

(** ** Derived notions for the session authority *)

Module SessionNotions.
Import LitProtocolDelegate.

(** No session has used more operations than its cap. *)
Definition capRespected (st : State) : Prop :=
  forall sessionId,
    S.operationsUsed (session sessionId st) <= S.maxOperations (session sessionId st).


(** The storage with [n] more operations counted for the session. *)
Definition bump (n : uint256) (sessionId : bytes32) (st : State) : State :=
  set_session sessionId
    (S.set_operationsUsed (S.operationsUsed (session sessionId st) + n)
       (session sessionId st)) st.

Section WithPrimitives.
Context {prim : Primitives}.



(** [executeOperation] on each operation in turn. *)
Fixpoint executeEach (sender : address) (blk : Block) (sessionId : bytes32)
    (operations : list O.t) (st : State) : Result State :=
  match operations with
  | [] => Ok st
  | operation :: rest =>
      st1 ← executeOperation sender blk sessionId operation 0 st;
      executeEach sender blk sessionId rest st1
  end.
End WithPrimitives.
End SessionNotions.

(** ** Derived notions for the PortfolioManager *)

Module ManagerNotions.
Import PortfolioManager.

(** The bounds [setDelegationPolicy] checks. *)
Definition bounded (d : D.t) : Prop :=
  D.delegate d <> 0 /\ D.maxSlippage d <= 1000
  /\ D.rebalanceThreshold d <= 1000 /\ 3600 <= D.cooldownPeriod d.

(** Every active policy is within bounds and belongs to a user with an
    active portfolio. *)
Definition policiesBounded (st : State) : Prop :=
  forall user,
    D.isActive (policy user st) = true ->
    bounded (policy user st) /\ P.isActive (portfolio user st) = true.

(** The asset has this token and chain. *)
Definition isAsset (tokenAddress : address) (chainId : uint256) (a : A.t) : Prop :=
  A.tokenAddress a = tokenAddress /\ A.chainId a = chainId.
End ManagerNotions.

(** ** Derived notions for the rebalancer *)

Module ActionNotions.
Import CrossChainRebalancer.

Section WithPrimitives.
Context {prim : Primitives}.

(** The transaction is a [createRebalanceAction] that computes this id. *)
Definition recreates (actionId : bytes32) (tx : Tx) : Prop :=
  exists user swaps bridges totalValue,
    tx_call tx = CreateRebalanceAction user swaps bridges totalValue
    /\ actionIdOf (tx_block tx) user swaps bridges = actionId.
End WithPrimitives.
End ActionNotions.

(** ** A concrete instance of the primitives

    Used to run the contracts on explicit inputs.  The hash folds its
    arguments into one number; a signature "recovers" to the address
    written in its first byte. *)

Module Scenario.
Definition mix (l : list N) : N :=
  fold_left (fun acc x => acc * 1000003 + x + 1) l 7.

Definition recoverFirstByte (digest : bytes32) (signature : bytes) : Result address :=
  match signature with
  | [] => Revert "ECDSA: invalid signature length"
  | b :: _ => Ok (Byte.to_N b)
  end.

#[local] Instance primitives : Primitives := {|
  keccak256_session u d n t := mix [u; d; n; t];
  keccak256_operation u d n ty data ts ph :=
    mix ([u; d; n; ty] ++ map Byte.to_N data ++ [ts; ph]);
  toEthSignedMessageHash h := mix [25; h];
  recover := recoverFirstByte;
  keccak256_bytes s := mix (map Byte.to_N s);
  keccak256_action u t n s b := mix [u; t; n; s; b]
|}.

(** Actors and inputs of the worked examples. *)
Definition admin : address := 1.
Definition alice : address := 5.
Definition mallory : address := 7.
Definition agent : address := 9.

Definition block (t n : uint256) : Block := {| timestamp := t; number := n |}.

Definition get {A} (default : A) (r : Result A) : A :=
  match r with Ok a => a | _ => default end.

(** Alice opens a session for [agent] that allows [maxOperations]
    operations and expires at time 1000. *)
Definition opened (maxOperations : uint256)
  : Result (bytes32 * LitProtocolDelegate.State) :=
  LitProtocolDelegate.createDelegationSession alice (block 100 1) alice agent
    1000 0 maxOperations (LitProtocolDelegate.init admin).

Definition sid (maxOperations : uint256) : bytes32 :=
  fst (get (0, LitProtocolDelegate.init admin) (opened maxOperations)).

Definition lit0 (maxOperations : uint256) : LitProtocolDelegate.State :=
  snd (get (0, LitProtocolDelegate.init admin) (opened maxOperations)).

(** An operation of Alice's session; the signature recovers to [signer]. *)
Definition operation (nonce : uint256) (signer tag : Byte.byte) : SignedOperation.t :=
  SignedOperation.mk alice agent nonce 1 [] 100 [signer; tag].

(** The operation Alice signed. *)
Definition signed : SignedOperation.t := operation 0 Byte.x05 Byte.x01.


(** The storage after [verifySignedOperation] has run on [operation]. *)
Definition verified (maxOperations : uint256) (operation : SignedOperation.t)
  : LitProtocolDelegate.State :=
  snd (get (false, lit0 maxOperations)
         (LitProtocolDelegate.verifySignedOperation agent (block 100 1)
            (sid maxOperations) operation (lit0 maxOperations))).

(** The storage after [executeOperation] has run on [operation]. *)
Definition executed (maxOperations : uint256) (operation : SignedOperation.t)
  : LitProtocolDelegate.State :=
  get (lit0 maxOperations)
    (LitProtocolDelegate.executeOperation agent (block 100 1)
       (sid maxOperations) operation 0 (lit0 maxOperations)).


(** Alice's portfolio: two tokens at 50% each, and the policy of the
    end-to-end example (slippage 50, threshold 100, cooldown 3600) naming
    [delegate]. *)
Definition half (token : address) : Asset.t := Asset.mk token 1 5000 true.

Definition createHalves : PortfolioManager.Tx :=
  PortfolioManager.mkTx alice (block 100 1)
    (PortfolioManager.CreatePortfolio alice [half 11; half 12]).

Definition setPolicy (delegate : address) (cooldownPeriod : uint256)
  : PortfolioManager.Tx :=
  PortfolioManager.mkTx alice (block 100 1)
    (PortfolioManager.SetDelegationPolicy alice delegate 50 1000 100 cooldownPeriod).

Definition edit (c : PortfolioManager.Call) : PortfolioManager.Tx :=
  PortfolioManager.mkTx alice (block 100 1) c.

Definition managed (delegate : address) : PortfolioManager.State :=
  PortfolioManager.run [createHalves; setPolicy delegate 3600]
    (PortfolioManager.init admin).

(** After a rebalance at time 10000 the owner raises the cooldown to the
    largest [uint256]. *)
Definition longCooldown : PortfolioManager.State :=
  PortfolioManager.run
    [PortfolioManager.mkTx agent (block 10000 2)
       (PortfolioManager.ExecuteRebalance alice 1);
     setPolicy agent MAX_UINT256]
    (managed agent).

(** The rebalancer lives at address 20; Alice's policy names it as
    delegate and the admin has authorised [agent]. *)
Definition rebalancerAddress : address := 20.

Definition world (pm : PortfolioManager.State) : CrossChainRebalancer.World :=
  CrossChainRebalancer.run
    [CrossChainRebalancer.mkTx admin (block 100 1)
       (CrossChainRebalancer.SetAuthorizedAgent agent true)]
    (CrossChainRebalancer.mkWorld pm
       (CrossChainRebalancer.mkState admin rebalancerAddress ∅ ∅ ∅)).

Definition swapLeg (tokenIn tokenOut : address) (minAmountOut : uint256)
  : SwapParams.t :=
  SwapParams.mk tokenIn tokenOut 100 minAmountOut 1 0.

Definition byAgent (blk : Block) (c : CrossChainRebalancer.Call)
  : CrossChainRebalancer.Tx :=
  CrossChainRebalancer.mkTx agent blk c.

(** The id of an action for Alice with one swap leg and no bridge leg that
    is created in block [blk]. *)
Definition aliceActionId (blk : Block) : bytes32 :=
  CrossChainRebalancer.actionIdOf blk alice [swapLeg 11 12 99] [].

(** Alice's storage after she has revoked the delegation. *)
Definition revoked : PortfolioManager.State :=
  PortfolioManager.run [edit (PortfolioManager.RevokeDelegation alice)]
    (managed rebalancerAddress).

Definition createFor (blk : Block) (leg : SwapParams.t) (totalValue : uint256)
  : CrossChainRebalancer.Tx :=
  byAgent blk (CrossChainRebalancer.CreateRebalanceAction alice [leg] [] totalValue).


Definition bridgeLeg (token : address) : BridgeParams.t :=
  BridgeParams.mk token 100 1 10 0.

(** Alice's world with one stored action made of a single bridge leg. *)
Definition bridging : CrossChainRebalancer.World :=
  CrossChainRebalancer.run
    [byAgent (block 10000 5)
       (CrossChainRebalancer.CreateRebalanceAction alice [] [bridgeLeg 11] 1000)]
    (world (managed rebalancerAddress)).

Definition bridgeActionId : bytes32 :=
  CrossChainRebalancer.actionIdOf (block 10000 5) alice [] [bridgeLeg 11].

(** Alice's world with one stored action made of a single swap leg. *)
Definition swapping : CrossChainRebalancer.World :=
  CrossChainRebalancer.run [createFor (block 10000 5) (swapLeg 11 12 99) 1000]
    (world (managed rebalancerAddress)).

(** Alice's world once the owner has priced her two tokens on chain 1:
    token 11 at 1 and token 12 at 3 (both scaled by 1e18). *)
Definition priced : CrossChainRebalancer.World :=
  CrossChainRebalancer.run
    [CrossChainRebalancer.mkTx admin (block 100 1)
       (CrossChainRebalancer.UpdateTokenPrice 1 11 (10 ^ 18));
     CrossChainRebalancer.mkTx admin (block 100 1)
       (CrossChainRebalancer.UpdateTokenPrice 1 12 (3 * 10 ^ 18))]
    (world (managed rebalancerAddress)).

(** Hashes for the facade, and the deployed system once Alice has created
    her portfolio. *)
Definition facadePrimitives : FacadePrimitives := {|
  keccak256_policy maxSlippage maxRebalanceAmount rebalanceThreshold cooldownPeriod :=
    mix [maxSlippage; maxRebalanceAmount; rebalanceThreshold; cooldownPeriod];
  keccak256_trigger user totalValue t := mix [user; totalValue; t];
  keccak256_leg actionId index amount t := mix [actionId; index; amount; t];
  keccak256_complete actionId t := mix [actionId; 8; t]
|}.

Definition facadeAddress : address := 30.

Definition facade : IgnisX.State :=
  IgnisX.set_manager
    (PortfolioManager.run [createHalves] (PortfolioManager.init facadeAddress))
    (IgnisX.deploy admin facadeAddress rebalancerAddress).

(** Alice enables the autopilot herself at time 100: session id and the
    system's state afterwards. *)
Definition enabled : bytes32 * IgnisX.State :=
  get (0, facade)
    (IgnisX.enableAutopilot (prim := primitives) (fprim := facadePrimitives)
       alice (block 100 1) alice 50 1000 100 3600 1000 5 facade).

(** ... and the state after she has disabled it again. *)
Definition disabled : IgnisX.State :=
  get facade (IgnisX.disableAutopilot alice alice (snd enabled)).


(** Two operations of Alice's session, both signed by her. *)
Definition pair : list SignedOperation.t :=
  [signed; operation 0 Byte.x05 Byte.x02].

End Scenario.

(** * Proofs *)

(** ** The result monad *)

Lemma bind_Ok {A B} (m : Result A) (f : A -> Result B) (b : B) :
  m ≫= f = Ok b <-> exists a, m = Ok a /\ f a = Ok b.
Proof.
  destruct m as [a | r | c]; cbn; split.
  - intros H. exists a. auto.
  - intros (a' & [= <-] & H). exact H.
  - discriminate.
  - intros (a' & [=] & _).
  - discriminate.
  - intros (a' & [=] & _).
Qed.

Lemma fmap_Ok {A B} (m : Result A) (f : A -> B) (b : B) :
  f <$> m = Ok b <-> exists a, m = Ok a /\ f a = b.
Proof.
  destruct m as [a | r | c]; cbn; split.
  - intros [= <-]. exists a. auto.
  - intros (a' & [= <-] & <-). reflexivity.
  - discriminate.
  - intros (a' & [=] & _).
  - discriminate.
  - intros (a' & [=] & _).
Qed.

Lemma require_Ok (cond : bool) (reason : string) (u : unit) :
  require cond reason = Ok u <-> cond = true.
Proof. destruct cond, u; cbn; split; congruence. Qed.

Lemma checked_add_Ok (a b r : N) :
  checked_add a b = Ok r <-> r = a + b /\ a + b <= MAX_UINT256.
Proof.
  unfold checked_add. destruct (N.leb_spec (a + b) MAX_UINT256); split.
  - intros [= <-]. auto.
  - intros [-> _]. reflexivity.
  - discriminate.
  - intros [_ ?]. lia.
Qed.

(** ** Mappings *)

Section Mapping.
Context `{Countable K} {V : Type} `{Zero V}.

Lemma read_empty (k : K) : (∅ : gmap K V).[k] = zero.
Proof. unfold read. rewrite lookup_empty. reflexivity. Qed.

Lemma read_insert_eq (m : gmap K V) (k : K) (v : V) : (<[k := v]> m).[k] = v.
Proof. unfold read. rewrite lookup_insert_eq. reflexivity. Qed.

Lemma read_insert_ne (m : gmap K V) (k k' : K) (v : V) :
  k <> k' -> (<[k := v]> m).[k'] = m.[k'].
Proof. intros Hne. unfold read. rewrite lookup_insert_ne by exact Hne. reflexivity. Qed.
End Mapping.

Lemma is_ok_true {A} (r : Result A) : is_ok r = true <-> exists a, r = Ok a.
Proof.
  destruct r; cbn; split; eauto; try discriminate; intros [? [=]].
Qed.

Lemma is_ok_false {A} (r : Result A) : is_ok r = false <-> forall a, r <> Ok a.
Proof.
  destruct r; cbn; split; try congruence.
  intros H. exfalso. exact (H a eq_refl).
Qed.

(** Peel the successive checks off a hypothesis [H : ... = Ok _]. *)
Ltac peel H :=
  repeat match type of H with
  | (require ?c ?r ≫= _) = Ok _ =>
      let u := fresh "u" in let Hc := fresh "Hreq" in
      apply bind_Ok in H; destruct H as (u & Hc & H);
      apply require_Ok in Hc
  | (_ ≫= _) = Ok _ =>
      let x := fresh "x" in let Hx := fresh "Hx" in
      apply bind_Ok in H; destruct H as (x & Hx & H)
  | (_ <$> _) = Ok _ =>
      let x := fresh "x" in let Hx := fresh "Hx" in
      apply fmap_Ok in H; destruct H as (x & Hx & H)
  | require _ _ = Ok _ => apply require_Ok in H
  | checked_add _ _ = Ok _ => apply checked_add_Ok in H
  end.

(** ** LitProtocolDelegate *)

Module LitFacts.
Import LitProtocolDelegate.

Section WithPrimitives.
Context {prim : Primitives}.

Lemma validSession_Ok blk sessionId st u :
  validSession blk sessionId st = Ok u <-> isSessionValid blk sessionId st = true.
Proof.
  unfold validSession, isSessionValid.
  destruct (S.isActive _), (_ <=? _), (_ <? _), u; cbn; split; congruence.
Qed.

(** What a returning [verifySignedOperation] has checked and written. *)
Lemma verifySignedOperation_Ok sender blk sessionId operation st valid st' :
  verifySignedOperation sender blk sessionId operation st = Ok (valid, st') ->
  isSessionValid blk sessionId st = true
  /\ O.user operation = S.user (session sessionId st)
  /\ O.delegate operation = S.delegate (session sessionId st)
  /\ O.nonce operation = S.nonce (session sessionId st)
  /\ (exists signer,
        recover (toEthSignedMessageHash
                   (messageHash operation (session sessionId st)))
                (O.signature operation) = Ok signer
        /\ valid = (signer =? S.user (session sessionId st)))
  /\ used (sigHash operation) st = false
  /\ st' = mkState (owner st) (delegationSessions st) (userNonces st)
             (<[sigHash operation := true]> (usedSignatures st)).
Proof.
  unfold verifySignedOperation. intros H.
  peel H. injection H as <- <-. apply validSession_Ok in Hx.
  repeat match goal with
         | E : (_ =? _) = true |- _ => apply N.eqb_eq in E
         | E : negb _ = true |- _ => apply negb_true_iff in E
         end.
  repeat split; eauto.
Qed.

Lemma verifySignedOperation_session sender blk sessionId operation st valid st' :
  verifySignedOperation sender blk sessionId operation st = Ok (valid, st') ->
  delegationSessions st' = delegationSessions st
  /\ userNonces st' = userNonces st /\ owner st' = owner st.
Proof.
  intros H. apply verifySignedOperation_Ok in H.
  destruct H as (_ & _ & _ & _ & _ & _ & ->). auto.
Qed.

(** A used signature makes every verification abort. *)
Lemma verifySignedOperation_used sender blk sessionId operation st :
  used (sigHash operation) st = true ->
  is_ok (verifySignedOperation sender blk sessionId operation st) = false.
Proof.
  intros Hu. apply is_ok_false. intros [valid st'] H.
  apply verifySignedOperation_Ok in H.
  destruct H as (_ & _ & _ & _ & _ & Hf & _). congruence.
Qed.

(** What a returning [executeOperation] has checked and written. *)
Lemma executeOperation_Ok sender blk sessionId operation h st st' :
  executeOperation sender blk sessionId operation h st = Ok st' ->
  sender = S.delegate (session sessionId st)
  /\ exists st1,
       verifySignedOperation sender blk sessionId operation st = Ok (true, st1)
       /\ S.operationsUsed (session sessionId st1) + 1 <= MAX_UINT256
       /\ st' = set_session sessionId
                  (S.set_operationsUsed
                     (S.operationsUsed (session sessionId st1) + 1)
                     (session sessionId st1)) st1.
Proof.
  unfold executeOperation, onlyDelegate. intros H.
  apply bind_Ok in H as (u & Hd & H). apply require_Ok, N.eqb_eq in Hd.
  apply bind_Ok in H as ([valid st1] & Hv & H).
  apply bind_Ok in H as (u' & Hvalid & H). apply require_Ok in Hvalid.
  apply bind_Ok in H as (n & Hn & H). apply checked_add_Ok in Hn as [-> Hle].
  injection H as <-. subst valid. split; [exact Hd |].
  exists st1. auto.
Qed.

Lemma executeOperation_used sender blk sessionId operation h st :
  used (sigHash operation) st = true ->
  is_ok (executeOperation sender blk sessionId operation h st) = false.
Proof.
  intros Hu. apply is_ok_false. intros st' H.
  apply executeOperation_Ok in H as (_ & st1 & Hv & _).
  pose proof (verifySignedOperation_used sender blk sessionId operation st Hu) as Hf.
  rewrite Hv in Hf. discriminate.
Qed.




Lemma verifySignedOperation_grows sender blk sessionId operation st valid st' :
  verifySignedOperation sender blk sessionId operation st = Ok (valid, st') ->
  grows st st' /\ used (sigHash operation) st' = true.
Proof.
  intros H. apply verifySignedOperation_Ok in H.
  destruct H as (_ & _ & _ & _ & _ & _ & ->). unfold grows, used. cbn. split.
  - intros h Hh. destruct (decide (sigHash operation = h)) as [<- | Hne].
    + apply read_insert_eq.
    + rewrite read_insert_ne by exact Hne. exact Hh.
  - apply read_insert_eq.
Qed.






Lemma session_set_session sessionId s st :
  session sessionId (set_session sessionId s st) = s.
Proof. unfold session, set_session. cbn. apply read_insert_eq. Qed.

Lemma verifySignedOperation_keeps_session sender blk sessionId operation st valid st' k :
  verifySignedOperation sender blk sessionId operation st = Ok (valid, st') ->
  session k st' = session k st.
Proof.
  intros H. apply verifySignedOperation_session in H as (Hs & _).
  unfold session. rewrite Hs. reflexivity.
Qed.

(** C2 (the code departs from the claim).  A successful [executeOperation]
    adds one to [operationsUsed] and leaves the session's [nonce] as it
    was, so the next operation in sequence, carrying the following nonce,
    is turned down. *)
Theorem executeOperation_keeps_nonce sender blk sessionId operation h st st' :
  executeOperation sender blk sessionId operation h st = Ok st' ->
  S.nonce (session sessionId st') = S.nonce (session sessionId st)
  /\ S.operationsUsed (session sessionId st')
     = S.operationsUsed (session sessionId st) + 1
  /\ forall sender' blk' operation' h',
       O.nonce operation' = O.nonce operation + 1 ->
       is_ok (executeOperation sender' blk' sessionId operation' h' st') = false.
Proof.
  intros H. apply executeOperation_Ok in H as (_ & st1 & Hv & _ & ->).
  pose proof (verifySignedOperation_keeps_session _ _ _ _ _ _ _ sessionId Hv) as Hs.
  apply verifySignedOperation_Ok in Hv as (_ & _ & _ & Hn & _).
  rewrite session_set_session, Hs. cbn. repeat split.
  intros sender' blk' operation' h' Hn'. apply is_ok_false. intros st2 H2.
  apply executeOperation_Ok in H2 as (_ & st3 & Hv2 & _).
  apply verifySignedOperation_Ok in Hv2 as (_ & _ & _ & Hn2 & _).
  rewrite session_set_session in Hn2. cbn in Hn2. lia.
Qed.

(** At the cap the delegate's [executeOperation] aborts with the state
    error of [validSession]. *)
Lemma executeOperation_at_cap sender blk sessionId operation h st :
  sender = S.delegate (session sessionId st) ->
  S.isActive (session sessionId st) = true ->
  timestamp blk <= S.expiry (session sessionId st) ->
  S.maxOperations (session sessionId st) <= S.operationsUsed (session sessionId st) ->
  executeOperation sender blk sessionId operation h st
  = Revert "Max operations exceeded".
Proof.
  intros -> Hact Hexp Hcap. unfold executeOperation, onlyDelegate.
  rewrite N.eqb_refl. cbn. unfold verifySignedOperation, validSession.
  rewrite Hact. cbn. apply N.leb_le in Hexp. rewrite Hexp. cbn.
  apply N.ltb_ge in Hcap. rewrite Hcap. reflexivity.
Qed.

(** A separate [verifySignedOperation] consumes the signature: the
    [executeOperation] that follows on the same operation cannot succeed. *)
Lemma verify_then_execute_fails sender blk sessionId operation st valid st1
    sender' blk' h :
  verifySignedOperation sender blk sessionId operation st = Ok (valid, st1) ->
  is_ok (executeOperation sender' blk' sessionId operation h st1) = false.
Proof.
  intros H. apply verifySignedOperation_grows in H as [_ Hu].
  apply executeOperation_used, Hu.
Qed.


(** C10.  [verifySignedOperation] does not look at its caller: two callers
    get the same result and leave the same storage, so whoever calls it on
    an operation that passes the checks marks that operation's signature
    used. *)
Theorem verifySignedOperation_caller_independent
    sender1 sender2 blk sessionId operation st :
  verifySignedOperation sender1 blk sessionId operation st
  = verifySignedOperation sender2 blk sessionId operation st
  /\ transact (mkTx sender1 blk (VerifySignedOperation sessionId operation)) st
     = transact (mkTx sender2 blk (VerifySignedOperation sessionId operation)) st
  /\ forall valid st',
       verifySignedOperation sender1 blk sessionId operation st = Ok (valid, st') ->
       verifySignedOperation sender2 blk sessionId operation st = Ok (valid, st')
       /\ used (sigHash operation) st' = true.
Proof.
  split; [reflexivity |]. split; [reflexivity |].
  intros valid st' H. split; [exact H |].
  apply verifySignedOperation_grows in H as [_ Hu]. exact Hu.
Qed.

End WithPrimitives.

#[local] Existing Instance Scenario.primitives.



Lemma executeOperation_keeps_nonce_witness :
  S.nonce (session (Scenario.sid 2) (Scenario.executed 2 Scenario.signed)) = 0
  /\ S.operationsUsed (session (Scenario.sid 2) (Scenario.executed 2 Scenario.signed)) = 1
  /\ is_ok (executeOperation Scenario.agent (Scenario.block 101 2) (Scenario.sid 2)
              (Scenario.operation 1 Byte.x05 Byte.x02) 0
              (Scenario.executed 2 Scenario.signed)) = false.
Proof.
  assert (H : executeOperation Scenario.agent (Scenario.block 100 1) (Scenario.sid 2) Scenario.signed 0
                (Scenario.lit0 2) = Ok (Scenario.executed 2 Scenario.signed))
    by (vm_compute; reflexivity).
  destruct (executeOperation_keeps_nonce _ _ _ _ _ _ _ H) as (Hn & Hu & Hnext).
  split; [rewrite Hn; vm_compute; reflexivity |].
  split; [rewrite Hu; vm_compute; reflexivity |].
  apply Hnext. vm_compute; reflexivity.
Defined.

(** The session of C2 with [maxOperations = 2]: after the operation with
    nonce 0, the operation with nonce 1 aborts with "Invalid nonce", a
    second operation with nonce 0 is accepted, and the third attempt meets
    the operations cap. *)
Lemma second_operation_repeats_nonce :
  executeOperation Scenario.agent (Scenario.block 100 1) (Scenario.sid 2) Scenario.signed 0 (Scenario.lit0 2)
  = Ok (Scenario.executed 2 Scenario.signed)
  /\ executeOperation Scenario.agent (Scenario.block 101 2) (Scenario.sid 2)
       (Scenario.operation 1 Byte.x05 Byte.x02) 0 (Scenario.executed 2 Scenario.signed)
     = Revert "Invalid nonce"
  /\ exists st2,
       executeOperation Scenario.agent (Scenario.block 101 2) (Scenario.sid 2)
         (Scenario.operation 0 Byte.x05 Byte.x02) 0 (Scenario.executed 2 Scenario.signed)
       = Ok st2
       /\ S.nonce (session (Scenario.sid 2) st2) = 0
       /\ S.operationsUsed (session (Scenario.sid 2) st2) = 2
       /\ executeOperation Scenario.agent (Scenario.block 102 3) (Scenario.sid 2)
            (Scenario.operation 0 Byte.x05 Byte.x03) 0 st2
          = Revert "Max operations exceeded".
Proof.
  split; [vm_compute; reflexivity |]. split; [vm_compute; reflexivity |].
  eexists. split; [vm_compute; reflexivity |]. vm_compute. auto.
Qed.



Lemma verifySignedOperation_caller_independent_witness :
  verifySignedOperation Scenario.mallory (Scenario.block 100 1) (Scenario.sid 2) Scenario.signed
    (Scenario.lit0 2) = Ok (true, Scenario.verified 2 Scenario.signed)
  /\ used (sigHash Scenario.signed) (Scenario.verified 2 Scenario.signed) = true.
Proof.
  apply (verifySignedOperation_caller_independent Scenario.agent Scenario.mallory
           (Scenario.block 100 1) (Scenario.sid 2) Scenario.signed (Scenario.lit0 2)).
  vm_compute; reflexivity.
Defined.

(** [executeOperation], by contrast, is reserved to the session's delegate. *)
Lemma executeOperation_caller_dependent :
  executeOperation Scenario.mallory (Scenario.block 100 1) (Scenario.sid 2) Scenario.signed 0
    (Scenario.lit0 2) = Revert "Not authorized delegate"
  /\ is_ok (executeOperation Scenario.agent (Scenario.block 100 1) (Scenario.sid 2) Scenario.signed 0
              (Scenario.lit0 2)) = true.
Proof. vm_compute. auto. Qed.

End LitFacts.

(** ** PortfolioManager *)

Module ManagerFacts.
Import PortfolioManager.

Lemma small_fits : 10000 <= MAX_UINT256.
Proof. apply N.leb_le. vm_compute. reflexivity. Qed.


(** The validation loop returns the running sum plus the targets, having
    seen only non-null tokens and positive targets. *)
Lemma sumTargets_Ok (assets : list A.t) :
  forall acc total,
    sumTargets assets acc = Ok total ->
    total = acc + totalTarget assets
    /\ Forall (fun a => 0 < A.targetPercentage a) assets
    /\ Forall (fun a => A.tokenAddress a <> 0) assets.
Proof.
  induction assets as [| a rest IH]; cbn; intros acc total H.
  - injection H as <-. split; [lia | auto].
  - apply bind_Ok in H as (u1 & Htok & H).
    apply require_Ok, negb_true_iff, N.eqb_neq in Htok.
    apply bind_Ok in H as (u2 & Hpos & H). apply require_Ok, N.ltb_lt in Hpos.
    apply bind_Ok in H as (t & Hadd & H). apply checked_add_Ok in Hadd as [-> _].
    apply IH in H as (-> & Hp & Ht). split; [lia | auto].
Qed.

Lemma sumTargets_complete (assets : list A.t) :
  forall acc,
    Forall (fun a => A.tokenAddress a <> 0) assets ->
    Forall (fun a => 0 < A.targetPercentage a) assets ->
    acc + totalTarget assets <= MAX_UINT256 ->
    sumTargets assets acc = Ok (acc + totalTarget assets).
Proof.
  induction assets as [| a rest IH]; cbn; intros acc Htok Hpos Hfit.
  - f_equal. lia.
  - inversion Htok as [| ? ? Ha Hrest]; subst.
    inversion Hpos as [| ? ? Hp Hprest]; subst.
    apply N.eqb_neq in Ha. rewrite Ha. cbn.
    apply N.ltb_lt in Hp. rewrite Hp. cbn.
    assert (Hadd : checked_add acc (A.targetPercentage a)
                   = Ok (acc + A.targetPercentage a))
      by (apply checked_add_Ok; split; [reflexivity | lia]).
    rewrite Hadd. cbn. rewrite IH by (auto; lia). f_equal. lia.
Qed.

(** The loop followed by the comparison with 10000. *)
Lemma validation_iff (assets : list A.t) :
  Forall (fun a => A.tokenAddress a <> 0) assets ->
  (exists total, sumTargets assets 0 = Ok total /\ (total =? 10000) = true)
  <-> allocationValid assets.
Proof.
  intros Htok. unfold allocationValid. split.
  - intros (total & H & Heq). apply N.eqb_eq in Heq.
    apply sumTargets_Ok in H as (-> & Hpos & _). split; [lia | exact Hpos].
  - intros [Hsum Hpos]. exists 10000. split; [| reflexivity].
    rewrite (sumTargets_complete assets 0 Htok Hpos).
    + f_equal. lia.
    + rewrite Hsum. apply small_fits.
Qed.

Lemma nonempty_check (assets : list A.t) :
  negb (bool_decide (length assets = 0%nat)) = true <-> assets <> [].
Proof.
  destruct assets as [| a rest]; cbn; split; intros H.
  - discriminate.
  - contradiction.
  - discriminate.
  - reflexivity.
Qed.

Lemma onlyPortfolioOwner_Ok sender user st u :
  onlyPortfolioOwner sender user st = Ok u <-> sender = user \/ sender = owner st.
Proof.
  unfold onlyPortfolioOwner. rewrite require_Ok, orb_true_iff, !N.eqb_eq.
  reflexivity.
Qed.

(** What a returning [createPortfolio] has checked and written. *)
Lemma createPortfolio_Ok sender user assets st st' :
  createPortfolio sender user assets st = Ok st' ->
  (sender = user \/ sender = owner st)
  /\ P.isActive (portfolio user st) = false
  /\ assets <> []
  /\ Forall (fun a => A.tokenAddress a <> 0) assets
  /\ allocationValid assets
  /\ st' = set_portfolio user (P.mk assets 0 0 true) st.
Proof.
  unfold createPortfolio. intros H.
  apply bind_Ok in H as (u1 & Hown & H). apply onlyPortfolioOwner_Ok in Hown.
  apply bind_Ok in H as (u2 & Hnew & H). apply require_Ok, negb_true_iff in Hnew.
  apply bind_Ok in H as (u3 & Hne & H). apply require_Ok, nonempty_check in Hne.
  apply bind_Ok in H as (total & Hsum & H).
  apply bind_Ok in H as (u4 & Heq & H). apply require_Ok in Heq.
  injection H as <-.
  pose proof (sumTargets_Ok _ _ _ Hsum) as (_ & _ & Htok).
  assert (Hvalid : allocationValid assets) by (apply validation_iff; eauto).
  auto 10.
Qed.

Lemma updatePortfolio_Ok sender user assets st st' :
  updatePortfolio sender user assets st = Ok st' ->
  (sender = user \/ sender = owner st)
  /\ P.isActive (portfolio user st) = true
  /\ assets <> []
  /\ Forall (fun a => A.tokenAddress a <> 0) assets
  /\ allocationValid assets
  /\ st' = set_portfolio user (P.set_assets assets (portfolio user st)) st.
Proof.
  unfold updatePortfolio, portfolioExists. intros H.
  apply bind_Ok in H as (u1 & Hown & H). apply onlyPortfolioOwner_Ok in Hown.
  apply bind_Ok in H as (u2 & Hold & H). apply require_Ok in Hold.
  apply bind_Ok in H as (u3 & Hne & H). apply require_Ok, nonempty_check in Hne.
  apply bind_Ok in H as (total & Hsum & H).
  apply bind_Ok in H as (u4 & Heq & H). apply require_Ok in Heq.
  injection H as <-.
  pose proof (sumTargets_Ok _ _ _ Hsum) as (_ & _ & Htok).
  assert (Hvalid : allocationValid assets) by (apply validation_iff; eauto).
  auto 10.
Qed.






(** *** The allocation invariant *)

Lemma portfolio_set_portfolio user p st k :
  portfolio k (set_portfolio user p st)
  = if decide (user = k) then p else portfolio k st.
Proof.
  unfold portfolio, set_portfolio. cbn. destruct (decide (user = k)) as [<- | Hne].
  - apply read_insert_eq.
  - apply read_insert_ne, Hne.
Qed.






(** [addAsset] appends without looking at the sum. *)
Lemma addAsset_Ok sender user tokenAddress chainId targetPercentage st st' :
  addAsset sender user tokenAddress chainId targetPercentage st = Ok st' ->
  P.isActive (portfolio user st) = true
  /\ targetPercentage <= 10000
  /\ P.isActive (portfolio user st') = true
  /\ P.assets (portfolio user st')
     = P.assets (portfolio user st)
         ++ [A.mk tokenAddress chainId targetPercentage true].
Proof.
  unfold addAsset, portfolioExists, validPercentage. intros H.
  apply bind_Ok in H as (u1 & _ & H).
  apply bind_Ok in H as (u2 & Hact & H). apply require_Ok in Hact.
  apply bind_Ok in H as (u3 & Hle & H). apply require_Ok, N.leb_le in Hle.
  apply bind_Ok in H as (u4 & _ & H). injection H as <-.
  rewrite portfolio_set_portfolio, decide_True by reflexivity. cbn. auto.
Qed.








(** *** Rebalancing need *)

Lemma drift_absDiff (current target : N) : drift current target = absDiff current target.
Proof.
  unfold drift, absDiff. destruct (N.ltb_spec target current); lia.
Qed.

Lemma above_max (threshold a b : N) :
  (threshold <? N.max a b) = (threshold <? a) || (threshold <? b).
Proof.
  destruct (N.ltb_spec threshold a), (N.ltb_spec threshold b),
    (N.ltb_spec threshold (N.max a b)); cbn; try reflexivity; lia.
Qed.

(** The early-exit loop answers whether the largest drift is above the
    threshold. *)
Lemma anyDriftAbove_maxDrift threshold (currentAllocations : list N) :
  forall assets,
    anyDriftAbove threshold currentAllocations assets
    = (threshold <? maxDrift currentAllocations assets).
Proof.
  induction currentAllocations as [| c cs IH]; intros [| a rest];
    cbn [anyDriftAbove maxDrift]; try (symmetry; apply N.ltb_ge; lia).
  rewrite above_max, <- drift_absDiff, <- IH.
  destruct (threshold <? drift c (A.targetPercentage a)); reflexivity.
Qed.

(** C6 (amended).  [needsRebalancing] answers [false] when the policy is
    inactive.  With an active policy whose [lastRebalance + cooldownPeriod]
    fits in a [uint256], it answers [false] before that time; from that
    time on it aborts with "Invalid allocation length" when the array
    length differs from the asset count, and otherwise answers whether the
    largest [|current_i - target_i|] exceeds the threshold.  With an active
    policy whose [lastRebalance + cooldownPeriod] exceeds the largest
    [uint256], the addition aborts the call with an arithmetic panic. *)
Theorem needsRebalancing_cases blk user (currentAllocations : list N) st :
  (D.isActive (policy user st) = false ->
   needsRebalancing blk user currentAllocations st = Ok false)
  /\ (D.isActive (policy user st) = true ->
      P.lastRebalance (portfolio user st) + D.cooldownPeriod (policy user st)
        <= MAX_UINT256 ->
      (timestamp blk
         < P.lastRebalance (portfolio user st) + D.cooldownPeriod (policy user st) ->
       needsRebalancing blk user currentAllocations st = Ok false)
      /\ (P.lastRebalance (portfolio user st) + D.cooldownPeriod (policy user st)
            <= timestamp blk ->
          (length currentAllocations <> length (P.assets (portfolio user st)) ->
           needsRebalancing blk user currentAllocations st
           = Revert "Invalid allocation length")
          /\ (length currentAllocations = length (P.assets (portfolio user st)) ->
              needsRebalancing blk user currentAllocations st
              = Ok (D.rebalanceThreshold (policy user st)
                      <? maxDrift currentAllocations
                           (P.assets (portfolio user st))))))
  /\ (D.isActive (policy user st) = true ->
      MAX_UINT256
        < P.lastRebalance (portfolio user st) + D.cooldownPeriod (policy user st) ->
      needsRebalancing blk user currentAllocations st = Panic 17).
Proof.
  unfold needsRebalancing, checked_add. split; [| split].
  - intros ->. reflexivity.
  - intros -> Hfit. apply N.leb_le in Hfit. rewrite Hfit. cbn. split.
    + intros Hearly. apply N.ltb_lt in Hearly. rewrite Hearly. reflexivity.
    + intros Hlate. apply N.ltb_ge in Hlate. rewrite Hlate. split.
      * intros Hlen. rewrite bool_decide_eq_false_2 by exact Hlen. reflexivity.
      * intros Hlen. rewrite bool_decide_eq_true_2 by exact Hlen. cbn.
        rewrite anyDriftAbove_maxDrift. reflexivity.
  - intros -> Hover. apply N.leb_gt in Hover. rewrite Hover. reflexivity.
Qed.

Lemma needsRebalancing_cases_witness :
  needsRebalancing (Scenario.block 4000 2) Scenario.alice [6000; 4000] (Scenario.managed Scenario.agent)
  = Ok true
  /\ needsRebalancing (Scenario.block 4000 2) Scenario.alice [5050; 4950] (Scenario.managed Scenario.agent)
     = Ok false.
Proof.
  split.
  - destruct (needsRebalancing_cases (Scenario.block 4000 2) Scenario.alice [6000; 4000]
                (Scenario.managed Scenario.agent)) as (_ & H & _).
    destruct H as [_ H]; [vm_compute; reflexivity | vm_compute; discriminate |].
    destruct H as [_ H]; [vm_compute; discriminate |].
    rewrite H by (vm_compute; reflexivity). vm_compute. reflexivity.
  - destruct (needsRebalancing_cases (Scenario.block 4000 2) Scenario.alice [5050; 4950]
                (Scenario.managed Scenario.agent)) as (_ & H & _).
    destruct H as [_ H]; [vm_compute; reflexivity | vm_compute; discriminate |].
    destruct H as [_ H]; [vm_compute; discriminate |].
    rewrite H by (vm_compute; reflexivity). vm_compute. reflexivity.
Defined.

(** C6 as stated fails: in [Scenario.longCooldown] the policy is active and
    the current time is before [lastRebalance + cooldownPeriod], yet the
    call does not answer [false]: the sum does not fit in a [uint256] and
    the call aborts. *)
Lemma needsRebalancing_overflow :
  D.isActive (policy Scenario.alice Scenario.longCooldown) = true
  /\ P.lastRebalance (portfolio Scenario.alice Scenario.longCooldown) = 10000
  /\ D.cooldownPeriod (policy Scenario.alice Scenario.longCooldown) = MAX_UINT256
  /\ timestamp (Scenario.block 20000 3)
     < P.lastRebalance (portfolio Scenario.alice Scenario.longCooldown)
       + D.cooldownPeriod (policy Scenario.alice Scenario.longCooldown)
  /\ needsRebalancing (Scenario.block 20000 3) Scenario.alice [5000; 5000] Scenario.longCooldown
     = Panic 17.
Proof. vm_compute. auto 10. Qed.
End ManagerFacts.

(** ** CrossChainRebalancer *)

Module RebalancerFacts.
Import CrossChainRebalancer.

Lemma action_set_action actionId a w k :
  action k (set_action actionId a w)
  = if decide (actionId = k) then a else action k w.
Proof.
  unfold action, set_action. cbn. destruct (decide (actionId = k)) as [<- | Hne].
  - apply read_insert_eq.
  - apply read_insert_ne, Hne.
Qed.

Lemma onlyAuthorizedAgent_Ok sender w u :
  onlyAuthorizedAgent sender w = Ok u
  <-> (authorizedAgents (rebalancer w)).[sender] = true.
Proof. unfold onlyAuthorizedAgent. apply require_Ok. Qed.

Lemma validAction_Ok actionId w u :
  validAction actionId w = Ok u
  <-> R.user (action actionId w) <> 0 /\ R.executed (action actionId w) = false.
Proof.
  unfold validAction. destruct u. split.
  - intros H. apply bind_Ok in H as (u1 & Huser & H).
    apply require_Ok, negb_true_iff, N.eqb_neq in Huser.
    apply require_Ok, negb_true_iff in H. auto.
  - intros [Huser Hexec]. apply N.eqb_neq in Huser. rewrite Huser, Hexec.
    reflexivity.
Qed.

Section WithPrimitives.
Context {prim : Primitives}.

(** C4 (the code departs from the claim).  The action id is a hash of the
    user, the block's timestamp and number, and the two leg counts.  A
    second [createRebalanceAction] in the same block, for the same user and
    with as many swap and bridge legs, gets the id of the first and
    replaces the action stored under it. *)
Theorem same_block_same_action_id
    sender blk user swaps bridges totalValue swaps' bridges' totalValue'
    w actionId w1 :
  createRebalanceAction sender blk user swaps bridges totalValue w
  = Ok (actionId, w1) ->
  length swaps' = length swaps ->
  length bridges' = length bridges ->
  0 < totalValue' ->
  action actionId w1 = R.mk user swaps bridges totalValue (timestamp blk) false
  /\ exists w2,
       createRebalanceAction sender blk user swaps' bridges' totalValue' w1
       = Ok (actionId, w2)
       /\ action actionId w2
          = R.mk user swaps' bridges' totalValue' (timestamp blk) false.
Proof.
  unfold createRebalanceAction. intros H Hs Hb Hv.
  apply bind_Ok in H as (u1 & Hagent & H).
  apply bind_Ok in H as (u2 & Huser & H). apply require_Ok in Huser.
  apply bind_Ok in H as (u3 & _ & H). injection H as <- <-.
  split; [rewrite action_set_action, decide_True by reflexivity; reflexivity |].
  assert (Hagent' : onlyAuthorizedAgent sender
                      (set_action (actionIdOf blk user swaps bridges)
                         (R.mk user swaps bridges totalValue (timestamp blk) false) w)
                    = Ok u1) by exact Hagent.
  rewrite Hagent'. cbn. rewrite Huser. cbn.
  apply N.ltb_lt in Hv. rewrite Hv. cbn.
  assert (Hid : actionIdOf blk user swaps' bridges' = actionIdOf blk user swaps bridges).
  { unfold actionIdOf. rewrite Hs, Hb. reflexivity. }
  rewrite Hid. eexists. split; [reflexivity |].
  rewrite action_set_action, decide_True by reflexivity. reflexivity.
Qed.

Lemma balance_updated user token v st u t :
  PortfolioManager.balance u t
    (PortfolioManager.mkState (PortfolioManager.owner st)
       (PortfolioManager.portfolios st) (PortfolioManager.delegationPolicies st)
       (<[(user, token) := v]> (PortfolioManager.userBalances st)))
  = if decide ((user, token) = (u, t)) then v else PortfolioManager.balance u t st.
Proof.
  unfold PortfolioManager.balance. cbn.
  destruct (decide ((user, token) = (u, t))) as [<- | Hne].
  - apply read_insert_eq.
  - apply read_insert_ne, Hne.
Qed.

(** C8 (amended).  For a stored action that is not yet executed, a valid
    swap index and an authorised agent as caller: an [actualAmountOut] below
    the leg's [minAmountOut] aborts with "Slippage too high" and the
    transaction leaves the whole state as it was.  Otherwise the outcome is
    decided by the PortfolioManager: the call aborts unless the action
    user's delegation policy is active and names the rebalancer as
    delegate; when it does, the call succeeds, leaves the rebalancer's
    storage (the action and its [executed] flag included), the portfolios
    and the policies untouched, sets the user's output-token balance to
    [actualAmountOut] and, when the two tokens differ, the input-token
    balance to zero, and changes no other balance. *)
Theorem executeSwap_cases sender blk actionId swapIndex actualAmountOut w swap :
  (authorizedAgents (rebalancer w)).[sender] = true ->
  R.user (action actionId w) <> 0 ->
  R.executed (action actionId w) = false ->
  R.swaps (action actionId w) !! N.to_nat swapIndex = Some swap ->
  (actualAmountOut < Sw.minAmountOut swap ->
   executeSwap sender actionId swapIndex actualAmountOut w
   = Revert "Slippage too high"
   /\ transact (mkTx sender blk (ExecuteSwap actionId swapIndex actualAmountOut)) w
      = w)
  /\ (Sw.minAmountOut swap <= actualAmountOut ->
      (DelegationPolicy.isActive (PortfolioManager.policy (R.user (action actionId w)) (manager w))
       = false ->
       executeSwap sender actionId swapIndex actualAmountOut w
       = Revert "Delegation not active")
      /\ (DelegationPolicy.isActive (PortfolioManager.policy (R.user (action actionId w)) (manager w))
          = true ->
          DelegationPolicy.delegate (PortfolioManager.policy (R.user (action actionId w)) (manager w))
          <> self (rebalancer w) ->
          executeSwap sender actionId swapIndex actualAmountOut w
          = Revert "Not authorized delegate")
      /\ (DelegationPolicy.isActive (PortfolioManager.policy (R.user (action actionId w)) (manager w))
          = true ->
          DelegationPolicy.delegate (PortfolioManager.policy (R.user (action actionId w)) (manager w))
          = self (rebalancer w) ->
          exists w',
            executeSwap sender actionId swapIndex actualAmountOut w = Ok w'
            /\ rebalancer w' = rebalancer w
            /\ PortfolioManager.portfolios (manager w')
               = PortfolioManager.portfolios (manager w)
            /\ PortfolioManager.delegationPolicies (manager w')
               = PortfolioManager.delegationPolicies (manager w)
            /\ PortfolioManager.balance (R.user (action actionId w))
                 (Sw.tokenOut swap) (manager w') = actualAmountOut
            /\ (Sw.tokenIn swap <> Sw.tokenOut swap ->
                PortfolioManager.balance (R.user (action actionId w))
                  (Sw.tokenIn swap) (manager w') = 0)
            /\ forall u t,
                 (u, t) <> (R.user (action actionId w), Sw.tokenIn swap) ->
                 (u, t) <> (R.user (action actionId w), Sw.tokenOut swap) ->
                 PortfolioManager.balance u t (manager w')
                 = PortfolioManager.balance u t (manager w))).
Proof.
  intros Hagent Huser Hexec Hleg.
  assert (Hidx : (swapIndex <? N.of_nat (length (R.swaps (action actionId w)))) = true).
  { apply N.ltb_lt. apply lookup_lt_Some in Hleg. lia. }
  unfold executeSwap.
  apply (onlyAuthorizedAgent_Ok _ _ tt) in Hagent. rewrite Hagent. cbn.
  rewrite (proj2 (validAction_Ok actionId w tt) (conj Huser Hexec)). cbn.
  rewrite Hidx, Hleg. cbn. split.
  - intros Hlow. apply N.leb_gt in Hlow.
    assert (E : executeSwap sender actionId swapIndex actualAmountOut w
                = Revert "Slippage too high").
    { unfold executeSwap. rewrite Hagent. cbn.
      rewrite (proj2 (validAction_Ok actionId w tt) (conj Huser Hexec)). cbn.
      rewrite Hidx, Hleg. cbn. rewrite Hlow. reflexivity. }
    rewrite Hlow. split; [reflexivity |].
    unfold transact. cbn. rewrite E. reflexivity.
  - intros Hhigh. apply N.leb_le in Hhigh. rewrite Hhigh. cbn.
    unfold PortfolioManager.updateBalance. split; [| split].
    + intros ->. reflexivity.
    + intros -> Hne. cbn. apply not_eq_sym, N.eqb_neq in Hne. rewrite Hne.
      reflexivity.
    + intros Hact Hdel. rewrite Hact. cbn. rewrite <- Hdel, N.eqb_refl. cbn.
      unfold PortfolioManager.policy in *. cbn. rewrite Hact. cbn.
      rewrite N.eqb_refl. cbn. eexists. split; [reflexivity |].
      cbn. split; [reflexivity |]. split; [reflexivity |]. split; [reflexivity |].
      split; [| split].
      * unfold PortfolioManager.balance. cbn. apply read_insert_eq.
      * intros Hdiff. unfold PortfolioManager.balance. cbn.
        rewrite read_insert_ne by congruence. apply read_insert_eq.
      * intros u t H1 H2. unfold PortfolioManager.balance. cbn.
        rewrite !read_insert_ne by congruence. reflexivity.
Qed.

(** Once [executed] is set, the three entry points that carry [validAction]
    abort, whoever calls them. *)
Lemma terminal_rejects sender blk actionId k x w :
  R.executed (action actionId w) = true ->
  is_ok (executeSwap sender actionId k x w) = false
  /\ is_ok (executeBridge sender actionId k x w) = false
  /\ is_ok (completeRebalanceAction sender blk actionId w) = false.
Proof.
  intros Hexec.
  assert (Hv : forall u, validAction actionId w <> Ok u).
  { intros u H. apply validAction_Ok in H as [_ H]. congruence. }
  repeat split; apply is_ok_false; intros w' H;
    [unfold executeSwap in H | unfold executeBridge in H
     | unfold completeRebalanceAction in H];
    apply bind_Ok in H as (u1 & _ & H); apply bind_Ok in H as (u2 & Hvalid & _);
    exact (Hv u2 Hvalid).
Qed.

(** A second [completeRebalanceAction] right after a successful one aborts
    with "Action already executed" and leaves the portfolio's stamp alone. *)
Lemma completeRebalanceAction_twice sender blk blk' actionId w w' :
  completeRebalanceAction sender blk actionId w = Ok w' ->
  R.executed (action actionId w') = true
  /\ completeRebalanceAction sender blk' actionId w'
     = Revert "Action already executed"
  /\ transact (mkTx sender blk' (CompleteRebalanceAction actionId)) w' = w'.
Proof.
  unfold completeRebalanceAction. intros H.
  apply bind_Ok in H as (u1 & Hagent & H).
  apply bind_Ok in H as (u2 & Hvalid & H).
  apply validAction_Ok in Hvalid as [Huser _].
  apply bind_Ok in H as (pm1 & _ & H). injection H as <-.
  assert (Hexec : R.executed
                    (action actionId
                       (set_manager pm1
                          (set_action actionId
                             (R.set_executed true (action actionId w)) w))) = true).
  { unfold set_manager, action. cbn. rewrite read_insert_eq. reflexivity. }
  assert (E : completeRebalanceAction sender blk' actionId
                (set_manager pm1
                   (set_action actionId (R.set_executed true (action actionId w)) w))
              = Revert "Action already executed").
  { unfold completeRebalanceAction.
    assert (Hagent' : onlyAuthorizedAgent sender
                        (set_manager pm1
                           (set_action actionId
                              (R.set_executed true (action actionId w)) w))
                      = Ok u1) by exact Hagent.
    rewrite Hagent'. cbn. unfold validAction. rewrite Hexec.
    assert (Hu : R.user
                   (action actionId
                      (set_manager pm1
                         (set_action actionId
                            (R.set_executed true (action actionId w)) w)))
                 = R.user (action actionId w)).
    { unfold set_manager, action. cbn. rewrite read_insert_eq. reflexivity. }
    rewrite Hu. apply N.eqb_neq in Huser. rewrite Huser. reflexivity. }
  split; [exact Hexec |]. split; [exact E |].
  unfold transact. cbn. fold (completeRebalanceAction sender blk' actionId
    (set_manager pm1
       (set_action actionId (R.set_executed true (action actionId w)) w))).
  rewrite E. reflexivity.
Qed.

(** [createRebalanceAction] writes a fresh record under the id it computes,
    whatever was stored there. *)
Lemma createRebalanceAction_resets sender blk user swaps bridges totalValue w
    actionId w' :
  createRebalanceAction sender blk user swaps bridges totalValue w
  = Ok (actionId, w') ->
  actionId = actionIdOf blk user swaps bridges
  /\ R.executed (action actionId w') = false
  /\ validAction actionId w' = Ok tt.
Proof.
  unfold createRebalanceAction. intros H.
  apply bind_Ok in H as (u1 & _ & H).
  apply bind_Ok in H as (u2 & Huser & H).
  apply require_Ok, negb_true_iff, N.eqb_neq in Huser.
  apply bind_Ok in H as (u3 & _ & H). injection H as <- <-.
  split; [reflexivity |].
  assert (E : action (actionIdOf blk user swaps bridges)
                (set_action (actionIdOf blk user swaps bridges)
                   (R.mk user swaps bridges totalValue (timestamp blk) false) w)
              = R.mk user swaps bridges totalValue (timestamp blk) false).
  { rewrite action_set_action, decide_True by reflexivity. reflexivity. }
  split; [rewrite E; reflexivity |].
  apply validAction_Ok. rewrite E. cbn. auto.
Qed.

(** Every other entry point leaves a set [executed] flag set. *)
Lemma call_keeps_terminal sender blk c w w' actionId :
  (forall u s b v, c <> CreateRebalanceAction u s b v) ->
  R.executed (action actionId w) = true ->
  call sender blk c w = Ok w' ->
  R.executed (action actionId w') = true.
Proof.
  intros Hc Hexec H. destruct c; cbn in H.
  - unfold setAuthorizedAgent in H.
    apply bind_Ok in H as (u & _ & H). injection H as <-. exact Hexec.
  - unfold updateTokenPrice in H.
    apply bind_Ok in H as (u & _ & H). injection H as <-. exact Hexec.
  - exfalso. eapply Hc. reflexivity.
  - unfold executeSwap in H.
    do 3 apply bind_Ok in H as (? & _ & H).
    destruct (R.swaps _ !! _); [| discriminate].
    do 3 apply bind_Ok in H as (? & _ & H). injection H as <-. exact Hexec.
  - unfold executeBridge in H.
    do 3 apply bind_Ok in H as (? & _ & H).
    destruct (R.bridges _ !! _); [| discriminate].
    do 2 apply bind_Ok in H as (? & _ & H). injection H as <-. exact Hexec.
  - unfold completeRebalanceAction in H.
    do 3 apply bind_Ok in H as (? & _ & H). injection H as <-.
    unfold set_manager, action. cbn.
    destruct (decide (actionId0 = actionId)) as [-> | Hne].
    + rewrite read_insert_eq. reflexivity.
    + rewrite read_insert_ne by exact Hne. exact Hexec.
  - unfold emergencyPause in H.
    do 2 apply bind_Ok in H as (? & _ & H). injection H as <-.
    rewrite action_set_action.
    destruct (decide (actionId0 = actionId)); [reflexivity | exact Hexec].
  - apply fmap_Ok in H as (pm & _ & <-). exact Hexec.
Qed.
End WithPrimitives.

#[local] Existing Instance Scenario.primitives.

Lemma same_block_same_action_id_witness :
  let blk := Scenario.block 10000 5 in
  let w1 := run [Scenario.createFor blk (Scenario.swapLeg 11 12 99) 1000]
                (Scenario.world (Scenario.managed Scenario.rebalancerAddress)) in
  let w2 := run [Scenario.createFor blk (Scenario.swapLeg 12 11 50) 2000] w1 in
  action (Scenario.aliceActionId blk) w1
  = R.mk Scenario.alice [Scenario.swapLeg 11 12 99] [] 1000 10000 false
  /\ action (Scenario.aliceActionId blk) w2
     = R.mk Scenario.alice [Scenario.swapLeg 12 11 50] [] 2000 10000 false.
Proof.
  intros blk w1 w2.
  destruct (same_block_same_action_id Scenario.agent blk Scenario.alice
              [Scenario.swapLeg 11 12 99] [] 1000 [Scenario.swapLeg 12 11 50] [] 2000
              (Scenario.world (Scenario.managed Scenario.rebalancerAddress))
              (Scenario.aliceActionId blk) w1)
    as (H1 & w2' & Hc & H2);
    [vm_compute; reflexivity | reflexivity | reflexivity | reflexivity |].
  split; [exact H1 |].
  replace w2 with w2'; [exact H2 |].
  subst w2. cbn [run fold_left]. unfold transact. cbn [tx_sender tx_block tx_call Scenario.createFor Scenario.byAgent call].
  rewrite Hc. reflexivity.
Defined.

Lemma executeSwap_cases_witness :
  let blk := Scenario.block 10000 5 in
  let w := run [Scenario.createFor blk (Scenario.swapLeg 11 12 99) 1000]
               (Scenario.world (Scenario.managed Scenario.rebalancerAddress)) in
  executeSwap Scenario.agent (Scenario.aliceActionId blk) 0 98 w = Revert "Slippage too high"
  /\ exists w',
       executeSwap Scenario.agent (Scenario.aliceActionId blk) 0 99 w = Ok w'
       /\ PortfolioManager.balance Scenario.alice 12 (manager w') = 99
       /\ PortfolioManager.balance Scenario.alice 11 (manager w') = 0.
Proof.
  intros blk w.
  assert (Hagent : (authorizedAgents (rebalancer w)).[Scenario.agent] = true)
    by (vm_compute; reflexivity).
  assert (Huser : R.user (action (Scenario.aliceActionId blk) w) <> 0)
    by (vm_compute; discriminate).
  assert (Hexec : R.executed (action (Scenario.aliceActionId blk) w) = false)
    by (vm_compute; reflexivity).
  assert (Hleg : R.swaps (action (Scenario.aliceActionId blk) w) !! N.to_nat 0
                 = Some (Scenario.swapLeg 11 12 99))
    by (vm_compute; reflexivity).
  split.
  - apply (executeSwap_cases Scenario.agent blk (Scenario.aliceActionId blk) 0 98 w
             (Scenario.swapLeg 11 12 99) Hagent Huser Hexec Hleg).
    vm_compute; reflexivity.
  - destruct (executeSwap_cases Scenario.agent blk (Scenario.aliceActionId blk) 0 99 w
                (Scenario.swapLeg 11 12 99) Hagent Huser Hexec Hleg) as [_ H].
    destruct H as (_ & _ & H); [vm_compute; discriminate |].
    destruct H as (w' & Hok & _ & _ & _ & Hout & Hin & _);
      [vm_compute; reflexivity | vm_compute; reflexivity |].
    exists w'. split; [exact Hok |]. split; [exact Hout |].
    apply Hin. vm_compute; discriminate.
Defined.

(** C8 as stated fails.  After Alice has revoked the delegation, a stored,
    unexecuted action with a valid index and [actualAmountOut >=
    minAmountOut] does not succeed: the PortfolioManager refuses the
    balance update.  For a leg whose two tokens coincide the call succeeds
    with the input-token balance at [actualAmountOut], not zero.  And with
    [actualAmountOut < minAmountOut] the abort is not the slippage error
    when the stored action is already executed or the caller is not an
    authorised agent: those checks come first. *)
Lemma executeSwap_not_always_accepted :
  (let blk := Scenario.block 10000 5 in
   let w := run [Scenario.createFor blk (Scenario.swapLeg 11 12 99) 1000]
                (Scenario.world Scenario.revoked) in
   action (Scenario.aliceActionId blk) w
   = R.mk Scenario.alice [Scenario.swapLeg 11 12 99] [] 1000 10000 false
   /\ executeSwap Scenario.agent (Scenario.aliceActionId blk) 0 99 w
      = Revert "Delegation not active")
  /\ (let blk := Scenario.block 10000 5 in
      let w := run [Scenario.createFor blk (Scenario.swapLeg 11 11 99) 1000]
                   (Scenario.world (Scenario.managed Scenario.rebalancerAddress)) in
      exists w',
        executeSwap Scenario.agent (Scenario.aliceActionId blk) 0 150 w = Ok w'
        /\ PortfolioManager.balance Scenario.alice 11 (manager w') = 150)
  /\ (let blk := Scenario.block 10000 5 in
      let w := run [Scenario.createFor blk (Scenario.swapLeg 11 12 99) 1000;
                    mkTx Scenario.admin blk
                      (EmergencyPause (Scenario.aliceActionId blk))]
                   (Scenario.world (Scenario.managed Scenario.rebalancerAddress)) in
      executeSwap Scenario.agent (Scenario.aliceActionId blk) 0 98 w
      = Revert "Action already executed")
  /\ (let blk := Scenario.block 10000 5 in
      let w := run [Scenario.createFor blk (Scenario.swapLeg 11 12 99) 1000]
                   (Scenario.world (Scenario.managed Scenario.rebalancerAddress)) in
      executeSwap Scenario.mallory (Scenario.aliceActionId blk) 0 98 w
      = Revert "Not authorized agent").
Proof.
  split; [vm_compute; auto |]. split; [| vm_compute; auto].
  cbv zeta. eexists. split; [vm_compute; reflexivity | vm_compute; reflexivity].
Qed.

(** C9 (the code departs from the claim).  An action is created and
    completed in block (10000, 5): its [executed] flag is set and the
    portfolio is stamped.  A second [createRebalanceAction] in that block,
    for the same user and leg counts, lands on the same id and stores a
    fresh action with [executed = false]: [executeSwap] on that id succeeds
    again, and a later [completeRebalanceAction] on it succeeds a second
    time and stamps the portfolio again.  The same happens after
    [emergencyPause]. *)
Theorem executed_action_reopened :
  let blk := Scenario.block 10000 5 in
  let id := Scenario.aliceActionId blk in
  let w0 := Scenario.world (Scenario.managed Scenario.rebalancerAddress) in
  let w1 := run [Scenario.createFor blk (Scenario.swapLeg 11 12 99) 1000;
                 Scenario.byAgent blk (CompleteRebalanceAction id)] w0 in
  let w2 := run [Scenario.createFor blk (Scenario.swapLeg 11 12 99) 2000] w1 in
  let w3 := run [Scenario.byAgent (Scenario.block 20000 6) (CompleteRebalanceAction id)] w2 in
  let p1 := run [Scenario.createFor blk (Scenario.swapLeg 11 12 99) 1000;
                 mkTx Scenario.admin blk (EmergencyPause id)] w0 in
  let p2 := run [Scenario.createFor blk (Scenario.swapLeg 11 12 99) 2000] p1 in
  (R.executed (action id w1) = true
   /\ Portfolio.lastRebalance (PortfolioManager.portfolio Scenario.alice (manager w1))
      = 10000
   /\ R.executed (action id w2) = false
   /\ is_ok (executeSwap Scenario.agent id 0 99 w2) = true
   /\ is_ok (completeRebalanceAction Scenario.agent (Scenario.block 20000 6) id w2) = true
   /\ R.executed (action id w3) = true
   /\ Portfolio.lastRebalance (PortfolioManager.portfolio Scenario.alice (manager w3))
      = 20000)
  /\ (R.executed (action id p1) = true
      /\ R.executed (action id p2) = false
      /\ is_ok (executeSwap Scenario.agent id 0 99 p2) = true
      /\ is_ok (completeRebalanceAction Scenario.agent blk id p2) = true).
Proof. vm_compute. auto 20. Qed.
End RebalancerFacts.

(** ** More on the session authority *)

Module SessionFacts.
Import LitProtocolDelegate SessionNotions LitFacts.

Lemma session_set_session_ne k sessionId s st :
  sessionId <> k -> session k (set_session sessionId s st) = session k st.
Proof. intros Hne. unfold session, set_session. cbn. apply read_insert_ne, Hne. Qed.

Section WithPrimitives.
Context {prim : Primitives}.

(** What a returning [createDelegationSession] has checked and written. *)
Lemma createDelegationSession_Ok sender blk user delegate expiry policyHash
    maxOperations st sessionId st' :
  createDelegationSession sender blk user delegate expiry policyHash
    maxOperations st = Ok (sessionId, st') ->
  user <> 0 /\ delegate <> 0 /\ timestamp blk < expiry /\ 0 < maxOperations
  /\ (userNonces st).[user] + 1 <= MAX_UINT256
  /\ sessionId = keccak256_session user delegate (userNonces st).[user] (timestamp blk)
  /\ st' = mkState (owner st)
             (<[sessionId := S.mk user delegate (userNonces st).[user] expiry
                               policyHash true maxOperations 0]>
                (delegationSessions st))
             (<[user := (userNonces st).[user] + 1]> (userNonces st))
             (usedSignatures st).
Proof.
  unfold createDelegationSession. intros H.
  apply bind_Ok in H as (u1 & Hu & H). apply require_Ok, negb_true_iff, N.eqb_neq in Hu.
  apply bind_Ok in H as (u2 & Hd & H). apply require_Ok, negb_true_iff, N.eqb_neq in Hd.
  apply bind_Ok in H as (u3 & He & H). apply require_Ok, N.ltb_lt in He.
  apply bind_Ok in H as (u4 & Hm & H). apply require_Ok, N.ltb_lt in Hm.
  apply bind_Ok in H as (next & Hn & H). apply checked_add_Ok in Hn as [-> Hfit].
  injection H as <- <-. auto 10.
Qed.

Lemma createDelegationSession_complete sender blk user delegate expiry policyHash
    maxOperations st :
  user <> 0 -> delegate <> 0 -> timestamp blk < expiry -> 0 < maxOperations ->
  (userNonces st).[user] + 1 <= MAX_UINT256 ->
  createDelegationSession sender blk user delegate expiry policyHash
    maxOperations st
  = Ok (keccak256_session user delegate (userNonces st).[user] (timestamp blk),
        mkState (owner st)
          (<[keccak256_session user delegate (userNonces st).[user] (timestamp blk)
             := S.mk user delegate (userNonces st).[user] expiry policyHash true
                  maxOperations 0]> (delegationSessions st))
          (<[user := (userNonces st).[user] + 1]> (userNonces st))
          (usedSignatures st)).
Proof.
  intros Hu Hd He Hm Hfit. unfold createDelegationSession, checked_add.
  apply N.eqb_neq in Hu, Hd. rewrite Hu, Hd. cbn.
  apply N.ltb_lt in He, Hm. rewrite He, Hm. cbn.
  apply N.leb_le in Hfit. rewrite Hfit. reflexivity.
Qed.

Lemma verifyEach_storage sender blk sessionId operations :
  forall st st',
    verifyEach sender blk sessionId operations st = Ok st' ->
    delegationSessions st' = delegationSessions st
    /\ userNonces st' = userNonces st /\ owner st' = owner st.
Proof.
  induction operations as [| operation rest IH]; cbn; intros st st' H.
  - injection H as <-. auto.
  - apply bind_Ok in H as ([valid st1] & Hv & H).
    apply bind_Ok in H as (u & _ & H).
    apply verifySignedOperation_session in Hv as (Hs & Hn & Ho).
    apply IH in H as (Hs' & Hn' & Ho'). rewrite Hs', Hn', Ho'. auto.
Qed.

(** What a returning [batchExecuteOperations] has checked and written. *)
Lemma batchExecuteOperations_Ok sender blk sessionId operations hashes st st' :
  batchExecuteOperations sender blk sessionId operations hashes st = Ok st' ->
  sender = S.delegate (session sessionId st)
  /\ length operations = length hashes
  /\ operations <> []
  /\ S.operationsUsed (session sessionId st) + N.of_nat (length operations)
     <= S.maxOperations (session sessionId st)
  /\ exists st1,
       verifyEach sender blk sessionId operations st = Ok st1
       /\ st' = set_session sessionId
                  (S.set_operationsUsed
                     (S.operationsUsed (session sessionId st)
                      + N.of_nat (length operations))
                     (session sessionId st)) st1.
Proof.
  unfold batchExecuteOperations, onlyDelegate. intros H.
  apply bind_Ok in H as (u1 & Hd & H). apply require_Ok, N.eqb_eq in Hd.
  apply bind_Ok in H as (u2 & Hlen & H). apply require_Ok, bool_decide_eq_true in Hlen.
  apply bind_Ok in H as (u3 & Hne & H).
  apply require_Ok, negb_true_iff, bool_decide_eq_false in Hne.
  apply bind_Ok in H as (total & Ht & H). apply checked_add_Ok in Ht as [-> _].
  apply bind_Ok in H as (u4 & Hcap & H). apply require_Ok, N.leb_le in Hcap.
  apply bind_Ok in H as (st1 & Hv & H).
  apply bind_Ok in H as (n & Hn & H). apply checked_add_Ok in Hn as [-> _].
  injection H as <-.
  pose proof (verifyEach_storage _ _ _ _ _ _ Hv) as (Hs & _).
  assert (Hsame : session sessionId st1 = session sessionId st)
    by (unfold session; rewrite Hs; reflexivity).
  rewrite Hsame. repeat split; auto.
  - intros ->. apply Hne. reflexivity.
  - eauto.
Qed.

(** How one successful call changes the stored sessions and counters: a
    creation writes one fresh record and advances one counter; every other
    call leaves the counters alone and, per session, either nothing, or
    clears [isActive], or raises [operationsUsed] within the cap. *)
Lemma call_effect sender blk c st st' :
  call sender blk c st = Ok st' ->
  (userNonces st' = userNonces st
   /\ forall k,
        session k st' = session k st
        \/ session k st' = S.set_isActive false (session k st)
        \/ exists n,
             session k st' = S.set_operationsUsed
                               (S.operationsUsed (session k st) + n) (session k st)
             /\ S.operationsUsed (session k st) + n <= S.maxOperations (session k st))
  \/ (exists user delegate expiry policyHash maxOperations,
        user <> 0 /\ 0 < maxOperations
        /\ st' = mkState (owner st)
                   (<[keccak256_session user delegate (userNonces st).[user]
                        (timestamp blk)
                      := S.mk user delegate (userNonces st).[user] expiry
                           policyHash true maxOperations 0]>
                      (delegationSessions st))
                   (<[user := (userNonces st).[user] + 1]> (userNonces st))
                   (usedSignatures st)).
Proof.
  destruct c as [u d e p m | sid | sid op | sid op h | sid ops hs | u]; cbn; intros H.
  - right. apply fmap_Ok in H as ([sessionId st1] & H & Hsnd).
    cbn in Hsnd. subst st1.
    apply createDelegationSession_Ok in H as (Hu & _ & _ & Hm & _ & -> & ->).
    exists u, d, e, p, m. auto.
  - left. unfold revokeDelegationSession in H.
    do 2 apply bind_Ok in H as (? & _ & H). injection H as <-.
    split; [reflexivity |]. intros k.
    destruct (decide (sid = k)) as [<- | Hne].
    + right. left. apply session_set_session.
    + left. apply session_set_session_ne, Hne.
  - left. apply fmap_Ok in H as ([valid st1] & H & <-).
    apply verifySignedOperation_session in H as (Hs & Hn & _). cbn.
    split; [exact Hn |]. intros k. left. unfold session. rewrite Hs. reflexivity.
  - left. apply executeOperation_Ok in H as (_ & st1 & Hv & _ & ->).
    pose proof (verifySignedOperation_Ok _ _ _ _ _ _ _ Hv) as (Hvalid & _).
    apply verifySignedOperation_session in Hv as (Hs & Hn & _).
    assert (Hsame : forall k, session k st1 = session k st)
      by (intros k; unfold session; rewrite Hs; reflexivity).
    split; [exact Hn |]. intros k.
    destruct (decide (sid = k)) as [<- | Hne].
    + right. right. exists 1. rewrite session_set_session, Hsame.
      split; [reflexivity |].
      unfold isSessionValid in Hvalid. apply andb_true_iff in Hvalid as [_ Hlt].
      apply N.ltb_lt in Hlt. lia.
    + left. rewrite session_set_session_ne by exact Hne. apply Hsame.
  - left. apply batchExecuteOperations_Ok in H as (_ & _ & _ & Hcap & st1 & Hv & ->).
    apply verifyEach_storage in Hv as (Hs & Hn & _).
    assert (Hsame : forall k, session k st1 = session k st)
      by (intros k; unfold session; rewrite Hs; reflexivity).
    split; [exact Hn |]. intros k.
    destruct (decide (sid = k)) as [<- | Hne].
    + right. right. exists (N.of_nat (length ops)). rewrite session_set_session.
      auto.
    + left. rewrite session_set_session_ne by exact Hne. apply Hsame.
  - left. unfold emergencyRevokeUserSessions in H.
    apply bind_Ok in H as (? & _ & H). injection H as <-. auto.
Qed.

Lemma session_created k sessionId s st nonces :
  session k (mkState (owner st) (<[sessionId := s]> (delegationSessions st))
               nonces (usedSignatures st))
  = if decide (sessionId = k) then s else session k st.
Proof.
  unfold session. cbn. destruct (decide (sessionId = k)) as [<- | Hne].
  - apply read_insert_eq.
  - apply read_insert_ne, Hne.
Qed.

Lemma capRespected_init deployer : capRespected (init deployer).
Proof.
  intros k. unfold session, init. cbn. rewrite read_empty. cbn. lia.
Qed.

Lemma capRespected_call sender blk c st st' :
  capRespected st -> call sender blk c st = Ok st' -> capRespected st'.
Proof.
  intros Hcap H k. specialize (Hcap k).
  apply call_effect in H
    as [[_ H] | (u & d & e & p & m & _ & Hm & ->)].
  - destruct (H k) as [-> | [-> | (n & -> & Hn)]]; cbn; [exact Hcap .. | exact Hn].
  - rewrite session_created. destruct (decide _); cbn; [lia | exact Hcap].
Qed.

(** X2.  In every storage reachable from deployment, no session has used
    more operations than its [maxOperations]. *)
Theorem operations_cap_never_exceeded deployer txs sessionId :
  S.operationsUsed (session sessionId (run txs (init deployer)))
  <= S.maxOperations (session sessionId (run txs (init deployer))).
Proof.
  assert (H : forall st, capRespected st -> capRespected (run txs st)).
  { induction txs as [| tx txs IH]; cbn; intros st Hcap; [exact Hcap |].
    apply IH. unfold transact.
    destruct (call (tx_sender tx) (tx_block tx) (tx_call tx) st) eqn:E;
      [eapply capRespected_call; eauto | exact Hcap ..]. }
  apply H, capRespected_init.
Qed.

(** X1.  [createDelegationSession] checks its arguments and nothing about
    its caller: while the user's counter can still advance, it succeeds for
    any caller exactly when user and delegate are non-null, the expiry lies
    in the future and [maxOperations] is positive.  The new session carries
    the user's counter as nonce, is valid in the block of its creation, and
    the call advances that counter by one and touches no other session,
    counter or used signature. *)
Theorem createDelegationSession_any_caller
    sender blk user delegate expiry policyHash maxOperations st :
  (userNonces st).[user] < MAX_UINT256 ->
  (is_ok (createDelegationSession sender blk user delegate expiry policyHash
            maxOperations st) = true
   <-> user <> 0 /\ delegate <> 0 /\ timestamp blk < expiry /\ 0 < maxOperations)
  /\ forall sessionId st',
       createDelegationSession sender blk user delegate expiry policyHash
         maxOperations st = Ok (sessionId, st') ->
       sessionId = keccak256_session user delegate (userNonces st).[user]
                     (timestamp blk)
       /\ session sessionId st'
          = S.mk user delegate (userNonces st).[user] expiry policyHash true
              maxOperations 0
       /\ isSessionValid blk sessionId st' = true
       /\ (userNonces st').[user] = (userNonces st).[user] + 1
       /\ (forall u, u <> user -> (userNonces st').[u] = (userNonces st).[u])
       /\ (forall k, k <> sessionId -> session k st' = session k st)
       /\ usedSignatures st' = usedSignatures st.
Proof.
  intros Hroom. split.
  - split.
    + intros H. apply is_ok_true in H as [[sessionId st'] H].
      apply createDelegationSession_Ok in H. tauto.
    + intros (Hu & Hd & He & Hm).
      rewrite createDelegationSession_complete by (auto; lia). reflexivity.
  - intros sessionId st' H.
    apply createDelegationSession_Ok in H as (Hu & Hd & He & Hm & _ & -> & ->).
    split; [reflexivity |].
    assert (Hs : session (keccak256_session user delegate (userNonces st).[user]
                            (timestamp blk))
                   (mkState (owner st)
                      (<[keccak256_session user delegate (userNonces st).[user]
                           (timestamp blk)
                         := S.mk user delegate (userNonces st).[user] expiry
                              policyHash true maxOperations 0]>
                         (delegationSessions st))
                      (<[user := (userNonces st).[user] + 1]> (userNonces st))
                      (usedSignatures st))
                 = S.mk user delegate (userNonces st).[user] expiry policyHash
                     true maxOperations 0).
    { rewrite session_created, decide_True by reflexivity. reflexivity. }
    split; [exact Hs |]. split.
    { unfold isSessionValid. rewrite Hs. cbn.
      assert (H1 : (timestamp blk <=? expiry) = true) by (apply N.leb_le; lia).
      apply N.ltb_lt in Hm. rewrite H1, Hm. reflexivity. }
    cbn. split; [apply read_insert_eq |].
    split; [intros u Hne; apply read_insert_ne; congruence |].
    split; [| reflexivity].
    intros k Hne. rewrite session_created, decide_False by congruence. reflexivity.
Qed.

(** *** Sessions are never overwritten *)










(** *** A batch is the sequence of its operations *)

Lemma bump_bump n m sessionId st :
  bump m sessionId (bump n sessionId st) = bump (n + m) sessionId st.
Proof.
  unfold bump. rewrite session_set_session. unfold set_session. cbn.
  rewrite insert_insert_eq, N.add_assoc. reflexivity.
Qed.

Lemma session_bump_ne n sessionId st k :
  sessionId <> k -> session k (bump n sessionId st) = session k st.
Proof. intros Hne. unfold bump. apply session_set_session_ne, Hne. Qed.

(** Verification looks at [operationsUsed] only through the cap. *)
Lemma verifySignedOperation_bump sender blk sessionId operation n st :
  S.operationsUsed (session sessionId st) + n < S.maxOperations (session sessionId st) ->
  verifySignedOperation sender blk sessionId operation (bump n sessionId st)
  = (fun r => (fst r, bump n sessionId (snd r)))
      <$> verifySignedOperation sender blk sessionId operation st.
Proof.
  intros Hroom. unfold verifySignedOperation, validSession. cbv zeta.
  assert (Hs : session sessionId (bump n sessionId st)
               = S.set_operationsUsed (S.operationsUsed (session sessionId st) + n)
                   (session sessionId st))
    by apply session_set_session.
  rewrite !Hs. cbn.
  destruct (S.isActive (session sessionId st)); [| reflexivity]. cbn.
  destruct (timestamp blk <=? S.expiry (session sessionId st)); [| reflexivity]. cbn.
  assert (H1 : (S.operationsUsed (session sessionId st) + n
                <? S.maxOperations (session sessionId st)) = true)
    by (apply N.ltb_lt; lia).
  assert (H2 : (S.operationsUsed (session sessionId st)
                <? S.maxOperations (session sessionId st)) = true)
    by (apply N.ltb_lt; lia).
  rewrite H1, H2. cbn.
  destruct (O.user operation =? S.user (session sessionId st)); [| reflexivity]. cbn.
  destruct (O.delegate operation =? S.delegate (session sessionId st));
    [| reflexivity]. cbn.
  destruct (O.nonce operation =? S.nonce (session sessionId st)); [| reflexivity]. cbn.
  unfold messageHash. cbn.
  destruct (recover _ _); [| reflexivity ..]. cbn.
  destruct (usedSignatures st).[keccak256_bytes (O.signature operation)];
    reflexivity.
Qed.

Lemma executeOperation_bump sender blk sessionId operation h n st st1 :
  verifySignedOperation sender blk sessionId operation st = Ok (true, st1) ->
  sender = S.delegate (session sessionId st) ->
  S.operationsUsed (session sessionId st) + n < S.maxOperations (session sessionId st) ->
  S.operationsUsed (session sessionId st) + n + 1 <= MAX_UINT256 ->
  executeOperation sender blk sessionId operation h (bump n sessionId st)
  = Ok (bump (n + 1) sessionId st1).
Proof.
  intros Hv Hd Hroom Hfit. unfold executeOperation, onlyDelegate.
  assert (Hs : session sessionId (bump n sessionId st)
               = S.set_operationsUsed (S.operationsUsed (session sessionId st) + n)
                   (session sessionId st))
    by apply session_set_session.
  rewrite Hs. cbn [S.delegate S.set_operationsUsed].
  rewrite <- Hd, N.eqb_refl. cbn.
  rewrite verifySignedOperation_bump by exact Hroom. rewrite Hv. cbn.
  pose proof (verifySignedOperation_keeps_session _ _ _ _ _ _ _ sessionId Hv) as Hk.
  assert (Hadd : checked_add
                   (S.operationsUsed (session sessionId (bump n sessionId st1))) 1
                 = Ok (S.operationsUsed (session sessionId (bump n sessionId st1)) + 1)).
  { apply checked_add_Ok. split; [reflexivity |].
    unfold bump. rewrite session_set_session, Hk. cbn. exact Hfit. }
  rewrite Hadd. cbn. rewrite <- (bump_bump n 1). reflexivity.
Qed.

Lemma verifyEach_session sender blk sessionId operations st st' k :
  verifyEach sender blk sessionId operations st = Ok st' ->
  session k st' = session k st.
Proof.
  intros H. apply verifyEach_storage in H as (Hs & _).
  unfold session. rewrite Hs. reflexivity.
Qed.

Lemma verifyEach_cons sender blk sessionId operation rest st st2 :
  verifyEach sender blk sessionId (operation :: rest) st = Ok st2 <->
  exists st1,
    verifySignedOperation sender blk sessionId operation st = Ok (true, st1)
    /\ verifyEach sender blk sessionId rest st1 = Ok st2.
Proof.
  cbn. split.
  - intros H. apply bind_Ok in H as ([valid st1] & Hv & H).
    apply bind_Ok in H as (u & Hvalid & H). apply require_Ok in Hvalid.
    subst valid. eauto.
  - intros (st1 & -> & H). cbn. exact H.
Qed.

Lemma verifyEach_executeEach sender blk sessionId operations :
  forall st st2 n,
    verifyEach sender blk sessionId operations st = Ok st2 ->
    sender = S.delegate (session sessionId st) ->
    S.operationsUsed (session sessionId st) + n + N.of_nat (length operations)
      <= S.maxOperations (session sessionId st) ->
    S.operationsUsed (session sessionId st) + n + N.of_nat (length operations)
      <= MAX_UINT256 ->
    executeEach sender blk sessionId operations (bump n sessionId st)
    = Ok (bump (n + N.of_nat (length operations)) sessionId st2).
Proof.
  induction operations as [| operation rest IH]; intros st st2 n H Hd Hcap Hfit.
  - cbn in H |- *. injection H as <-. rewrite N.add_0_r. reflexivity.
  - apply verifyEach_cons in H as (st1 & Hv & H).
    pose proof (verifySignedOperation_keeps_session _ _ _ _ _ _ _ sessionId Hv) as Hk.
    cbn [executeEach length] in *.
    rewrite (executeOperation_bump _ _ _ _ _ _ _ _ Hv Hd) by lia. cbn.
    rewrite (IH st1 st2 (n + 1) H) by (rewrite ?Hk; first [exact Hd | lia]).
    f_equal. f_equal. lia.
Qed.

Lemma executeEach_verifyEach sender blk sessionId operations :
  forall st st' n,
    executeEach sender blk sessionId operations (bump n sessionId st) = Ok st' ->
    exists st2,
      verifyEach sender blk sessionId operations st = Ok st2
      /\ st' = bump (n + N.of_nat (length operations)) sessionId st2
      /\ (operations <> [] ->
          sender = S.delegate (session sessionId st)
          /\ S.operationsUsed (session sessionId st) + n
               + N.of_nat (length operations)
             <= S.maxOperations (session sessionId st)
          /\ S.operationsUsed (session sessionId st) + n
               + N.of_nat (length operations) <= MAX_UINT256).
Proof.
  induction operations as [| operation rest IH]; intros st st' n H.
  - cbn in H |- *. injection H as <-. exists st. rewrite N.add_0_r.
    split; [reflexivity |]. split; [reflexivity | congruence].
  - cbn [executeEach] in H. apply bind_Ok in H as (stA & He & H).
    apply executeOperation_Ok in He as (Hd & stB & Hv & Hfit & ->).
    assert (Hs : session sessionId (bump n sessionId st)
                 = S.set_operationsUsed
                     (S.operationsUsed (session sessionId st) + n)
                     (session sessionId st))
      by apply session_set_session.
    rewrite Hs in Hd. cbn in Hd.
    pose proof (verifySignedOperation_Ok _ _ _ _ _ _ _ Hv) as (Hvalid & _).
    unfold isSessionValid in Hvalid. rewrite Hs in Hvalid. cbn in Hvalid.
    apply andb_true_iff in Hvalid as [_ Hroom]. apply N.ltb_lt in Hroom.
    rewrite verifySignedOperation_bump in Hv by exact Hroom.
    apply fmap_Ok in Hv as ([valid st1] & Hv & Hpair). cbn in Hpair.
    injection Hpair as -> <-.
    pose proof (verifySignedOperation_keeps_session _ _ _ _ _ _ _ sessionId Hv) as Hk.
    assert (Hstep : set_session sessionId
                      (S.set_operationsUsed
                         (S.operationsUsed
                            (session sessionId (bump n sessionId st1)) + 1)
                         (session sessionId (bump n sessionId st1)))
                      (bump n sessionId st1)
                    = bump (n + 1) sessionId st1)
      by (rewrite <- (bump_bump n 1); reflexivity).
    rewrite Hstep in H.
    assert (Hfit' : S.operationsUsed (session sessionId st) + n + 1 <= MAX_UINT256).
    { unfold bump in Hfit. rewrite session_set_session, Hk in Hfit. exact Hfit. }
    apply IH in H as (st2 & Hrest & -> & Hcond).
    exists st2. split; [apply verifyEach_cons; eauto |].
    cbn [length]. split; [f_equal; lia |]. intros _.
    split; [exact Hd |].
    destruct rest as [| next rest']; [cbn; lia |].
    destruct Hcond as (_ & Hc & Hf); [discriminate |].
    rewrite Hk in Hc, Hf. cbn [length] in *. lia.
Qed.

Lemma executeOperation_first sender blk sessionId operation h st st1 :
  verifySignedOperation sender blk sessionId operation st = Ok (true, st1) ->
  sender = S.delegate (session sessionId st) ->
  S.operationsUsed (session sessionId st) + 1 <= MAX_UINT256 ->
  executeOperation sender blk sessionId operation h st = Ok (bump 1 sessionId st1).
Proof.
  intros Hv Hd Hfit. unfold executeOperation, onlyDelegate.
  rewrite <- Hd, N.eqb_refl. cbn. rewrite Hv. cbn.
  pose proof (verifySignedOperation_keeps_session _ _ _ _ _ _ _ sessionId Hv) as Hk.
  assert (Hadd : checked_add (S.operationsUsed (session sessionId st1)) 1
                 = Ok (S.operationsUsed (session sessionId st1) + 1))
    by (apply checked_add_Ok; rewrite Hk; auto).
  rewrite Hadd. reflexivity.
Qed.

Lemma batchExecuteOperations_complete sender blk sessionId operations hashes st st1 :
  sender = S.delegate (session sessionId st) ->
  length operations = length hashes ->
  operations <> [] ->
  S.operationsUsed (session sessionId st) + N.of_nat (length operations)
    <= S.maxOperations (session sessionId st) ->
  S.operationsUsed (session sessionId st) + N.of_nat (length operations)
    <= MAX_UINT256 ->
  verifyEach sender blk sessionId operations st = Ok st1 ->
  batchExecuteOperations sender blk sessionId operations hashes st
  = Ok (bump (N.of_nat (length operations)) sessionId st1).
Proof.
  intros Hd Hlen Hne Hcap Hfit Hv. unfold batchExecuteOperations, onlyDelegate.
  rewrite <- Hd, N.eqb_refl. cbn.
  rewrite (bool_decide_eq_true_2 (length operations = length hashes))
    by exact Hlen. cbn.
  assert (Hne' : bool_decide (length operations = 0%nat) = false).
  { apply bool_decide_eq_false. destruct operations; [contradiction | discriminate]. }
  rewrite Hne'. cbn. unfold checked_add.
  apply N.leb_le in Hfit. rewrite Hfit. cbn.
  apply N.leb_le in Hcap. rewrite Hcap. cbn. rewrite Hv. cbn.
  rewrite (verifyEach_session _ _ _ _ _ _ sessionId Hv), Hfit. cbn.
  unfold bump. rewrite (verifyEach_session _ _ _ _ _ _ sessionId Hv). reflexivity.
Qed.

(** X5.  For the same non-empty list of operations, [batchExecuteOperations]
    succeeds exactly when calling [executeOperation] on the operations one
    after the other succeeds, and both leave the same storage. *)
Theorem batch_is_sequence sender blk sessionId operations hashes st st' :
  length operations = length hashes ->
  operations <> [] ->
  batchExecuteOperations sender blk sessionId operations hashes st = Ok st'
  <-> executeEach sender blk sessionId operations st = Ok st'.
Proof.
  intros Hlen Hne. destruct operations as [| operation rest]; [contradiction |].
  split.
  - intros H.
    assert (Hfit : S.operationsUsed (session sessionId st)
                   + N.of_nat (length (operation :: rest)) <= MAX_UINT256).
    { unfold batchExecuteOperations in H.
      do 3 apply bind_Ok in H as (? & _ & H).
      apply bind_Ok in H as (total & Ht & _). apply checked_add_Ok in Ht. tauto. }
    apply batchExecuteOperations_Ok in H as (Hd & _ & _ & Hcap & st2 & Hv & ->).
    apply verifyEach_cons in Hv as (st1 & Hv & Hrest).
    pose proof (verifySignedOperation_keeps_session _ _ _ _ _ _ _ sessionId Hv) as Hk.
    pose proof (verifyEach_session _ _ _ _ _ _ sessionId Hrest) as Hk2.
    cbn [executeEach length] in *.
    rewrite (executeOperation_first _ _ _ _ _ _ _ Hv Hd) by lia. cbn.
    rewrite (verifyEach_executeEach _ _ _ _ st1 st2 1 Hrest)
      by (rewrite ?Hk; first [exact Hd | lia]).
    f_equal. unfold bump. rewrite Hk2, Hk. do 3 f_equal. lia.
  - intros H. cbn [executeEach] in H. apply bind_Ok in H as (stA & He & H).
    apply executeOperation_Ok in He as (Hd & st1 & Hv & Hfit & ->).
    pose proof (verifySignedOperation_keeps_session _ _ _ _ _ _ _ sessionId Hv) as Hk.
    pose proof (verifySignedOperation_Ok _ _ _ _ _ _ _ Hv) as (Hvalid & _).
    unfold isSessionValid in Hvalid.
    apply andb_true_iff in Hvalid as [_ Hroom]. apply N.ltb_lt in Hroom.
    change (set_session sessionId
              (S.set_operationsUsed
                 (S.operationsUsed (session sessionId st1) + 1)
                 (session sessionId st1)) st1)
      with (bump 1 sessionId st1) in H.
    apply executeEach_verifyEach in H as (st2 & Hrest & -> & Hcond).
    rewrite Hk in Hfit.
    assert (Hboth : S.operationsUsed (session sessionId st)
                    + N.of_nat (length (operation :: rest))
                    <= S.maxOperations (session sessionId st)
                    /\ S.operationsUsed (session sessionId st)
                       + N.of_nat (length (operation :: rest)) <= MAX_UINT256).
    { destruct rest as [| next rest']; [cbn; lia |].
      destruct Hcond as (_ & Hc & Hf); [discriminate |].
      rewrite Hk in Hc, Hf. cbn [length] in *. lia. }
    destruct Hboth as [Hcap Hfit'].
    rewrite (batchExecuteOperations_complete _ _ _ _ _ _ st2 Hd Hlen Hne Hcap Hfit')
      by (apply verifyEach_cons; eauto).
    f_equal. f_equal. cbn [length]. lia.
Qed.

(** X6.  A successful [revokeDelegationSession] comes from the session's
    user or the contract owner, on an active session; it clears [isActive]
    of that session and changes no other session.  From then on the session
    is invalid at every time: verification aborts with "Session not
    active", and execution, batches and a second revocation fail, whoever
    calls. *)
Theorem revoked_session_is_dead sender sessionId st st' :
  revokeDelegationSession sender sessionId st = Ok st' ->
  (sender = S.user (session sessionId st) \/ sender = owner st)
  /\ S.isActive (session sessionId st) = true
  /\ session sessionId st' = S.set_isActive false (session sessionId st)
  /\ (forall k, k <> sessionId -> session k st' = session k st)
  /\ forall caller blk operation h operations hashes,
       isSessionValid blk sessionId st' = false
       /\ verifySignedOperation caller blk sessionId operation st'
          = Revert "Session not active"
       /\ is_ok (executeOperation caller blk sessionId operation h st') = false
       /\ is_ok (batchExecuteOperations caller blk sessionId operations hashes st')
          = false
       /\ is_ok (revokeDelegationSession caller sessionId st') = false.
Proof.
  unfold revokeDelegationSession. intros H.
  apply bind_Ok in H as (u1 & Hauth & H).
  apply require_Ok, orb_true_iff in Hauth. rewrite !N.eqb_eq in Hauth.
  apply bind_Ok in H as (u2 & Hact & H). apply require_Ok in Hact.
  injection H as <-.
  split; [destruct Hauth; auto |]. split; [exact Hact |].
  split; [apply session_set_session |].
  split; [intros k Hne; apply session_set_session_ne; congruence |].
  intros caller blk operation h operations hashes.
  assert (Hoff : S.isActive
                   (session sessionId
                      (set_session sessionId
                         (S.set_isActive false (session sessionId st)) st)) = false)
    by (rewrite session_set_session; reflexivity).
  assert (Hverify : forall op,
            verifySignedOperation caller blk sessionId op
              (set_session sessionId (S.set_isActive false (session sessionId st)) st)
            = Revert "Session not active").
  { intros op. unfold verifySignedOperation, validSession. rewrite Hoff. reflexivity. }
  split; [unfold isSessionValid; rewrite Hoff; reflexivity |].
  split; [apply Hverify |]. split; [| split].
  - apply is_ok_false. intros st2 H2.
    apply executeOperation_Ok in H2 as (_ & st1 & Hv & _).
    rewrite Hverify in Hv. discriminate.
  - apply is_ok_false. intros st2 H2.
    apply batchExecuteOperations_Ok in H2 as (_ & _ & Hne & _ & st1 & Hv & _).
    destruct operations as [| op rest]; [contradiction |].
    apply verifyEach_cons in Hv as (st3 & Hv & _).
    rewrite Hverify in Hv. discriminate.
  - apply is_ok_false. intros st2 H2.
    apply bind_Ok in H2 as (? & _ & H2). apply bind_Ok in H2 as (? & Hact2 & _).
    apply require_Ok in Hact2. congruence.
Qed.

End WithPrimitives.


Lemma createDelegationSession_any_caller_witness :
  is_ok (createDelegationSession (prim := Scenario.primitives) Scenario.mallory
           (Scenario.block 100 1) Scenario.alice Scenario.agent 1000 0 1
           (init Scenario.admin)) = true.
Proof.
  apply (createDelegationSession_any_caller (prim := Scenario.primitives)
           Scenario.mallory (Scenario.block 100 1) Scenario.alice Scenario.agent
           1000 0 1 (init Scenario.admin)).
  - vm_compute. reflexivity.
  - repeat split; try discriminate; reflexivity.
Defined.



Lemma batch_is_sequence_witness :
  is_ok (executeEach (prim := Scenario.primitives) Scenario.agent
           (Scenario.block 100 1) (Scenario.sid 2) Scenario.pair
           (Scenario.lit0 2)) = true.
Proof.
  apply is_ok_true.
  exists (Scenario.get (Scenario.lit0 2)
            (batchExecuteOperations (prim := Scenario.primitives) Scenario.agent
               (Scenario.block 100 1) (Scenario.sid 2) Scenario.pair [0; 0]
               (Scenario.lit0 2))).
  apply (batch_is_sequence (prim := Scenario.primitives) Scenario.agent
           (Scenario.block 100 1) (Scenario.sid 2) Scenario.pair [0; 0]).
  - reflexivity.
  - discriminate.
  - vm_compute. reflexivity.
Defined.

Lemma revoked_session_is_dead_witness :
  verifySignedOperation (prim := Scenario.primitives) Scenario.agent
    (Scenario.block 102 3) (Scenario.sid 2) Scenario.signed
    (Scenario.get (Scenario.lit0 2)
       (revokeDelegationSession Scenario.alice (Scenario.sid 2) (Scenario.lit0 2)))
  = Revert "Session not active".
Proof.
  destruct (revoked_session_is_dead (prim := Scenario.primitives) Scenario.alice
              (Scenario.sid 2) (Scenario.lit0 2)
              (Scenario.get (Scenario.lit0 2)
                 (revokeDelegationSession Scenario.alice (Scenario.sid 2)
                    (Scenario.lit0 2)))
              ltac:(vm_compute; reflexivity)) as (_ & _ & _ & _ & H).
  apply (H Scenario.agent (Scenario.block 102 3) Scenario.signed 0 [] []).
Defined.
End SessionFacts.

(** ** More on the PortfolioManager *)

Module PolicyFacts.
Import PortfolioManager ManagerNotions ManagerFacts.

Lemma policy_set_policy user d st k :
  policy k (set_policy user d st) = if decide (user = k) then d else policy k st.
Proof.
  unfold policy, set_policy. cbn. destruct (decide (user = k)) as [<- | Hne].
  - apply read_insert_eq.
  - apply read_insert_ne, Hne.
Qed.

(** What a returning [setDelegationPolicy] has checked and written. *)
Lemma setDelegationPolicy_Ok sender user delegate maxSlippage maxRebalanceAmount
    rebalanceThreshold cooldownPeriod st st' :
  setDelegationPolicy sender user delegate maxSlippage maxRebalanceAmount
    rebalanceThreshold cooldownPeriod st = Ok st' ->
  (sender = user \/ sender = owner st)
  /\ P.isActive (portfolio user st) = true
  /\ bounded (D.mk delegate maxSlippage maxRebalanceAmount rebalanceThreshold
                cooldownPeriod true)
  /\ st' = set_policy user
             (D.mk delegate maxSlippage maxRebalanceAmount rebalanceThreshold
                cooldownPeriod true) st.
Proof.
  unfold setDelegationPolicy, portfolioExists, bounded. intros H.
  apply bind_Ok in H as (u1 & Hown & H). apply onlyPortfolioOwner_Ok in Hown.
  apply bind_Ok in H as (u2 & Hact & H). apply require_Ok in Hact.
  apply bind_Ok in H as (u3 & Hd & H). apply require_Ok, negb_true_iff, N.eqb_neq in Hd.
  apply bind_Ok in H as (u4 & Hs & H). apply require_Ok, N.leb_le in Hs.
  apply bind_Ok in H as (u5 & Ht & H). apply require_Ok, N.leb_le in Ht.
  apply bind_Ok in H as (u6 & Hc & H). apply require_Ok, N.leb_le in Hc.
  injection H as <-. cbn. auto 10.
Qed.

Lemma executeRebalance_Ok sender blk user totalValue st st' :
  executeRebalance sender blk user totalValue st = Ok st' ->
  D.isActive (policy user st) = true
  /\ sender = D.delegate (policy user st)
  /\ P.lastRebalance (portfolio user st) + D.cooldownPeriod (policy user st)
     <= timestamp blk
  /\ st' = set_portfolio user
             (P.mk (P.assets (portfolio user st)) totalValue (timestamp blk)
                (P.isActive (portfolio user st))) st.
Proof.
  unfold executeRebalance. intros H.
  apply bind_Ok in H as (u1 & Hact & H). apply require_Ok in Hact.
  apply bind_Ok in H as (u2 & Hd & H). apply require_Ok, N.eqb_eq in Hd.
  apply bind_Ok in H as (ready & Hr & H). apply checked_add_Ok in Hr as [-> _].
  apply bind_Ok in H as (u3 & Hc & H). apply require_Ok, N.leb_le in Hc.
  injection H as <-. auto.
Qed.

Lemma updateBalance_Ok sender user tokenAddress newBalance st st' :
  updateBalance sender user tokenAddress newBalance st = Ok st' ->
  D.isActive (policy user st) = true
  /\ sender = D.delegate (policy user st)
  /\ st' = mkState (owner st) (portfolios st) (delegationPolicies st)
             (<[(user, tokenAddress) := newBalance]> (userBalances st)).
Proof.
  unfold updateBalance. intros H.
  apply bind_Ok in H as (u1 & Hact & H). apply require_Ok in Hact.
  apply bind_Ok in H as (u2 & Hd & H). apply require_Ok, N.eqb_eq in Hd.
  injection H as <-. auto.
Qed.

Lemma revokeDelegation_Ok sender user st st' :
  revokeDelegation sender user st = Ok st' ->
  (sender = user \/ sender = owner st)
  /\ st' = set_policy user (D.set_isActive false (policy user st)) st.
Proof.
  unfold revokeDelegation. intros H.
  apply bind_Ok in H as (u1 & Hown & H). apply onlyPortfolioOwner_Ok in Hown.
  injection H as <-. auto.
Qed.

(** How one successful call changes policies and the activity of
    portfolios. *)
Lemma call_policies sender blk c st st' :
  call sender blk c st = Ok st' ->
  forall k,
    (P.isActive (portfolio k st) = true -> P.isActive (portfolio k st') = true)
    /\ (policy k st' = policy k st
        \/ policy k st' = D.set_isActive false (policy k st)
        \/ (D.isActive (policy k st') = true /\ bounded (policy k st')
            /\ P.isActive (portfolio k st) = true)).
Proof.
  intros H k. destruct c as [u l | u l | u t ch pc | u t ch | u d sl am th cd | u
                            | u t b | u v]; cbn in H.
  - apply createPortfolio_Ok in H as (_ & _ & _ & _ & _ & ->).
    rewrite portfolio_set_portfolio. split; [| left; reflexivity].
    destruct (decide _); auto.
  - apply updatePortfolio_Ok in H as (_ & Hact & _ & _ & _ & ->).
    rewrite portfolio_set_portfolio. split; [| left; reflexivity].
    destruct (decide _) as [<- | _]; auto.
  - pose proof (addAsset_Ok _ _ _ _ _ _ _ H) as (_ & _ & Hact' & _).
    unfold addAsset in H. do 4 apply bind_Ok in H as (? & _ & H). injection H as <-.
    rewrite portfolio_set_portfolio. split; [| left; reflexivity].
    destruct (decide _) as [<- | _]; auto.
  - unfold removeAsset in H. do 2 apply bind_Ok in H as (? & _ & H).
    destruct (findAsset _ _ _); [| discriminate]. injection H as <-.
    rewrite portfolio_set_portfolio. split; [| left; reflexivity].
    destruct (decide _) as [<- | _]; auto.
  - apply setDelegationPolicy_Ok in H as (_ & Hact & Hb & ->).
    split; [auto |]. rewrite policy_set_policy.
    destruct (decide _) as [<- | _]; [| left; reflexivity].
    right. right. auto.
  - apply revokeDelegation_Ok in H as (_ & ->).
    split; [auto |]. rewrite policy_set_policy.
    destruct (decide _) as [<- | _]; [right; left | left]; reflexivity.
  - apply updateBalance_Ok in H as (_ & _ & ->). auto.
  - apply executeRebalance_Ok in H as (_ & _ & _ & ->).
    rewrite portfolio_set_portfolio. split; [| left; reflexivity].
    destruct (decide _) as [<- | _]; auto.
Qed.

Lemma policiesBounded_init deployer : policiesBounded (init deployer).
Proof.
  intros k H. unfold policy, init in H. cbn in H. rewrite read_empty in H.
  discriminate.
Qed.

Lemma policiesBounded_call sender blk c st st' :
  policiesBounded st -> call sender blk c st = Ok st' -> policiesBounded st'.
Proof.
  intros Hinv H k Hact.
  destruct (call_policies _ _ _ _ _ H k) as [Hp [E | [E | (_ & Hb & Hpa)]]].
  - rewrite E in Hact |- *. destruct (Hinv k Hact). auto.
  - rewrite E in Hact. discriminate.
  - auto.
Qed.

(** X7.  In every storage reachable from deployment, every active
    delegation policy has a non-null delegate, [maxSlippage] and
    [rebalanceThreshold] of at most 1000 and a [cooldownPeriod] of at least
    3600, and its user has an active portfolio. *)
Theorem active_policies_are_bounded deployer txs user :
  D.isActive (policy user (run txs (init deployer))) = true ->
  bounded (policy user (run txs (init deployer)))
  /\ P.isActive (portfolio user (run txs (init deployer))) = true.
Proof.
  assert (H : forall st, policiesBounded st -> policiesBounded (run txs st)).
  { induction txs as [| tx txs IH]; cbn; intros st Hinv; [exact Hinv |].
    apply IH. unfold transact.
    destruct (call (tx_sender tx) (tx_block tx) (tx_call tx) st) eqn:E;
      [eapply policiesBounded_call; eauto | exact Hinv ..]. }
  apply H, policiesBounded_init.
Qed.

Lemma active_policies_are_bounded_witness :
  bounded (policy Scenario.alice (Scenario.managed Scenario.agent))
  /\ P.isActive (portfolio Scenario.alice (Scenario.managed Scenario.agent)) = true.
Proof.
  apply (active_policies_are_bounded Scenario.admin
           [Scenario.createHalves; Scenario.setPolicy Scenario.agent 3600]
           Scenario.alice).
  vm_compute. reflexivity.
Defined.

(** X8.  A successful [executeRebalance] stores the reported value, stamps
    the portfolio with the block time and leaves assets and policy alone.
    Until [cooldownPeriod] has passed since that time, every further
    [executeRebalance] for the user fails and, when the sum fits a
    [uint256], [needsRebalancing] answers [false]. *)
Theorem executeRebalance_rearms_cooldown sender blk user totalValue st st' :
  executeRebalance sender blk user totalValue st = Ok st' ->
  P.lastRebalance (portfolio user st') = timestamp blk
  /\ P.totalValue (portfolio user st') = totalValue
  /\ P.assets (portfolio user st') = P.assets (portfolio user st)
  /\ policy user st' = policy user st
  /\ forall sender' blk' totalValue' currentAllocations,
       timestamp blk' < timestamp blk + D.cooldownPeriod (policy user st) ->
       is_ok (executeRebalance sender' blk' user totalValue' st') = false
       /\ (timestamp blk + D.cooldownPeriod (policy user st) <= MAX_UINT256 ->
           needsRebalancing blk' user currentAllocations st' = Ok false).
Proof.
  intros H. apply executeRebalance_Ok in H as (Hact & _ & _ & ->).
  rewrite portfolio_set_portfolio, decide_True by reflexivity. cbn.
  repeat split.
  - apply is_ok_false. intros st2 H2.
    apply executeRebalance_Ok in H2 as (_ & _ & Hready & _).
    rewrite portfolio_set_portfolio, decide_True in Hready by reflexivity.
    cbn in Hready. unfold policy in *. cbn in Hready. lia.
  - intros Hfit. unfold needsRebalancing, checked_add.
    rewrite portfolio_set_portfolio, decide_True by reflexivity.
    unfold policy in *. cbn. rewrite Hact. cbn.
    apply N.leb_le in Hfit. rewrite Hfit. cbn.
    apply N.ltb_lt in H. rewrite H. reflexivity.
Qed.

Lemma executeRebalance_rearms_cooldown_witness :
  is_ok (executeRebalance Scenario.agent (Scenario.block 13000 3) Scenario.alice 2
           (Scenario.get (init Scenario.admin)
              (executeRebalance Scenario.agent (Scenario.block 10000 2)
                 Scenario.alice 1 (Scenario.managed Scenario.agent)))) = false.
Proof.
  destruct (executeRebalance_rearms_cooldown Scenario.agent (Scenario.block 10000 2)
              Scenario.alice 1 (Scenario.managed Scenario.agent)
              (Scenario.get (init Scenario.admin)
                 (executeRebalance Scenario.agent (Scenario.block 10000 2)
                    Scenario.alice 1 (Scenario.managed Scenario.agent)))
              ltac:(vm_compute; reflexivity)) as (_ & _ & _ & _ & H).
  apply (H Scenario.agent (Scenario.block 13000 3) 2 []).
  vm_compute. reflexivity.
Defined.

(** *** Asset list edits *)

(** The duplicate check of [addAsset] passes exactly when the look-up of
    [removeAsset] finds nothing. *)
Lemma requireAbsent_findAsset (l : list A.t) tokenAddress chainId :
  (requireAbsent l tokenAddress chainId = Ok tt
   <-> findAsset l tokenAddress chainId = None)
  /\ (requireAbsent l tokenAddress chainId = Revert "Asset already exists"
      \/ requireAbsent l tokenAddress chainId = Ok tt).
Proof.
  induction l as [| a l [IH1 IH2]]; cbn; [split; [tauto | auto] |].
  destruct (A.tokenAddress a =? tokenAddress), (A.chainId a =? chainId); cbn;
    try (split; [| auto]; split; discriminate).
  all: split; [| exact IH2].
  all: rewrite IH1; destruct (findAsset l tokenAddress chainId); cbn;
    split; congruence.
Qed.

Lemma matches_isAsset a tokenAddress chainId :
  (A.tokenAddress a =? tokenAddress) && (A.chainId a =? chainId) = true
  <-> isAsset tokenAddress chainId a.
Proof. unfold isAsset. rewrite andb_true_iff, !N.eqb_eq. reflexivity. Qed.

Lemma findAsset_None (l : list A.t) tokenAddress chainId :
  findAsset l tokenAddress chainId = None
  <-> Forall (fun a => ~ isAsset tokenAddress chainId a) l.
Proof.
  induction l as [| a l IH]; cbn; [split; auto |]. rewrite Forall_cons.
  destruct ((A.tokenAddress a =? tokenAddress) && (A.chainId a =? chainId)) eqn:E.
  - apply matches_isAsset in E. split; [discriminate | tauto].
  - assert (Hno : ~ isAsset tokenAddress chainId a).
    { intros Hm. apply matches_isAsset in Hm. congruence. }
    rewrite <- IH. destruct (findAsset l tokenAddress chainId); cbn;
      split; try tauto; try discriminate. intros [_ ?]. discriminate.
Qed.

(** The index found is that of the first asset with the token and chain. *)
Lemma findAsset_first (l : list A.t) tokenAddress chainId :
  forall i,
    findAsset l tokenAddress chainId = Some i ->
    exists a,
      l !! i = Some a /\ isAsset tokenAddress chainId a
      /\ Forall (fun b => ~ isAsset tokenAddress chainId b) (take i l).
Proof.
  induction l as [| b l IH]; cbn; intros i H; [discriminate |].
  destruct ((A.tokenAddress b =? tokenAddress) && (A.chainId b =? chainId)) eqn:E.
  - apply matches_isAsset in E. injection H as <-. exists b. cbn. auto.
  - assert (Hno : ~ isAsset tokenAddress chainId b).
    { intros Hm. apply matches_isAsset in Hm. congruence. }
    destruct (findAsset l tokenAddress chainId) as [j |]; [| discriminate].
    injection H as <-. destruct (IH j eq_refl) as (a & Ha & Hm & Hb).
    exists a. cbn. split; [exact Ha |]. split; [exact Hm |].
    constructor; [exact Hno | exact Hb].
Qed.

Lemma findAsset_snoc (l : list A.t) tokenAddress chainId x :
  findAsset l tokenAddress chainId = None ->
  findAsset (l ++ [A.mk tokenAddress chainId x true]) tokenAddress chainId
  = Some (length l).
Proof.
  induction l as [| b l IH]; cbn; intros H.
  - rewrite !N.eqb_refl. reflexivity.
  - destruct ((A.tokenAddress b =? tokenAddress) && (A.chainId b =? chainId));
      [discriminate |].
    destruct (findAsset l tokenAddress chainId); [discriminate |].
    rewrite IH by reflexivity. reflexivity.
Qed.

Lemma swapRemove_snoc (l : list A.t) x : swapRemove (length l) (l ++ [x]) = l.
Proof.
  unfold swapRemove. rewrite last_snoc, length_app. cbn.
  replace (length l + 1 - 1)%nat with (length l) by lia.
  rewrite take_insert_ge by lia. apply take_app_length.
Qed.

Lemma insert_swap (l : list A.t) :
  forall (i : nat) a x, l !! i = Some a -> x :: l ≡ₚ a :: <[i := x]> l.
Proof.
  induction l as [| b l IH]; intros [| i] a x H; simpl in H |- *; try discriminate.
  - injection H as ->. apply perm_swap.
  - rewrite (perm_swap b a). rewrite (perm_swap b x).
    constructor. apply IH, H.
Qed.

(** Swap-with-last-then-truncate keeps every asset but the one at [i]. *)
Lemma swapRemove_Permutation (l : list A.t) (i : nat) a :
  l !! i = Some a -> l ≡ₚ a :: swapRemove i l.
Proof.
  destruct l as [| x l _] using rev_ind; [discriminate |]. intros Hi.
  unfold swapRemove. rewrite last_snoc, length_app. cbn.
  replace (length l + 1 - 1)%nat with (length l) by lia.
  transitivity (x :: l); [symmetry; apply Permutation_cons_append |].
  destruct (decide (i < length l)%nat) as [Hlt | Hge].
  - rewrite take_insert_lt by exact Hlt. rewrite take_app_length.
    rewrite lookup_app_l in Hi by exact Hlt. apply insert_swap, Hi.
  - rewrite take_insert_ge by lia. rewrite take_app_length.
    apply lookup_snoc_Some in Hi as [[Hlt _] | [_ ->]]; [lia | reflexivity].
Qed.

Lemma active_is_stored user st :
  P.isActive (portfolio user st) = true ->
  portfolios st !! user = Some (portfolio user st).
Proof.
  unfold portfolio, read. destruct (portfolios st !! user); cbn;
    [reflexivity | discriminate].
Qed.

(** X9.  [addAsset] followed by [removeAsset] of the same token and
    chain, by the user or the contract owner, gives back exactly the
    storage from before the two calls. *)
Theorem addAsset_then_removeAsset
    sender sender' user tokenAddress chainId targetPercentage st st1 :
  addAsset sender user tokenAddress chainId targetPercentage st = Ok st1 ->
  (sender' = user \/ sender' = owner st) ->
  removeAsset sender' user tokenAddress chainId st1 = Ok st.
Proof.
  intros H Hown'.
  pose proof (addAsset_Ok _ _ _ _ _ _ _ H) as (Hact & _ & Hact1 & Hassets).
  unfold addAsset in H.
  apply bind_Ok in H as (u1 & _ & H). apply bind_Ok in H as (u2 & _ & H).
  apply bind_Ok in H as (u3 & _ & H). apply bind_Ok in H as ([] & Habs & H).
  injection H as <-. apply requireAbsent_findAsset in Habs.
  unfold removeAsset, portfolioExists.
  assert (Hown1 : onlyPortfolioOwner sender' user
                    (set_portfolio user
                       (P.set_assets
                          (P.assets (portfolio user st)
                           ++ [A.mk tokenAddress chainId targetPercentage true])
                          (portfolio user st)) st) = Ok tt)
    by (apply onlyPortfolioOwner_Ok; exact Hown').
  rewrite Hown1. cbn. rewrite Hact1. cbn.
  rewrite Hassets, (findAsset_snoc _ _ _ _ Habs), swapRemove_snoc. f_equal.
  rewrite portfolio_set_portfolio, decide_True by reflexivity.
  unfold set_portfolio. cbn. rewrite insert_insert_eq.
  assert (Hp : P.set_assets (P.assets (portfolio user st))
                 (P.set_assets
                    (P.assets (portfolio user st)
                     ++ [A.mk tokenAddress chainId targetPercentage true])
                    (portfolio user st))
               = portfolio user st)
    by (destruct (portfolio user st); reflexivity).
  rewrite Hp, (insert_id _ _ _ (active_is_stored _ _ Hact)).
  destruct st; reflexivity.
Qed.

Lemma addAsset_then_removeAsset_witness :
  removeAsset Scenario.admin Scenario.alice 13 1
    (Scenario.get (init Scenario.admin)
       (addAsset Scenario.alice Scenario.alice 13 1 2500
          (Scenario.managed Scenario.agent)))
  = Ok (Scenario.managed Scenario.agent).
Proof.
  apply (addAsset_then_removeAsset Scenario.alice Scenario.admin Scenario.alice
           13 1 2500).
  - vm_compute. reflexivity.
  - right. vm_compute. reflexivity.
Defined.

(** X10.  For a caller that may edit an active portfolio, [removeAsset]
    aborts with "Asset not found" exactly when no asset has the token and
    chain.  Otherwise it removes the first such asset and nothing else, up
    to the order of the remaining assets. *)
Theorem removeAsset_removes_one sender user tokenAddress chainId st :
  (sender = user \/ sender = owner st) ->
  P.isActive (portfolio user st) = true ->
  (removeAsset sender user tokenAddress chainId st = Revert "Asset not found"
   <-> Forall (fun a => ~ isAsset tokenAddress chainId a)
              (P.assets (portfolio user st)))
  /\ forall st',
       removeAsset sender user tokenAddress chainId st = Ok st' ->
       exists i a,
         P.assets (portfolio user st) !! i = Some a
         /\ isAsset tokenAddress chainId a
         /\ Forall (fun b => ~ isAsset tokenAddress chainId b)
                   (take i (P.assets (portfolio user st)))
         /\ P.assets (portfolio user st) ≡ₚ a :: P.assets (portfolio user st')
         /\ forall k, k <> user -> portfolio k st' = portfolio k st.
Proof.
  intros Hown Hact. unfold removeAsset, portfolioExists.
  apply (onlyPortfolioOwner_Ok _ _ _ tt) in Hown. rewrite Hown, Hact. cbn.
  destruct (findAsset (P.assets (portfolio user st)) tokenAddress chainId)
    as [i |] eqn:E.
  - split.
    + split; [discriminate |]. intros Hnone.
      apply findAsset_None in Hnone. congruence.
    + intros st' [= <-]. apply findAsset_first in E as (a & Hi & Hm & Hbefore).
      exists i, a. rewrite portfolio_set_portfolio, decide_True by reflexivity.
      cbn. split; [exact Hi |]. split; [exact Hm |]. split; [exact Hbefore |].
      split; [apply swapRemove_Permutation, Hi |].
      intros k Hne. rewrite portfolio_set_portfolio, decide_False by congruence.
      reflexivity.
  - split; [| discriminate]. split; [| reflexivity].
    intros _. apply findAsset_None, E.
Qed.

Lemma removeAsset_removes_one_witness :
  removeAsset Scenario.alice Scenario.alice 13 1 (Scenario.managed Scenario.agent)
  = Revert "Asset not found".
Proof.
  apply (removeAsset_removes_one Scenario.alice Scenario.alice 13 1
           (Scenario.managed Scenario.agent)).
  - left. reflexivity.
  - vm_compute. reflexivity.
  - assert (E : P.assets (portfolio Scenario.alice (Scenario.managed Scenario.agent))
                = [Scenario.half 11; Scenario.half 12])
      by (vm_compute; reflexivity).
    rewrite E. repeat constructor; intros [Ht _]; vm_compute in Ht; discriminate.
Defined.

(** X13.  For a caller that may edit an active portfolio, [addAsset]
    aborts with "Invalid percentage" above 10000, with "Asset already
    exists" when some asset has the token and chain, and otherwise appends
    the asset, marked active, at the end of the list, whatever its target
    (zero included) and whatever the sum of the targets. *)
Theorem addAsset_cases sender user tokenAddress chainId targetPercentage st :
  (sender = user \/ sender = owner st) ->
  P.isActive (portfolio user st) = true ->
  (10000 < targetPercentage ->
   addAsset sender user tokenAddress chainId targetPercentage st
   = Revert "Invalid percentage")
  /\ (targetPercentage <= 10000 ->
      Exists (isAsset tokenAddress chainId) (P.assets (portfolio user st)) ->
      addAsset sender user tokenAddress chainId targetPercentage st
      = Revert "Asset already exists")
  /\ (targetPercentage <= 10000 ->
      Forall (fun a => ~ isAsset tokenAddress chainId a)
             (P.assets (portfolio user st)) ->
      addAsset sender user tokenAddress chainId targetPercentage st
      = Ok (set_portfolio user
              (P.set_assets
                 (P.assets (portfolio user st)
                  ++ [A.mk tokenAddress chainId targetPercentage true])
                 (portfolio user st)) st)).
Proof.
  intros Hown Hact. unfold addAsset, portfolioExists, validPercentage.
  apply (onlyPortfolioOwner_Ok _ _ _ tt) in Hown. rewrite Hown, Hact. cbn.
  destruct (requireAbsent_findAsset (P.assets (portfolio user st)) tokenAddress
              chainId) as [Hiff Hcases].
  split; [| split].
  - intros Hbig. apply N.leb_gt in Hbig. rewrite Hbig. reflexivity.
  - intros Hle Hex. apply N.leb_le in Hle. rewrite Hle. cbn.
    destruct Hcases as [-> | Hok]; [reflexivity |].
    apply Hiff, findAsset_None, Forall_Exists_neg in Hok. contradiction.
  - intros Hle Hnone. apply N.leb_le in Hle. rewrite Hle. cbn.
    apply findAsset_None, Hiff in Hnone. rewrite Hnone. reflexivity.
Qed.

Lemma addAsset_cases_witness :
  addAsset Scenario.alice Scenario.alice 11 1 100 (Scenario.managed Scenario.agent)
  = Revert "Asset already exists".
Proof.
  apply (addAsset_cases Scenario.alice Scenario.alice 11 1 100
           (Scenario.managed Scenario.agent)).
  - left. reflexivity.
  - vm_compute. reflexivity.
  - vm_compute. discriminate.
  - assert (E : P.assets (portfolio Scenario.alice (Scenario.managed Scenario.agent))
                = [Scenario.half 11; Scenario.half 12])
      by (vm_compute; reflexivity).
    rewrite E. left. split; reflexivity.
Defined.

(** *** Delegation *)

(** X11.  A successful [revokeDelegation] comes from the user or the
    contract owner; it switches the user's policy off and changes nothing
    else.  Revoking again changes nothing more.  Until a new policy is set,
    [updateBalance] and [executeRebalance] for that user abort with
    "Delegation not active" for every caller, and [needsRebalancing]
    answers [false]. *)
Theorem revokeDelegation_stops_delegate sender user st st' :
  revokeDelegation sender user st = Ok st' ->
  (sender = user \/ sender = owner st)
  /\ D.isActive (policy user st') = false
  /\ (forall k, k <> user -> policy k st' = policy k st)
  /\ portfolios st' = portfolios st
  /\ userBalances st' = userBalances st
  /\ revokeDelegation sender user st' = Ok st'
  /\ forall caller blk tokenAddress value currentAllocations,
       updateBalance caller user tokenAddress value st'
       = Revert "Delegation not active"
       /\ executeRebalance caller blk user value st'
          = Revert "Delegation not active"
       /\ needsRebalancing blk user currentAllocations st' = Ok false.
Proof.
  intros H. apply revokeDelegation_Ok in H as (Hown & ->).
  assert (Hoff : D.isActive
                   (policy user
                      (set_policy user (D.set_isActive false (policy user st)) st))
                 = false)
    by (rewrite policy_set_policy, decide_True by reflexivity; reflexivity).
  split; [exact Hown |]. split; [exact Hoff |].
  split; [intros k Hne; rewrite policy_set_policy, decide_False by congruence;
          reflexivity |].
  split; [reflexivity |]. split; [reflexivity |]. split.
  - unfold revokeDelegation.
    assert (Hown' : onlyPortfolioOwner sender user
                      (set_policy user (D.set_isActive false (policy user st)) st)
                    = Ok tt) by (apply onlyPortfolioOwner_Ok; exact Hown).
    rewrite Hown'. cbn. f_equal.
    rewrite policy_set_policy, decide_True by reflexivity.
    unfold set_policy. cbn. rewrite insert_insert_eq. reflexivity.
  - intros caller blk tokenAddress value currentAllocations.
    unfold updateBalance, executeRebalance, needsRebalancing.
    rewrite Hoff. auto.
Qed.

Lemma revokeDelegation_stops_delegate_witness :
  updateBalance Scenario.rebalancerAddress Scenario.alice 11 7 Scenario.revoked
  = Revert "Delegation not active".
Proof.
  destruct (revokeDelegation_stops_delegate Scenario.alice Scenario.alice
              (Scenario.managed Scenario.rebalancerAddress) Scenario.revoked
              ltac:(vm_compute; reflexivity)) as (_ & _ & _ & _ & _ & _ & H).
  apply (H Scenario.rebalancerAddress (Scenario.block 100 1) 11 7 []).
Defined.

(** X12.  A recorded balance changes only through [updateBalance] called
    by the delegate of the user's active policy: no other entry point and
    no other caller, the user and the contract owner included, moves it. *)
Theorem balances_move_only_by_delegate sender blk c st st' user tokenAddress :
  call sender blk c st = Ok st' ->
  balance user tokenAddress st' <> balance user tokenAddress st ->
  D.isActive (policy user st) = true
  /\ sender = D.delegate (policy user st)
  /\ c = UpdateBalance user tokenAddress (balance user tokenAddress st').
Proof.
  intros H Hdiff. destruct c as [u l | u l | u t ch pc | u t ch | u d sl am th cd | u
                                | u t b | u v]; cbn in H.
  - apply createPortfolio_Ok in H as (_ & _ & _ & _ & _ & ->). contradiction.
  - apply updatePortfolio_Ok in H as (_ & _ & _ & _ & _ & ->). contradiction.
  - unfold addAsset in H. do 4 apply bind_Ok in H as (? & _ & H).
    injection H as <-. contradiction.
  - unfold removeAsset in H. do 2 apply bind_Ok in H as (? & _ & H).
    destruct (findAsset _ _ _); [| discriminate]. injection H as <-. contradiction.
  - apply setDelegationPolicy_Ok in H as (_ & _ & _ & ->). contradiction.
  - apply revokeDelegation_Ok in H as (_ & ->). contradiction.
  - apply updateBalance_Ok in H as (Hact & Hd & ->).
    unfold balance in Hdiff |- *. cbn in Hdiff |- *.
    destruct (decide ((u, t) = (user, tokenAddress))) as [[= -> ->] | Hne].
    + rewrite read_insert_eq. auto.
    + rewrite read_insert_ne in Hdiff by exact Hne. contradiction.
  - apply executeRebalance_Ok in H as (_ & _ & _ & ->). contradiction.
Qed.

Lemma balances_move_only_by_delegate_witness :
  Scenario.agent = D.delegate (policy Scenario.alice (Scenario.managed Scenario.agent)).
Proof.
  apply (balances_move_only_by_delegate Scenario.agent (Scenario.block 100 1)
           (UpdateBalance Scenario.alice 11 7) (Scenario.managed Scenario.agent)
           (Scenario.get (init Scenario.admin)
              (updateBalance Scenario.agent Scenario.alice 11 7
                 (Scenario.managed Scenario.agent)))
           Scenario.alice 11).
  - vm_compute. reflexivity.
  - vm_compute. discriminate.
Defined.
End PolicyFacts.

(** ** More on the CrossChainRebalancer *)

Module ActionFacts.
Import CrossChainRebalancer RebalancerFacts.

Lemma action_set_manager actionId pm w :
  action actionId (set_manager pm w) = action actionId w.
Proof. reflexivity. Qed.

(** X14.  For a stored action that is not yet executed and an authorised
    agent as caller, [executeBridge] aborts with "Invalid bridge index"
    for an index past the last leg and with "Invalid bridge amount" for
    [actualAmount = 0].  Otherwise the PortfolioManager decides: the call
    aborts unless the action user's policy is active and names the
    rebalancer as delegate; when it does, the call succeeds, overwrites the
    user's balance of the bridged token with [actualAmount] (the previous
    balance is not added) and changes nothing else. *)
Theorem executeBridge_cases sender actionId bridgeIndex actualAmount w :
  (authorizedAgents (rebalancer w)).[sender] = true ->
  R.user (action actionId w) <> 0 ->
  R.executed (action actionId w) = false ->
  (N.of_nat (length (R.bridges (action actionId w))) <= bridgeIndex ->
   executeBridge sender actionId bridgeIndex actualAmount w
   = Revert "Invalid bridge index")
  /\ forall bridge,
      R.bridges (action actionId w) !! N.to_nat bridgeIndex = Some bridge ->
      (actualAmount = 0 ->
       executeBridge sender actionId bridgeIndex actualAmount w
       = Revert "Invalid bridge amount")
      /\ (0 < actualAmount ->
          (DelegationPolicy.isActive
             (PortfolioManager.policy (R.user (action actionId w)) (manager w))
           = false ->
           executeBridge sender actionId bridgeIndex actualAmount w
           = Revert "Delegation not active")
          /\ (DelegationPolicy.isActive
                (PortfolioManager.policy (R.user (action actionId w)) (manager w))
              = true ->
              DelegationPolicy.delegate
                (PortfolioManager.policy (R.user (action actionId w)) (manager w))
              <> self (rebalancer w) ->
              executeBridge sender actionId bridgeIndex actualAmount w
              = Revert "Not authorized delegate")
          /\ (DelegationPolicy.isActive
                (PortfolioManager.policy (R.user (action actionId w)) (manager w))
              = true ->
              DelegationPolicy.delegate
                (PortfolioManager.policy (R.user (action actionId w)) (manager w))
              = self (rebalancer w) ->
              exists w',
                executeBridge sender actionId bridgeIndex actualAmount w = Ok w'
                /\ rebalancer w' = rebalancer w
                /\ PortfolioManager.portfolios (manager w')
                   = PortfolioManager.portfolios (manager w)
                /\ PortfolioManager.delegationPolicies (manager w')
                   = PortfolioManager.delegationPolicies (manager w)
                /\ PortfolioManager.balance (R.user (action actionId w))
                     (Br.token bridge) (manager w') = actualAmount
                /\ forall u t,
                     (u, t) <> (R.user (action actionId w), Br.token bridge) ->
                     PortfolioManager.balance u t (manager w')
                     = PortfolioManager.balance u t (manager w))).
Proof.
  intros Hagent Huser Hexec. unfold executeBridge.
  apply (onlyAuthorizedAgent_Ok _ _ tt) in Hagent. rewrite Hagent. cbn.
  rewrite (proj2 (validAction_Ok actionId w tt) (conj Huser Hexec)). cbn. split.
  - intros Hout. apply N.ltb_ge in Hout. rewrite Hout. reflexivity.
  - intros bridge Hleg.
    assert (Hidx : (bridgeIndex <? N.of_nat (length (R.bridges (action actionId w))))
                   = true).
    { apply N.ltb_lt. apply lookup_lt_Some in Hleg. lia. }
    rewrite Hidx, Hleg. cbn. split.
    + intros ->. reflexivity.
    + intros Hpos. apply N.ltb_lt in Hpos. rewrite Hpos. cbn.
      unfold PortfolioManager.updateBalance. split; [| split].
      * intros ->. reflexivity.
      * intros -> Hne. cbn. apply not_eq_sym, N.eqb_neq in Hne. rewrite Hne.
        reflexivity.
      * intros Hact Hdel. rewrite Hact. cbn. rewrite <- Hdel, N.eqb_refl. cbn.
        eexists. split; [reflexivity |]. cbn.
        split; [reflexivity |]. split; [reflexivity |]. split; [reflexivity |].
        split.
        -- unfold PortfolioManager.balance. cbn. apply read_insert_eq.
        -- intros u t Hne. unfold PortfolioManager.balance. cbn.
           rewrite read_insert_ne by congruence. reflexivity.
Qed.

(** X15.  For a stored action that is not yet executed and an authorised
    agent as caller, at a block time that fits a [uint256],
    [completeRebalanceAction] succeeds exactly when the action user's
    policy is active, names the rebalancer as delegate, and the cooldown
    since the last rebalance has passed.  It then sets the
    action's [executed] flag and nothing else of the action, stores the
    action's total value and the block time in the user's portfolio, and
    leaves assets, policies and balances alone. *)
Theorem completeRebalanceAction_cases sender blk actionId w :
  timestamp blk <= MAX_UINT256 ->
  (authorizedAgents (rebalancer w)).[sender] = true ->
  R.user (action actionId w) <> 0 ->
  R.executed (action actionId w) = false ->
  (is_ok (completeRebalanceAction sender blk actionId w) = true
   <-> DelegationPolicy.isActive
         (PortfolioManager.policy (R.user (action actionId w)) (manager w)) = true
       /\ DelegationPolicy.delegate
            (PortfolioManager.policy (R.user (action actionId w)) (manager w))
          = self (rebalancer w)
       /\ Portfolio.lastRebalance
            (PortfolioManager.portfolio (R.user (action actionId w)) (manager w))
          + DelegationPolicy.cooldownPeriod
              (PortfolioManager.policy (R.user (action actionId w)) (manager w))
          <= timestamp blk)
  /\ forall w',
      completeRebalanceAction sender blk actionId w = Ok w' ->
      action actionId w' = R.set_executed true (action actionId w)
      /\ (forall k, k <> actionId -> action k w' = action k w)
      /\ PortfolioManager.portfolio (R.user (action actionId w)) (manager w')
         = Portfolio.mk
             (Portfolio.assets
                (PortfolioManager.portfolio (R.user (action actionId w)) (manager w)))
             (R.totalValue (action actionId w)) (timestamp blk)
             (Portfolio.isActive
                (PortfolioManager.portfolio (R.user (action actionId w)) (manager w)))
      /\ PortfolioManager.delegationPolicies (manager w')
         = PortfolioManager.delegationPolicies (manager w)
      /\ PortfolioManager.userBalances (manager w')
         = PortfolioManager.userBalances (manager w).
Proof.
  intros Hnow Hagent Huser Hexec.
  assert (Hshape : completeRebalanceAction sender blk actionId w
                   = (fun pm =>
                        set_manager pm
                          (set_action actionId
                             (R.set_executed true (action actionId w)) w))
                       <$> PortfolioManager.executeRebalance (self (rebalancer w))
                             blk (R.user (action actionId w))
                             (R.totalValue (action actionId w)) (manager w)).
  { unfold completeRebalanceAction.
    apply (onlyAuthorizedAgent_Ok _ _ tt) in Hagent. rewrite Hagent. cbn.
    rewrite (proj2 (validAction_Ok actionId w tt) (conj Huser Hexec)). cbn.
    destruct (PortfolioManager.executeRebalance _ _ _ _ _); reflexivity. }
  rewrite Hshape. split.
  - split.
    + intros H. apply is_ok_true in H as [w' H].
      apply fmap_Ok in H as (pm & H & _).
      apply PolicyFacts.executeRebalance_Ok in H as (Hact & Hd & Hready & _). auto.
    + intros (Hact & Hd & Hready).
      unfold PortfolioManager.executeRebalance, checked_add.
      rewrite Hact, Hd, N.eqb_refl. cbn.
      assert (Hfit : (Portfolio.lastRebalance
                        (PortfolioManager.portfolio (R.user (action actionId w))
                           (manager w))
                      + DelegationPolicy.cooldownPeriod
                          (PortfolioManager.policy (R.user (action actionId w))
                             (manager w)) <=? MAX_UINT256) = true)
        by (apply N.leb_le; lia).
      rewrite Hfit. cbn. apply N.leb_le in Hready. rewrite Hready. reflexivity.
  - intros w' H. apply fmap_Ok in H as (pm & H & <-).
    apply PolicyFacts.executeRebalance_Ok in H as (_ & _ & _ & ->).
    split; [rewrite action_set_manager, action_set_action, decide_True by reflexivity;
            reflexivity |].
    split; [intros k Hne;
            rewrite action_set_manager, action_set_action, decide_False by congruence;
            reflexivity |].
    cbn. split; [| split; reflexivity].
    rewrite ManagerFacts.portfolio_set_portfolio, decide_True by reflexivity.
    reflexivity.
Qed.

(** X17.  [emergencyPause] succeeds exactly for the contract owner on a
    stored action, executed or not.  It sets the action's [executed] flag
    and touches nothing else: no other field or action, and nothing in the
    PortfolioManager, so neither balances nor the rebalance stamp move. *)
Theorem emergencyPause_cases sender actionId w :
  (is_ok (emergencyPause sender actionId w) = true
   <-> sender = owner (rebalancer w) /\ R.user (action actionId w) <> 0)
  /\ forall w',
       emergencyPause sender actionId w = Ok w' ->
       action actionId w' = R.set_executed true (action actionId w)
       /\ (forall k, k <> actionId -> action k w' = action k w)
       /\ manager w' = manager w
       /\ authorizedAgents (rebalancer w') = authorizedAgents (rebalancer w).
Proof.
  unfold emergencyPause, onlyOwner. split.
  - split.
    + intros H. apply is_ok_true in H as [w' H].
      apply bind_Ok in H as (u1 & Ho & H). apply require_Ok, N.eqb_eq in Ho.
      apply bind_Ok in H as (u2 & Hu & _).
      apply require_Ok, negb_true_iff, N.eqb_neq in Hu. auto.
    + intros [-> Hu]. rewrite N.eqb_refl. cbn.
      apply N.eqb_neq in Hu. rewrite Hu. reflexivity.
  - intros w' H. do 2 apply bind_Ok in H as (? & _ & H). injection H as <-.
    split; [rewrite action_set_action, decide_True by reflexivity; reflexivity |].
    split; [| split; reflexivity].
    intros k Hne. rewrite action_set_action, decide_False by congruence.
    reflexivity.
Qed.

(** X18.  [setAuthorizedAgent] succeeds exactly for the contract owner and
    changes only that agent's entry.  An agent whose entry is [false] gets
    "Not authorized agent" from [executeSwap], [executeBridge] and
    [completeRebalanceAction] on every action, whatever its state. *)
Theorem setAuthorizedAgent_cases sender agent authorized w :
  (is_ok (setAuthorizedAgent sender agent authorized w) = true
   <-> sender = owner (rebalancer w))
  /\ forall w',
       setAuthorizedAgent sender agent authorized w = Ok w' ->
       (authorizedAgents (rebalancer w')).[agent] = authorized
       /\ (forall a, a <> agent ->
           (authorizedAgents (rebalancer w')).[a]
           = (authorizedAgents (rebalancer w)).[a])
       /\ rebalanceActions (rebalancer w') = rebalanceActions (rebalancer w)
       /\ manager w' = manager w
       /\ (authorized = false ->
           forall blk actionId k x,
             executeSwap agent actionId k x w' = Revert "Not authorized agent"
             /\ executeBridge agent actionId k x w' = Revert "Not authorized agent"
             /\ completeRebalanceAction agent blk actionId w'
                = Revert "Not authorized agent").
Proof.
  unfold setAuthorizedAgent, onlyOwner. split.
  - split.
    + intros H. apply is_ok_true in H as [w' H].
      apply bind_Ok in H as (u1 & Ho & _). apply require_Ok, N.eqb_eq in Ho. exact Ho.
    + intros ->. rewrite N.eqb_refl. reflexivity.
  - intros w' H. apply bind_Ok in H as (u1 & _ & H). injection H as <-. cbn.
    split; [apply read_insert_eq |].
    split; [intros a Hne; apply read_insert_ne; congruence |].
    split; [reflexivity |]. split; [reflexivity |].
    intros -> blk actionId k amount.
    unfold executeSwap, executeBridge, completeRebalanceAction, onlyAuthorizedAgent.
    cbn. rewrite read_insert_eq. auto.
Qed.

Section WithPrimitives.
Context {prim : Primitives}.
Import ActionNotions.

Lemma call_keeps_executed sender blk c w w' actionId :
  ~ recreates actionId (mkTx sender blk c) ->
  R.executed (action actionId w) = true ->
  call sender blk c w = Ok w' ->
  R.executed (action actionId w') = true.
Proof.
  intros Hno Hexec H.
  destruct c as [a b | ch t p | u s b v | i k x | i k x | i | i | c'];
    try (eapply call_keeps_terminal; [| exact Hexec | exact H]; discriminate).
  cbn in H. apply fmap_Ok in H as ([actionId' w1] & H & <-).
  unfold createRebalanceAction in H. do 3 apply bind_Ok in H as (? & _ & H).
  injection H as <- <-. cbn. rewrite action_set_action.
  destruct (decide _) as [Heq | _]; [| exact Hexec].
  exfalso. apply Hno. exists u, s, b, v. auto.
Qed.

(** X16.  An executed action stays executed through every sequence of
    transactions in which no [createRebalanceAction] computes its id again,
    and on the resulting storage [executeSwap], [executeBridge] and
    [completeRebalanceAction] on that id fail for every caller. *)
Theorem executed_stays_without_recreation txs w actionId :
  Forall (fun tx => ~ recreates actionId tx) txs ->
  R.executed (action actionId w) = true ->
  R.executed (action actionId (run txs w)) = true
  /\ forall sender blk k x,
       is_ok (executeSwap sender actionId k x (run txs w)) = false
       /\ is_ok (executeBridge sender actionId k x (run txs w)) = false
       /\ is_ok (completeRebalanceAction sender blk actionId (run txs w)) = false.
Proof.
  intros Htxs Hexec.
  assert (Hkeep : R.executed (action actionId (run txs w)) = true).
  { revert w Hexec. induction txs as [| tx txs IH]; cbn; intros w Hexec;
      [exact Hexec |].
    inversion Htxs as [| ? ? Htx Hrest]; subst. apply IH; [exact Hrest |].
    unfold transact.
    destruct (call (tx_sender tx) (tx_block tx) (tx_call tx) w) eqn:E;
      [| exact Hexec ..].
    eapply call_keeps_executed; [| exact Hexec | exact E].
    destruct tx. exact Htx. }
  split; [exact Hkeep |]. intros sender blk k x.
  apply (terminal_rejects sender blk actionId k x _ Hkeep).
Qed.
End WithPrimitives.

#[local] Existing Instance Scenario.primitives.

Lemma executeBridge_cases_witness :
  executeBridge Scenario.agent Scenario.bridgeActionId 0 0 Scenario.bridging
  = Revert "Invalid bridge amount"
  /\ exists w',
       executeBridge Scenario.agent Scenario.bridgeActionId 0 70 Scenario.bridging
       = Ok w'
       /\ PortfolioManager.balance Scenario.alice 11 (manager w') = 70.
Proof.
  destruct (executeBridge_cases Scenario.agent Scenario.bridgeActionId 0 0
              Scenario.bridging) as [_ H0];
    [vm_compute; reflexivity | vm_compute; discriminate | vm_compute; reflexivity |].
  destruct (executeBridge_cases Scenario.agent Scenario.bridgeActionId 0 70
              Scenario.bridging) as [_ H70];
    [vm_compute; reflexivity | vm_compute; discriminate | vm_compute; reflexivity |].
  split.
  - apply (H0 (Scenario.bridgeLeg 11)); [vm_compute; reflexivity | reflexivity].
  - destruct (H70 (Scenario.bridgeLeg 11)) as [_ H]; [vm_compute; reflexivity |].
    destruct H as (_ & _ & H); [reflexivity |].
    destruct H as (w' & Hok & _ & _ & _ & Hbal & _);
      [vm_compute; reflexivity | vm_compute; reflexivity |].
    exists w'. split; [exact Hok | exact Hbal].
Defined.

Lemma completeRebalanceAction_cases_witness :
  is_ok (completeRebalanceAction Scenario.agent (Scenario.block 10000 5)
           (Scenario.aliceActionId (Scenario.block 10000 5)) Scenario.swapping)
  = true.
Proof.
  apply (completeRebalanceAction_cases Scenario.agent (Scenario.block 10000 5)
           (Scenario.aliceActionId (Scenario.block 10000 5)) Scenario.swapping).
  - vm_compute. discriminate.
  - vm_compute. reflexivity.
  - vm_compute. discriminate.
  - vm_compute. reflexivity.
  - split; [vm_compute; reflexivity |]. split; [vm_compute; reflexivity |].
    vm_compute. discriminate.
Defined.

Lemma emergencyPause_cases_witness :
  is_ok (emergencyPause Scenario.admin
           (Scenario.aliceActionId (Scenario.block 10000 5)) Scenario.swapping)
  = true.
Proof.
  apply (emergencyPause_cases Scenario.admin
           (Scenario.aliceActionId (Scenario.block 10000 5)) Scenario.swapping).
  split; [vm_compute; reflexivity | vm_compute; discriminate].
Defined.

Lemma setAuthorizedAgent_cases_witness :
  executeSwap Scenario.agent (Scenario.aliceActionId (Scenario.block 10000 5)) 0 99
    (Scenario.get Scenario.swapping
       (setAuthorizedAgent Scenario.admin Scenario.agent false Scenario.swapping))
  = Revert "Not authorized agent".
Proof.
  destruct (setAuthorizedAgent_cases Scenario.admin Scenario.agent false
              Scenario.swapping) as [_ H].
  destruct (H (Scenario.get Scenario.swapping
                 (setAuthorizedAgent Scenario.admin Scenario.agent false
                    Scenario.swapping)) ltac:(vm_compute; reflexivity))
    as (_ & _ & _ & _ & Hoff).
  apply (Hoff eq_refl (Scenario.block 10000 5)).
Defined.

Lemma executed_stays_without_recreation_witness :
  R.executed
    (action (Scenario.aliceActionId (Scenario.block 10000 5))
       (run [Scenario.createFor (Scenario.block 10001 6) (Scenario.swapLeg 11 12 99) 5]
          (run [mkTx Scenario.admin (Scenario.block 10000 5)
                  (EmergencyPause (Scenario.aliceActionId (Scenario.block 10000 5)))]
               Scenario.swapping))) = true.
Proof.
  apply (executed_stays_without_recreation
           [Scenario.createFor (Scenario.block 10001 6) (Scenario.swapLeg 11 12 99) 5]).
  - constructor; [| constructor].
    intros (u & s & b & v & Hc & Hid). injection Hc as <- <- <- _.
    vm_compute in Hid. discriminate.
  - vm_compute. reflexivity.
Defined.

(** *** Drift *)

Lemma sumValues_grows (w : World) (tokens : list N) :
  forall currentBalances assets acc total,
    sumValues w tokens currentBalances assets acc = Ok total -> acc <= total.
Proof.
  induction tokens as [| t ts IH]; intros [| b bs] [| a rest] acc total H;
    cbn in H; try (injection H as <-; lia).
  apply bind_Ok in H as (v & _ & H). apply bind_Ok in H as (acc' & Hadd & H).
  apply checked_add_Ok in Hadd as [-> _]. apply IH in H. lia.
Qed.

Lemma currentPercentageOf_bound currentValue totalValue c :
  currentValue <= totalValue ->
  currentPercentageOf currentValue totalValue = Ok c -> c <= 10000.
Proof.
  unfold currentPercentageOf, checked_mul. intros Hle H.
  destruct (N.ltb_spec 0 totalValue) as [Hpos | _]; [| injection H as <-; lia].
  destruct (_ <=? _); [| discriminate]. cbn in H. injection H as <-.
  apply N.Div0.div_le_upper_bound; lia.
Qed.

Lemma drift_bound c target : PortfolioManager.drift c target <= N.max c target.
Proof. unfold PortfolioManager.drift. destruct (N.ltb_spec target c); lia. Qed.

Lemma driftsOf_bound (w : World) (tokens : list N) :
  forall currentBalances assets acc total totalValue drifts,
    length tokens = length currentBalances ->
    length tokens = length assets ->
    sumValues w tokens currentBalances assets acc = Ok total ->
    total <= totalValue ->
    driftsOf w tokens currentBalances assets totalValue = Ok drifts ->
    Forall2 (fun d a => d <= N.max 10000 (Asset.targetPercentage a)) drifts assets.
Proof.
  induction tokens as [| t ts IH];
    intros [| b bs] [| a rest] acc total totalValue drifts Hb Ha Hsum Hle H;
    try discriminate; cbn in H, Hsum.
  - injection H as <-. constructor.
  - apply bind_Ok in Hsum as (v & Hv & Hsum).
    apply bind_Ok in Hsum as (acc' & Hadd & Hsum).
    apply checked_add_Ok in Hadd as [-> _].
    apply bind_Ok in H as (v' & Hv' & H). rewrite Hv in Hv'. injection Hv' as <-.
    apply bind_Ok in H as (c & Hc & H). apply bind_Ok in H as (others & Ho & H).
    injection H as <-.
    pose proof (sumValues_grows _ _ _ _ _ _ Hsum) as Hgrow.
    apply currentPercentageOf_bound in Hc; [| lia].
    constructor.
    + pose proof (drift_bound c (Asset.targetPercentage a)). lia.
    + injection Hb as Hb. injection Ha as Ha.
      exact (IH bs rest (acc + v) total totalValue others Hb Ha Hsum Hle Ho).
Qed.

(** X19.  [calculateDrift] aborts with "Invalid input length" when the two
    arrays differ in length and with "Invalid portfolio length" when they
    do not match the user's asset count.  When it returns, it returns one
    drift per asset, and no drift exceeds the larger of 10000 and the
    asset's target. *)
Theorem calculateDrift_bounds user (tokens : list N) (currentBalances : list N) w :
  (length tokens <> length currentBalances ->
   calculateDrift user tokens currentBalances w = Revert "Invalid input length")
  /\ (length tokens = length currentBalances ->
      length tokens
      <> length (Portfolio.assets (PortfolioManager.portfolio user (manager w))) ->
      calculateDrift user tokens currentBalances w
      = Revert "Invalid portfolio length")
  /\ forall drifts,
       calculateDrift user tokens currentBalances w = Ok drifts ->
       Forall2 (fun d a => d <= N.max 10000 (Asset.targetPercentage a)) drifts
         (Portfolio.assets (PortfolioManager.portfolio user (manager w))).
Proof.
  unfold calculateDrift. split; [| split].
  - intros Hne.
    rewrite (bool_decide_eq_false_2 (length tokens = length currentBalances))
      by exact Hne. reflexivity.
  - intros Heq Hne.
    rewrite (bool_decide_eq_true_2 (length tokens = length currentBalances))
      by exact Heq. cbn.
    rewrite bool_decide_eq_false_2 by exact Hne. reflexivity.
  - intros drifts H.
    apply bind_Ok in H as (u1 & Hb & H). apply require_Ok, bool_decide_eq_true in Hb.
    apply bind_Ok in H as (u2 & Ha & H). apply require_Ok, bool_decide_eq_true in Ha.
    apply bind_Ok in H as (total & Hsum & H).
    eapply driftsOf_bound; eauto; lia.
Qed.

Lemma valueOf_unpriced (w : World) token b a :
  getTokenPrice (Asset.chainId a) token w = 0 -> valueOf w token b a = Ok 0.
Proof.
  intros Hp. unfold valueOf, checked_mul. rewrite Hp, N.mul_0_r. reflexivity.
Qed.

Lemma unpriced_drifts (w : World) (tokens : list N) :
  (forall chainId token, getTokenPrice chainId token w = 0) ->
  forall (currentBalances : list N) assets,
    length tokens = length currentBalances ->
    length tokens = length assets ->
    sumValues w tokens currentBalances assets 0 = Ok 0
    /\ driftsOf w tokens currentBalances assets 0
       = Ok (map Asset.targetPercentage assets).
Proof.
  intros Hp. induction tokens as [| t ts IH]; intros [| b bs] [| a rest] Hb Ha;
    try discriminate; cbn; [auto |].
  rewrite valueOf_unpriced by apply Hp. cbn.
  injection Hb as Hb. injection Ha as Ha.
  change (checked_add 0 0) with (Ok (A := N) 0). cbn.
  destruct (IH bs rest Hb Ha) as [-> ->]. cbn. split; [reflexivity |].
  unfold PortfolioManager.drift.
  destruct (N.ltb_spec (Asset.targetPercentage a) 0) as [Hneg | _]; [lia |].
  rewrite N.sub_0_r. reflexivity.
Qed.

(** X20.  While no price is set, every price reads as zero and
    [calculateDrift], given arrays of the right lengths, reports each
    asset's full target as its drift, whatever the balances. *)
Theorem calculateDrift_unpriced user (tokens : list N) (currentBalances : list N) w :
  chainTokenPrices (rebalancer w) = ∅ ->
  length tokens = length currentBalances ->
  length tokens
  = length (Portfolio.assets (PortfolioManager.portfolio user (manager w))) ->
  (forall chainId token, getTokenPrice chainId token w = 0)
  /\ calculateDrift user tokens currentBalances w
     = Ok (map Asset.targetPercentage
             (Portfolio.assets (PortfolioManager.portfolio user (manager w)))).
Proof.
  intros Hempty Hb Ha.
  assert (Hp : forall chainId token, getTokenPrice chainId token w = 0).
  { intros c t. unfold getTokenPrice. rewrite Hempty. apply read_empty. }
  split; [exact Hp |]. unfold calculateDrift.
  rewrite (bool_decide_eq_true_2 (length tokens = length currentBalances))
    by exact Hb. cbn.
  rewrite bool_decide_eq_true_2 by exact Ha. cbn.
  destruct (unpriced_drifts w tokens Hp currentBalances _ Hb Ha) as [Hs Hd].
  rewrite Hs. exact Hd.
Qed.

Lemma calculateDrift_bounds_witness :
  calculateDrift Scenario.alice [11] [5; 5] Scenario.priced
  = Revert "Invalid input length"
  /\ calculateDrift Scenario.alice [11] [5] Scenario.priced
     = Revert "Invalid portfolio length"
  /\ Forall2 (fun d a => d <= N.max 10000 (Asset.targetPercentage a))
       [2500; 2500]
       (Portfolio.assets
          (PortfolioManager.portfolio Scenario.alice (manager Scenario.priced))).
Proof.
  split; [| split].
  - destruct (calculateDrift_bounds Scenario.alice [11] [5; 5] Scenario.priced)
      as (H & _ & _).
    apply H. vm_compute. discriminate.
  - destruct (calculateDrift_bounds Scenario.alice [11] [5] Scenario.priced)
      as (_ & H & _).
    apply H; [reflexivity | vm_compute; discriminate].
  - destruct (calculateDrift_bounds Scenario.alice [11; 12] [30; 30]
                Scenario.priced) as (_ & _ & H).
    apply H. vm_compute. reflexivity.
Defined.

Lemma calculateDrift_unpriced_witness :
  (forall chainId token, getTokenPrice chainId token Scenario.swapping = 0)
  /\ calculateDrift Scenario.alice [11; 12] [30; 70] Scenario.swapping
     = Ok [5000; 5000].
Proof.
  apply (calculateDrift_unpriced Scenario.alice [11; 12] [30; 70]
           Scenario.swapping); vm_compute; reflexivity.
Defined.
End ActionFacts.

(** ** The facade *)

Module FacadeFacts.
Import IgnisX.
Module S := DelegationSession.
Module D := DelegationPolicy.

Section WithPrimitives.
Context {prim : Primitives} {fprim : FacadePrimitives}.

(** The reason with which the facade turns down a session that names
    another delegate. *)
Lemma consume_foreign blk sessionId operation h st :
  S.delegate (Lit.session sessionId (litDelegate st)) <> self st ->
  consume blk sessionId operation h st
  = Revert (if Lit.isSessionValid blk sessionId (litDelegate st)
            then "Not authorized delegate" else "Invalid session").
Proof.
  intros Hne. unfold consume.
  destruct (Lit.isSessionValid blk sessionId (litDelegate st)); [| reflexivity].
  cbn. unfold Lit.executeOperation, Lit.onlyDelegate.
  assert (Hs : (self st =? S.delegate (Lit.session sessionId (litDelegate st)))
               = false) by (apply N.eqb_neq; congruence).
  rewrite Hs. reflexivity.
Qed.

(** X21.  A session whose delegate is not the facade itself cannot drive
    any of the facade's four session-guarded entry points: each aborts,
    with "Invalid session" when the session is not valid and with "Not
    authorized delegate" when it is, whoever calls and whatever the
    operation. *)
Theorem guarded_calls_reject_foreign_sessions sender blk sessionId operation st :
  S.delegate (Lit.session sessionId (litDelegate st)) <> self st ->
  let reason := if Lit.isSessionValid blk sessionId (litDelegate st)
                then "Not authorized delegate" else "Invalid session" in
  (forall user swaps bridges totalValue,
      triggerRebalancing sender blk user swaps bridges totalValue sessionId
        operation st = Revert reason)
  /\ (forall actionId swapIndex actualAmountOut,
         executeSwap sender blk actionId swapIndex actualAmountOut sessionId
           operation st = Revert reason)
  /\ (forall actionId bridgeIndex actualAmount,
         executeBridge sender blk actionId bridgeIndex actualAmount sessionId
           operation st = Revert reason)
  /\ (forall actionId,
         completeRebalancing sender blk actionId sessionId operation st
         = Revert reason).
Proof.
  intros Hne reason. subst reason.
  unfold triggerRebalancing, executeSwap, executeBridge, completeRebalancing.
  repeat split; intros; rewrite consume_foreign by exact Hne; reflexivity.
Qed.

(** What a returning [enableAutopilot] has checked and written. *)
Lemma enableAutopilot_Ok sender blk user maxSlippage maxRebalanceAmount
    rebalanceThreshold cooldownPeriod sessionExpiry maxOperations st sessionId st' :
  enableAutopilot sender blk user maxSlippage maxRebalanceAmount
    rebalanceThreshold cooldownPeriod sessionExpiry maxOperations st
  = Ok (sessionId, st') ->
  (sender = user \/ sender = owner st)
  /\ timestamp blk < sessionExpiry /\ 0 < maxOperations
  /\ PM.P.isActive (PM.portfolio user (portfolioManager st)) = true
  /\ Lit.session sessionId (litDelegate st')
     = S.mk user (rebalancerAddress st) (Lit.userNonces (litDelegate st)).[user]
         sessionExpiry
         (createPolicyHash maxSlippage maxRebalanceAmount rebalanceThreshold
            cooldownPeriod)
         true maxOperations 0
  /\ portfolioManager st'
     = PM.set_policy user
         (D.mk (rebalancerAddress st) maxSlippage maxRebalanceAmount
            rebalanceThreshold cooldownPeriod true)
         (portfolioManager st)
  /\ rebalancer st' = rebalancer st /\ self st' = self st /\ owner st' = owner st.
Proof.
  unfold enableAutopilot, authorized. intros H.
  apply bind_Ok in H as (u1 & Hauth & H).
  apply require_Ok, orb_true_iff in Hauth. rewrite !N.eqb_eq in Hauth.
  apply bind_Ok in H as ([sid lit] & Hc & H).
  apply bind_Ok in H as (pm & Hp & H). injection H as <- <-.
  apply SessionFacts.createDelegationSession_Ok
    in Hc as (_ & _ & He & Hm & _ & _ & ->).
  apply PolicyFacts.setDelegationPolicy_Ok in Hp as (_ & Hact & _ & ->).
  cbn. unfold Lit.session. cbn. rewrite read_insert_eq. auto 10.
Qed.

(** X22.  [enableAutopilot] aborts with "Not authorized" for a caller who
    is neither the user nor the facade's owner, and cannot succeed for a
    user without an active portfolio.  When it returns, the session it
    names is stored fresh, active and unused for the user, with the
    rebalancer as delegate and the hash of the four policy values as
    policy hash; the user's policy names the rebalancer as delegate with
    the same four values; and the rebalancer's storage is as before. *)
Theorem enableAutopilot_cases sender blk user maxSlippage maxRebalanceAmount
    rebalanceThreshold cooldownPeriod sessionExpiry maxOperations st :
  (sender <> user -> sender <> owner st ->
   enableAutopilot sender blk user maxSlippage maxRebalanceAmount
     rebalanceThreshold cooldownPeriod sessionExpiry maxOperations st
   = Revert "Not authorized")
  /\ (PM.P.isActive (PM.portfolio user (portfolioManager st)) = false ->
      is_ok (enableAutopilot sender blk user maxSlippage maxRebalanceAmount
               rebalanceThreshold cooldownPeriod sessionExpiry maxOperations st)
      = false)
  /\ forall sessionId st',
       enableAutopilot sender blk user maxSlippage maxRebalanceAmount
         rebalanceThreshold cooldownPeriod sessionExpiry maxOperations st
       = Ok (sessionId, st') ->
       Lit.session sessionId (litDelegate st')
       = S.mk user (rebalancerAddress st)
           (Lit.userNonces (litDelegate st)).[user] sessionExpiry
           (createPolicyHash maxSlippage maxRebalanceAmount rebalanceThreshold
              cooldownPeriod)
           true maxOperations 0
       /\ PM.policy user (portfolioManager st')
          = D.mk (rebalancerAddress st) maxSlippage maxRebalanceAmount
              rebalanceThreshold cooldownPeriod true
       /\ rebalancer st' = rebalancer st.
Proof.
  split; [| split].
  - intros Hu Ho. unfold enableAutopilot, authorized.
    apply N.eqb_neq in Hu, Ho. rewrite Hu, Ho. reflexivity.
  - intros Hoff. apply is_ok_false. intros [sessionId st'] H.
    apply enableAutopilot_Ok in H as (_ & _ & _ & Hact & _). congruence.
  - intros sessionId st' H.
    apply enableAutopilot_Ok in H as (_ & _ & _ & _ & Hs & Hp & Hr & _).
    split; [exact Hs | split; [| exact Hr]].
    rewrite Hp, PolicyFacts.policy_set_policy.
    destruct (decide (user = user)); [reflexivity | contradiction].
Qed.

(** X23.  The session that [enableAutopilot] hands out names the
    rebalancer as delegate, while the facade forwards every operation
    under its own address: where the two addresses differ, none of the
    four session-guarded entry points can succeed with that session in
    the state [enableAutopilot] leaves. *)
Theorem autopilot_session_unusable sender blk user maxSlippage maxRebalanceAmount
    rebalanceThreshold cooldownPeriod sessionExpiry maxOperations st sessionId st' :
  enableAutopilot sender blk user maxSlippage maxRebalanceAmount
    rebalanceThreshold cooldownPeriod sessionExpiry maxOperations st
  = Ok (sessionId, st') ->
  rebalancerAddress st <> self st ->
  forall sender' blk' operation,
    (forall user' swaps bridges totalValue,
        is_ok (triggerRebalancing sender' blk' user' swaps bridges totalValue
                 sessionId operation st') = false)
    /\ (forall actionId swapIndex actualAmountOut,
           is_ok (executeSwap sender' blk' actionId swapIndex actualAmountOut
                    sessionId operation st') = false)
    /\ (forall actionId bridgeIndex actualAmount,
           is_ok (executeBridge sender' blk' actionId bridgeIndex actualAmount
                    sessionId operation st') = false)
    /\ (forall actionId,
           is_ok (completeRebalancing sender' blk' actionId sessionId operation
                    st') = false).
Proof.
  intros H Hne sender' blk' operation.
  apply enableAutopilot_Ok in H as (_ & _ & _ & _ & Hs & _ & _ & Hself & _).
  assert (Hd : S.delegate (Lit.session sessionId (litDelegate st')) <> self st')
    by (rewrite Hs, Hself; exact Hne).
  unfold triggerRebalancing, executeSwap, executeBridge, completeRebalancing.
  repeat split; intros; rewrite consume_foreign by exact Hd; reflexivity.
Qed.

(** X24.  [disableAutopilot] switches the user's policy off and leaves the
    session authority untouched: the session that [enableAutopilot] handed
    out is still valid at any time up to its expiry. *)
Theorem disableAutopilot_keeps_session sender blk user maxSlippage
    maxRebalanceAmount rebalanceThreshold cooldownPeriod sessionExpiry
    maxOperations st sessionId st1 sender' st2 blk' :
  enableAutopilot sender blk user maxSlippage maxRebalanceAmount
    rebalanceThreshold cooldownPeriod sessionExpiry maxOperations st
  = Ok (sessionId, st1) ->
  disableAutopilot sender' user st1 = Ok st2 ->
  timestamp blk' <= sessionExpiry ->
  D.isActive (PM.policy user (portfolioManager st2)) = false
  /\ D.delegate (PM.policy user (portfolioManager st2)) = rebalancerAddress st
  /\ litDelegate st2 = litDelegate st1
  /\ Lit.isSessionValid blk' sessionId (litDelegate st2) = true.
Proof.
  intros H Hoff Hle.
  apply enableAutopilot_Ok in H as (_ & _ & Hm & _ & Hs & Hp & _).
  unfold disableAutopilot in Hoff.
  apply bind_Ok in Hoff as (u1 & _ & Hoff).
  apply bind_Ok in Hoff as (pm & Hr & Hoff). injection Hoff as <-.
  apply PolicyFacts.revokeDelegation_Ok in Hr as (_ & ->). cbn.
  rewrite PolicyFacts.policy_set_policy.
  destruct (decide (user = user)); [| contradiction].
  rewrite Hp, PolicyFacts.policy_set_policy.
  destruct (decide (user = user)); [| contradiction].
  repeat split. unfold Lit.isSessionValid. rewrite Hs. cbn.
  apply N.leb_le in Hle. apply N.ltb_lt in Hm. rewrite Hle, Hm. reflexivity.
Qed.
End WithPrimitives.

#[local] Existing Instance Scenario.primitives.
#[local] Existing Instance Scenario.facadePrimitives.

Lemma guarded_calls_reject_foreign_sessions_witness :
  executeSwap Scenario.agent (Scenario.block 200 2) 1 0 60 (fst Scenario.enabled)
    Scenario.signed (snd Scenario.enabled)
  = Revert "Not authorized delegate".
Proof.
  destruct (guarded_calls_reject_foreign_sessions Scenario.agent
              (Scenario.block 200 2) (fst Scenario.enabled) Scenario.signed
              (snd Scenario.enabled)) as (_ & H & _).
  - vm_compute. discriminate.
  - exact (H 1 0 60).
Defined.

Lemma enableAutopilot_cases_witness :
  enableAutopilot Scenario.mallory (Scenario.block 100 1) Scenario.alice 50 1000
    100 3600 1000 5 Scenario.facade
  = Revert "Not authorized"
  /\ PM.policy Scenario.alice (portfolioManager (snd Scenario.enabled))
     = D.mk Scenario.rebalancerAddress 50 1000 100 3600 true.
Proof.
  split.
  - destruct (enableAutopilot_cases Scenario.mallory (Scenario.block 100 1)
                Scenario.alice 50 1000 100 3600 1000 5 Scenario.facade)
      as (H & _ & _).
    apply H; vm_compute; discriminate.
  - destruct (enableAutopilot_cases Scenario.alice (Scenario.block 100 1)
                Scenario.alice 50 1000 100 3600 1000 5 Scenario.facade)
      as (_ & _ & H).
    destruct (H (fst Scenario.enabled) (snd Scenario.enabled)) as (_ & Hp & _).
    + vm_compute. reflexivity.
    + exact Hp.
Defined.

Lemma autopilot_session_unusable_witness :
  is_ok (completeRebalancing Scenario.agent (Scenario.block 200 2) 1
           (fst Scenario.enabled) Scenario.signed (snd Scenario.enabled))
  = false.
Proof.
  destruct (autopilot_session_unusable Scenario.alice (Scenario.block 100 1)
              Scenario.alice 50 1000 100 3600 1000 5 Scenario.facade
              (fst Scenario.enabled) (snd Scenario.enabled))
    with (sender' := Scenario.agent) (blk' := Scenario.block 200 2)
         (operation := Scenario.signed) as (_ & _ & _ & H).
  - vm_compute. reflexivity.
  - vm_compute. discriminate.
  - exact (H 1).
Defined.

Lemma disableAutopilot_keeps_session_witness :
  D.isActive (PM.policy Scenario.alice (portfolioManager Scenario.disabled))
  = false
  /\ Lit.isSessionValid (Scenario.block 500 3) (fst Scenario.enabled)
       (litDelegate Scenario.disabled) = true.
Proof.
  destruct (disableAutopilot_keeps_session Scenario.alice (Scenario.block 100 1)
              Scenario.alice 50 1000 100 3600 1000 5 Scenario.facade
              (fst Scenario.enabled) (snd Scenario.enabled) Scenario.alice
              Scenario.disabled (Scenario.block 500 3))
    as (Hoff & _ & _ & Hvalid).
  - vm_compute. reflexivity.
  - vm_compute. reflexivity.
  - vm_compute. discriminate.
  - split; [exact Hoff | exact Hvalid].
Defined.
End FacadeFacts.
